(** * Skill Survey Bot: a shallow embedding of [streamlit_app.py]

    The development follows the layout of the script: the Python
    built-ins it relies on ([str], [dict], [set], [uuid]), the JSON
    document kept in [data.json], the helper functions, and the three
    handlers that read or write the document (survey creation, survey
    deletion, the dashboard analysis). *)

From Stdlib Require Import String Ascii List Bool Arith NArith ZArith Lia Permutation.
From Stdlib Require Import DecimalString DecimalNat.
Import ListNotations.

Local Open Scope string_scope.
Local Open Scope list_scope.

(** ** Exceptions

    Python code either returns a value or raises.  Only the exception
    classes that the modelled statements can raise are listed. *)

Inductive exn : Type :=
| TypeError
| KeyError
| IndexError
| AttributeError.

Inductive exc (A : Type) : Type :=
| Ok (a : A)
| Raise (e : exn).

Arguments Ok {A} a.
Arguments Raise {A} e.

Definition bind {A B : Type} (m : exc A) (k : A -> exc B) : exc B :=
  match m with
  | Ok a => k a
  | Raise e => Raise e
  end.

Notation "x <- m ;; k" := (bind m (fun x => k))
  (at level 61, m at next level, right associativity).
Notation "' p <- m ;; k" := (bind m (fun x => let p := x in k))
  (at level 61, p pattern, m at next level, right associativity).

(** ** Python strings

    A [str] is modelled by [string]; a character is a code point below
    256.  On that range the functions below follow CPython's tables for
    case, white space and line boundaries, and [lower] acts on each
    character by itself.  Beyond that range it does not: [str.lower]
    turns a Greek capital sigma into one of two letters, by its place in
    the word, and lengthens some texts; module [Unicode] below follows
    it on Greek text. *)

Module PyStr.

Definition code (c : ascii) : N := N_of_ascii c.

Definition between (lo hi : N) (c : ascii) : bool :=
  ((lo <=? code c) && (code c <=? hi))%N.

(** [str.isupper] on one character. *)
Definition is_upper (c : ascii) : bool :=
  between 65 90 c || between 192 214 c || between 216 222 c.

(** [str.islower] on one character. *)
Definition is_lower (c : ascii) : bool :=
  between 97 122 c || between 170 170 c || between 181 181 c
  || between 186 186 c || between 223 246 c || between 248 255 c.

(** [str.isspace] on one character. *)
Definition is_space (c : ascii) : bool :=
  between 9 13 c || between 28 32 c || between 133 133 c
  || between 160 160 c.

(** The characters at which [str.splitlines] cuts. *)
Definition is_linebreak (c : ascii) : bool :=
  between 10 13 c || between 28 30 c || between 133 133 c.

Definition lower_char (c : ascii) : ascii :=
  if is_upper c then ascii_of_N (code c + 32) else c.

(** [s.lower()] *)
Fixpoint lower (s : string) : string :=
  match s with
  | EmptyString => EmptyString
  | String c s' => String (lower_char c) (lower s')
  end.

(** [needle in hay] *)
Fixpoint contains (needle hay : string) : bool :=
  prefix needle hay ||
  match hay with
  | EmptyString => false
  | String _ hay' => contains needle hay'
  end.

Definition is_empty (s : string) : bool :=
  match s with
  | EmptyString => true
  | String _ _ => false
  end.

(** [s.lstrip()] and [s.rstrip()], generalised to the set of characters
    to remove, so that [s.strip(",.()")] is an instance. *)
Fixpoint lstrip_by (p : ascii -> bool) (s : string) : string :=
  match s with
  | EmptyString => EmptyString
  | String c s' => if p c then lstrip_by p s' else s
  end.

Fixpoint rstrip_by (p : ascii -> bool) (s : string) : string :=
  match s with
  | EmptyString => EmptyString
  | String c s' =>
      let r := rstrip_by p s' in
      if p c && is_empty r then EmptyString else String c r
  end.

Definition strip_by (p : ascii -> bool) (s : string) : string :=
  rstrip_by p (lstrip_by p s).

(** [s.strip()] *)
Definition strip (s : string) : string := strip_by is_space s.

Fixpoint mem_char (c : ascii) (chars : string) : bool :=
  match chars with
  | EmptyString => false
  | String d chars' => Ascii.eqb c d || mem_char c chars'
  end.

(** [s.strip(chars)] *)
Definition strip_chars (chars s : string) : string :=
  strip_by (fun c => mem_char c chars) s.

(** [s.split(sep)] for a one-character separator. *)
Fixpoint split (sep : ascii) (s : string) : list string :=
  match s with
  | EmptyString => [EmptyString]
  | String c s' =>
      if Ascii.eqb c sep then EmptyString :: split sep s'
      else match split sep s' with
           | h :: t => String c h :: t
           | [] => [String c EmptyString]
           end
  end.

(** [s.split(sep, 1)] for a one-character separator. *)
Fixpoint split_once (sep : ascii) (s : string) : list string :=
  match s with
  | EmptyString => [EmptyString]
  | String c s' =>
      if Ascii.eqb c sep then [EmptyString; s']
      else match split_once sep s' with
           | h :: t => String c h :: t
           | [] => [String c EmptyString]
           end
  end.

(** [s.split()]: the maximal runs of characters that are not white
    space. *)
Fixpoint split_ws (s : string) : list string :=
  match s with
  | EmptyString => []
  | String c s' =>
      if is_space c then split_ws s'
      else match s' with
           | EmptyString => [String c EmptyString]
           | String c' _ =>
               if is_space c' then String c EmptyString :: split_ws s'
               else match split_ws s' with
                    | h :: t => String c h :: t
                    | [] => [String c EmptyString]
                    end
           end
  end.

(** [s.splitlines()]: [acc] is the line being read.  A carriage return
    followed by a line feed is one boundary, and a text that ends with
    a boundary has no empty last line. *)
Fixpoint splitlines_from (acc s : string) : list string :=
  match s with
  | EmptyString => if is_empty acc then [] else [acc]
  | String c s' =>
      if is_linebreak c then
        acc ::
        match s' with
        | String c' s'' =>
            if Ascii.eqb c "013" && Ascii.eqb c' "010"
            then splitlines_from EmptyString s''
            else splitlines_from EmptyString s'
        | EmptyString => splitlines_from EmptyString s'
        end
      else splitlines_from (acc ++ String c EmptyString) s'
  end.

Definition splitlines (s : string) : list string :=
  splitlines_from EmptyString s.

(** [s.istitle()]: CPython's scan, with the two flags it keeps. *)
Fixpoint istitle_from (previous_is_cased cased : bool) (s : string) : bool :=
  match s with
  | EmptyString => cased
  | String c s' =>
      if is_upper c then
        if previous_is_cased then false else istitle_from true true s'
      else if is_lower c then
        if previous_is_cased then istitle_from true true s' else false
      else istitle_from false cased s'
  end.

Definition istitle (s : string) : bool := istitle_from false false s.

(** [s.endswith(suffix)] *)
Fixpoint endswith (s suffix : string) : bool :=
  (s =? suffix)%string ||
  match s with
  | EmptyString => false
  | String _ s' => endswith s' suffix
  end.

(** [s[:n]] *)
Definition take (n : nat) (s : string) : string := substring 0 n s.

(** [", ".join(l)] and the like. *)
Definition join (sep : string) (l : list string) : string :=
  String.concat sep l.

End PyStr.


(** ** Python dictionaries

    A [dict] with string keys keeps its entries in insertion order, and
    the script depends on that order when it iterates ([mapping.items()],
    [skill_map.items()]); it is modelled by an association list.  A
    lookup takes the first entry of a key, an assignment to a key that is
    present keeps its position, and a removal drops every entry of the
    key, so the operations agree with Python's whether or not the list
    repeats a key. *)

Module PyDict.

Definition dict (V : Type) : Type := list (string * V).

Section Ops.
Context {V : Type}.

(** [d.get(k)] *)
Fixpoint get (k : string) (d : dict V) : option V :=
  match d with
  | [] => None
  | (k', v) :: d' => if (k' =? k)%string then Some v else get k d'
  end.

(** [k in d] *)
Definition mem (k : string) (d : dict V) : bool :=
  match get k d with
  | Some _ => true
  | None => false
  end.

(** [d.get(k, default)] *)
Definition get_default (k : string) (default : V) (d : dict V) : V :=
  match get k d with
  | Some v => v
  | None => default
  end.

(** [d[k] = v] *)
Fixpoint set (k : string) (v : V) (d : dict V) : dict V :=
  match d with
  | [] => [(k, v)]
  | (k', v') :: d' =>
      if (k' =? k)%string then (k', v) :: d' else (k', v') :: set k v d'
  end.

(** [d.pop(k, None)], the dictionary that is left. *)
Fixpoint pop (k : string) (d : dict V) : dict V :=
  match d with
  | [] => []
  | (k', v') :: d' =>
      if (k' =? k)%string then pop k d' else (k', v') :: pop k d'
  end.

(** [d.keys()] *)
Definition keys (d : dict V) : list string := map fst d.

End Ops.

End PyDict.

Import PyDict.

(** ** JSON values

    What [json.load] returns and [json.dump] accepts: [None], booleans,
    integers, strings, lists and dictionaries with string keys.  (The
    script never stores a float.) *)

#[warnings="-register-all"]
Inductive json : Type :=
| JNull
| JBool (b : bool)
| JInt (z : Z)
| JStr (s : string)
| JList (l : list json)
| JDict (d : list (string * json)).

(** [key in d] for a string [key]: key membership on a dictionary,
    element membership on a list, substring test on a string; the other
    values are not containers. *)
Definition py_in (key : string) (d : json) : exc bool :=
  match d with
  | JDict m => Ok (mem key m)
  | JList l =>
      Ok (existsb (fun x => match x with
                            | JStr s => (s =? key)%string
                            | _ => false
                            end) l)
  | JStr s => Ok (PyStr.contains key s)
  | JNull | JBool _ | JInt _ => Raise TypeError
  end.

(** [d[key] = v] for a string [key]. *)
Definition py_setitem (d : json) (key : string) (v : json) : exc json :=
  match d with
  | JDict m => Ok (JDict (set key v m))
  | _ => Raise TypeError
  end.

(** [d[key]] for a string [key]. *)
Definition py_getitem (d : json) (key : string) : exc json :=
  match d with
  | JDict m =>
      match get key m with
      | Some v => Ok v
      | None => Raise KeyError
      end
  | _ => Raise TypeError
  end.

(** [d.pop(key, None)], the value that [d] refers to afterwards.  A
    list has a [pop] too, which takes an index and no default. *)
Definition py_pop (d : json) (key : string) : exc json :=
  match d with
  | JDict m => Ok (JDict (pop key m))
  | JList _ => Raise TypeError
  | _ => Raise AttributeError
  end.

(** ** The files the script works on

    [data.json] is absent, or present but rejected by [json.load] (or
    unreadable), or holds a JSON value.  [writes] lists the payloads that
    [save_datafile] has written, oldest first.  The resumes folder, when
    it exists, lists its files; a file that cannot be read as UTF-8 has
    no text. *)

Inductive file_state : Type :=
| Missing
| Unparsable
| Holds (j : json).

Record world : Type := mkWorld {
  data_file : file_state;
  writes : list json;
  resume_folder : option (list (string * option string))
}.

(** ** Helper functions *)

Definition load_datafile (w : world) : json :=
  match data_file w with
  | Missing => JDict []
  | Unparsable => JDict []
  | Holds j => j
  end.

Definition save_datafile (payload : json) (w : world) : world :=
  {| data_file := Holds payload;
     writes := writes w ++ [payload];
     resume_folder := resume_folder w |}.

(** One of the three [if key not in d: d[key] = {}; changed = True]
    statements of [ensure_data_structure]. *)
Definition ensure_key (key : string) (st : json * bool) : exc (json * bool) :=
  let (d, changed) := st in
  present <- py_in key d ;;
  if negb present then
    d' <- py_setitem d key (JDict []) ;;
    Ok (d', true)
  else Ok (d, changed).

Definition ensure_data_structure (w : world) : exc json * world :=
  let d := load_datafile w in
  let changed := false in
  match
    st <- ensure_key "surveys" (d, changed) ;;
    st <- ensure_key "responses" st ;;
    ensure_key "assignments" st
  with
  | Raise e => (Raise e, w)
  | Ok (d, changed) =>
      if changed then (Ok d, save_datafile d w) else (Ok d, w)
  end.

(** [l[i]] on a list. *)
Definition py_index {A : Type} (l : list A) (i : nat) : exc A :=
  match nth_error l i with
  | Some x => Ok x
  | None => Raise IndexError
  end.

(** [load_resumes_texts]: the [.txt] files of the resumes folder, by file
    name; a file that cannot be read has the empty text. *)
Definition load_resumes_texts (w : world) : dict string :=
  match resume_folder w with
  | None => []
  | Some files =>
      fold_left
        (fun resumes (entry : string * option string) =>
           let (f, content) := entry in
           if PyStr.endswith (PyStr.lower f) ".txt" then
             set f (match content with
                    | Some text => text
                    | None => ""
                    end) resumes
           else resumes)
        files []
  end.

(** *** [uuid.uuid4()] and [str()] of it

    [random] is the integer that the sixteen bytes of [os.urandom] spell;
    the version and variant bits are then forced, and the value is
    printed as 32 hexadecimal digits in five groups. *)

Module Uuid.

Definition uuid4 (random : N) : N :=
  let i := (random mod 2 ^ 128)%N in
  let i := N.ldiff i (N.shiftl 0xc000 48) in
  let i := N.lor i (N.shiftl 0x8000 48) in
  let i := N.ldiff i (N.shiftl 0xf000 64) in
  N.lor i (N.shiftl 4 76).

Definition hex_digit (n : N) : ascii :=
  if (n <? 10)%N then ascii_of_N (48 + n) else ascii_of_N (87 + n).

(** ['%0<width>x' % n], for [n] below [16 ^ width]. *)
Fixpoint hex (width : nat) (n : N) : string :=
  match width with
  | O => EmptyString
  | S width' =>
      (hex width' (n / 16) ++ String (hex_digit (n mod 16)) EmptyString)%string
  end.

Definition str (u : N) : string :=
  let h := hex 32 u in
  (substring 0 8 h ++ "-" ++ substring 8 4 h ++ "-" ++ substring 12 4 h
   ++ "-" ++ substring 16 4 h ++ "-" ++ substring 20 12 h)%string.

End Uuid.

Definition generate_survey_id (random : N) : string :=
  PyStr.take 8 (Uuid.str (Uuid.uuid4 random)).

Definition mapping : dict (list string) :=
  [ ("Order to Cash", ["Order Processing"; "Invoicing"; "Accounts Receivable"; "SAP"]);
    ("Procure to Pay", ["Procurement"; "Supplier Management"; "PO Processing"; "SAP"]);
    ("Hire to Retire", ["Recruitment"; "Payroll"; "Onboarding"; "Employee Relations"]);
    ("Record to Report", ["Financial Reporting"; "Reconcilations"; "Excel"; "Accounting"]);
    ("Incident Management", ["Incident Triage"; "Troubleshooting"; "Ticketing Systems"]);
    ("Inventory Management", ["Stock Control"; "Cycle Count"; "ERP"; "Logistics"]);
    ("Data Migration", ["ETL"; "Data Mapping"; "SQL"; "Python"]);
    ("Network Security", ["Firewalls"; "IDS/IPS"; "Vulnerability Management"]);
    ("Event Management", ["Venue Management"; "Vendor Coordination"; "Logistics"]) ].

Definition generic_skills : list string :=
  ["Communication"; "Process Knowledge"; "Documentation"; "Tools"].

(** The loop [for k, v in mapping.items(): if ...: return v]; [None]
    when it runs to its end. *)
Fixpoint suggest_scan (items : dict (list string)) (process_name : string)
  : option (list string) :=
  match items with
  | [] => None
  | (k, v) :: items' =>
      if PyStr.contains (PyStr.lower k) (PyStr.lower process_name)
      then Some v
      else suggest_scan items' process_name
  end.

Definition suggest_skills_for_process (process_name : string) : list string :=
  match suggest_scan mapping process_name with
  | Some v => v
  | None => generic_skills
  end.

(** ** Python sets of strings

    A set is kept as the list of its elements, each once, in the order
    they entered.  The order in which Python iterates a set is another
    matter: it follows the hash table, and the hash of a string changes
    from one run of the interpreter to the next.  Every function that
    iterates a set therefore takes the iteration order as a parameter
    [set_order], which maps the elements of a set to the sequence in
    which a loop or [list()] visits them. *)

Module PySet.

Definition pyset : Type := list string.

Definition mem (x : string) (s : pyset) : bool :=
  existsb (String.eqb x) s.

(** [s.add(x)] *)
Definition add (x : string) (s : pyset) : pyset :=
  if mem x s then s else s ++ [x].

(** [set(l)] *)
Definition of_list (l : list string) : pyset :=
  fold_left (fun s x => add x s) l [].

(** [a - b] *)
Definition diff (a b : pyset) : pyset :=
  filter (fun x => negb (mem x b)) a.

End PySet.

(** The comprehension [[s.strip() for s in l if s.strip()]]. *)
Definition stripped_nonempty (l : list string) : list string :=
  map PyStr.strip (filter (fun s => negb (PyStr.is_empty (PyStr.strip s))) l).

(** The body of the [if] in [extract_skills_from_text], for the line
    [ln] that declares the skills. *)
Definition declared_skills (ln : string) : exc (list string) :=
  parts <- py_index (PyStr.split_once ":" ln) 1 ;;
  Ok (stripped_nonempty (PyStr.split "," parts)).

(** The loop over the lines; [None] when no line returns. *)
Fixpoint scan_lines (lines : list string) : option (exc (list string)) :=
  match lines with
  | [] => None
  | ln :: lines' =>
      if PyStr.contains "skills:" (PyStr.lower ln)
      then Some (declared_skills ln)
      else scan_lines lines'
  end.

Section SetOrder.

Variable set_order : list string -> list string.

(** The fallback of [extract_skills_from_text]. *)
Definition heuristic_tokens (text : string) : list string :=
  let tokens :=
    fold_left
      (fun tokens w =>
         if PyStr.istitle w && (2 <? String.length w)%nat
            && (String.length w <? 20)%nat
         then PySet.add (PyStr.strip_chars ",.()" (PyStr.strip w)) tokens
         else tokens)
      (PyStr.split_ws text) [] in
  firstn 8 (set_order tokens).

Definition extract_skills_from_text (text : string) : exc (list string) :=
  match scan_lines (PyStr.splitlines text) with
  | Some result => result
  | None => Ok (heuristic_tokens text)
  end.

End SetOrder.

Definition match_resumes_for_skill (skill : string) (resumes : dict string)
  : list string :=
  let skill_lower := PyStr.lower skill in
  fold_left
    (fun matches (item : string * string) =>
       let (fname, text) := item in
       if PyStr.contains skill_lower (PyStr.lower text)
       then matches ++ [fname]
       else matches)
    resumes [].

(** ** Admin view: creating and deleting surveys *)

(** What the form holds when the button is pressed: the process chosen
    in the select box ([None] when the catalogue is empty), the
    [ProcessID] of its row when there is one, the two text areas and the
    chosen e-mail addresses. *)
Record create_form : Type := mkForm {
  proc_choice : option string;
  process_id : option Z;
  skills_input : string;
  questions_input : string;
  selected_emails : list string
}.

Inductive message : Type :=
| St_error (text : string)
| St_success (sid : string).

(** [data.setdefault(key, {})[sid] = v] *)
Definition py_setdefault_setitem (data : json) (key sid : string) (v : json)
  : exc json :=
  match data with
  | JDict m =>
      match get key m with
      | Some inner =>
          inner' <- py_setitem inner sid v ;;
          Ok (JDict (set key inner' m))
      | None => Ok (JDict (set key (JDict [(sid, v)]) m))
      end
  | _ => Raise AttributeError
  end.

Definition survey_record (sid : string) (form : create_form)
  (skills questions : list string) : json :=
  JDict
    [ ("survey_id", JStr sid);
      ("process", match proc_choice form with
                  | Some p => JStr p
                  | None => JNull
                  end);
      ("process_id", match process_id form with
                     | Some n => JInt n
                     | None => JNull
                     end);
      ("skills", JList (map JStr skills));
      ("questions", JList (map JStr questions));
      ("creator", JStr "admin") ].

(** The handler of the "Create & Save Survey" button.  [random] feeds
    [generate_survey_id]. *)
Definition create_and_save_survey (form : create_form) (random : N) (w : world)
  : exc message * world :=
  let skills := stripped_nonempty (PyStr.split "," (skills_input form)) in
  let questions := stripped_nonempty (PyStr.splitlines (questions_input form)) in
  match proc_choice form with
  | None | Some EmptyString => (Ok (St_error "Please select a process."), w)
  | Some _ =>
      match skills with
      | [] => (Ok (St_error "Please provide at least one skill."), w)
      | _ :: _ =>
          let sid := generate_survey_id random in
          let survey := survey_record sid form skills questions in
          let data := load_datafile w in
          match
            data <- py_setdefault_setitem data "surveys" sid survey ;;
            py_setdefault_setitem data "assignments" sid
              (JList (map JStr (selected_emails form)))
          with
          | Raise e => (Raise e, w)
          | Ok data => (Ok (St_success sid), save_datafile data w)
          end
      end
  end.

(** [d.get(key, {}).pop(sid, None)]: when [key] is absent the removal
    acts on the fresh default and [d] is left as it is. *)
Definition py_get_pop (d : json) (key sid : string) : exc json :=
  match d with
  | JDict m =>
      match get key m with
      | Some inner =>
          inner' <- py_pop inner sid ;;
          Ok (JDict (set key inner' m))
      | None => Ok d
      end
  | _ => Raise AttributeError
  end.

(** The handler of a "Delete <sid>" button. *)
Definition delete_survey (sid : string) (w : world) : exc unit * world :=
  let d := load_datafile w in
  match
    surveys <- py_getitem d "surveys" ;;
    surveys' <- py_pop surveys sid ;;
    d <- py_setitem d "surveys" surveys' ;;
    d <- py_get_pop d "assignments" sid ;;
    py_get_pop d "responses" sid
  with
  | Raise e => (Raise e, w)
  | Ok d => (Ok tt, save_datafile d w)
  end.

(** ** Dashboard view: aggregation, gap analysis, resume matching

    The analysis reads a survey and its responses as the other views
    wrote them: the skills are strings, a rating is a string, and the
    keys it reads with [.get(key, default)] may be absent. *)

Record survey : Type := mkSurvey {
  survey_id : string;
  process : string;
  skills : option (list string);
  questions : option (list string)
}.

Record response : Type := mkResponse {
  respondent_email : string;
  respondent_name : string;
  skills_selected : option (list string);
  skill_ratings : option (dict string);
  answers : dict string;
  comments : string;
  timestamp : string
}.

Definition or_default {A : Type} (o : option A) (default : A) : A :=
  match o with
  | Some a => a
  | None => default
  end.

(** [r.get("skill_ratings", {}).get(skl, "Low")] *)
Definition rating_of (r : response) (skl : string) : string :=
  get_default skl "Low" (or_default (skill_ratings r) []).

(** [skill_map.setdefault(skl, []).append(rating)] *)
Definition record_rating (skl rating : string) (skill_map : dict (list string))
  : dict (list string) :=
  set skl (get_default skl [] skill_map ++ [rating]) skill_map.

(** The two nested loops that fill [skill_map]. *)
Definition aggregate (resp_list : list response) : dict (list string) :=
  fold_left
    (fun skill_map r =>
       fold_left
         (fun skill_map skl => record_rating skl (rating_of r skl) skill_map)
         (or_default (skills_selected r) []) skill_map)
    resp_list [].

Record row : Type := mkRow {
  Skill : string;
  High : nat;
  Medium : nat;
  Low : nat;
  Total : nat
}.

(** [ratings.count(x)] *)
Definition count (x : string) (ratings : list string) : nat :=
  count_occ string_dec ratings x.

Definition row_of (item : string * list string) : row :=
  let (skl, ratings) := item in
  {| Skill := skl;
     High := count "High" ratings;
     Medium := count "Medium" ratings;
     Low := count "Low" ratings;
     Total := length ratings |}.

(** The rows handed to [st.table]. *)
Definition aggregation_rows (skill_map : dict (list string)) : list row :=
  map row_of skill_map.

(** [required - available] *)
Definition missing_skills (sv : survey) (skill_map : dict (list string))
  : PySet.pyset :=
  let required := PySet.of_list (map PyStr.lower (or_default (skills sv) [])) in
  let available := PySet.of_list (map PyStr.lower (keys skill_map)) in
  PySet.diff required available.

(** [text[:500] + ("..." if len(text) > 500 else "")] *)
Definition preview_text (text : string) : string :=
  (PyStr.take 500 text
   ++ (if (500 <? String.length text)%nat then "..." else ""))%string.

(** What the dashboard does, in order: what it shows, and each call of
    [extract_skills_from_text] it makes. *)
Inductive step : Type :=
| Show_table (rows : list row)
| Show_missing (listed : option (list string))
| Show_matches (ms : string) (n : nat)
| Show_resume (m : string) (preview : string)
| Call_extract (fname : string)
| Show_fallback (suggestions : list string)
| Show_no_matches.

Section Dashboard.

Variable set_order : list string -> list string.

(** [list(missing) if missing else "None"] *)
Definition missing_listed (missing : PySet.pyset) : option (list string) :=
  match missing with
  | [] => None
  | _ :: _ => Some (set_order missing)
  end.

(** [resume_texts[m][:500] + ("..." if len(resume_texts[m]) > 500 else "")] *)
Definition preview (resume_texts : dict string) (m : string) : exc string :=
  match get m resume_texts with
  | None => Raise KeyError
  | Some text => Ok (preview_text text)
  end.

(** The loop [for m in matches]. *)
Fixpoint show_matches (resume_texts : dict string) (matches : list string)
  : exc (list step) :=
  match matches with
  | [] => Ok []
  | m :: matches' =>
      p <- preview resume_texts m ;;
      rest <- show_matches resume_texts matches' ;;
      Ok (Show_resume m p :: rest)
  end.

(** The loop [for fname, txt in resume_texts.items()] of the fallback:
    the calls it makes and the suggestions it collects. *)
Fixpoint fallback_scan (ms : string) (items : dict string)
  : exc (list step * list string) :=
  match items with
  | [] => Ok ([], [])
  | (fname, txt) :: items' =>
      tokens <- extract_skills_from_text set_order txt ;;
      let extracted := map PyStr.lower tokens in
      '(calls, suggestions) <- fallback_scan ms items' ;;
      Ok (Call_extract fname :: calls,
          if PySet.mem ms extracted then fname :: suggestions else suggestions)
  end.

(** The body of [for ms in missing]. *)
Definition resume_matching_for (resume_texts : dict string) (ms : string)
  : exc (list step) :=
  let matches := match_resumes_for_skill ms resume_texts in
  match matches with
  | _ :: _ =>
      shown <- show_matches resume_texts matches ;;
      Ok (Show_matches ms (length matches) :: shown)
  | [] =>
      '(calls, suggestions) <- fallback_scan ms resume_texts ;;
      Ok (Show_matches ms (length matches) :: calls
          ++ [match suggestions with
              | _ :: _ => Show_fallback suggestions
              | [] => Show_no_matches
              end])
  end.

Fixpoint resume_matching (resume_texts : dict string) (missing : list string)
  : exc (list step) :=
  match missing with
  | [] => Ok []
  | ms :: missing' =>
      here <- resume_matching_for resume_texts ms ;;
      rest <- resume_matching resume_texts missing' ;;
      Ok (here ++ rest)
  end.

(** The analysis part of the dashboard, for the selected survey. *)
Definition dashboard_analysis (sv : survey) (resp_list : list response)
  (w : world) : exc (list step) :=
  let skill_map := aggregate resp_list in
  let table :=
    match skill_map with
    | [] => []
    | _ :: _ => [Show_table (aggregation_rows skill_map)]
    end in
  let missing := missing_skills sv skill_map in
  let gap := [Show_missing (missing_listed missing)] in
  match missing with
  | [] => Ok (table ++ gap)
  | _ :: _ =>
      let resume_texts := load_resumes_texts w in
      matching <- resume_matching resume_texts (set_order missing) ;;
      Ok (table ++ gap ++ matching)
  end.

End Dashboard.

(** ** Notions used to state the properties *)

(** The three top-level keys of the document. *)
Definition top_keys : list string := ["surveys"; "responses"; "assignments"].

(** A document that has the three keys. *)
Definition well_formed (m : dict json) : Prop :=
  forall k, In k top_keys -> mem k m = true.

(** The entry of survey [sid] in the top-level map [key] of a document;
    a document without the key has no entries there. *)
Definition entry (key sid : string) (m : dict json) : option json :=
  match get key m with
  | Some (JDict inner) => get sid inner
  | _ => None
  end.

(** The top-level value under [key] is a map, or [key] is absent. *)
Definition map_or_absent (key : string) (m : dict json) : Prop :=
  get key m = None \/ exists inner, get key m = Some (JDict inner).

(** [needle] occurs in [hay] when case is ignored: some substring of
    [hay] differs from [needle] by case only. *)
Definition occurs_ignoring_case (needle hay : string) : Prop :=
  exists pre mid post,
    hay = (pre ++ mid ++ post)%string /\ PyStr.lower mid = PyStr.lower needle.

(** What one guarded assignment of [ensure_data_structure] leaves. *)
Definition add_missing (key : string) (m : dict json) : dict json :=
  if mem key m then m else set key (JDict []) m.

Definition completed (m : dict json) : dict json :=
  add_missing "assignments" (add_missing "responses" (add_missing "surveys" m)).

Definition complete (m : dict json) : bool :=
  mem "surveys" m && mem "responses" m && mem "assignments" m.

(** What [d.get(key, {}).pop(sid, None)] leaves of a document whose
    value under [key], if any, is a map. *)
Definition pop_in (key sid : string) (m : dict json) : dict json :=
  match get key m with
  | Some (JDict inner) => set key (JDict (pop sid inner)) m
  | _ => m
  end.

(** What [data.setdefault(key, {})[sid] = v] leaves of such a document. *)
Definition put_in (key sid : string) (v : json) (m : dict json) : dict json :=
  match get key m with
  | Some (JDict inner) => set key (JDict (set sid v inner)) m
  | _ => set key (JDict [(sid, v)]) m
  end.

(** The form passes the two checks of the handler. *)
Definition accepted (form : create_form) : Prop :=
  (exists p, proc_choice form = Some p /\ p <> "") /\
  stripped_nonempty (PyStr.split "," (skills_input form)) <> [].

(** The steps that belong to the token fallback. *)
Definition is_fallback_step (st : step) : bool :=
  match st with
  | Call_extract _ | Show_fallback _ | Show_no_matches => true
  | _ => false
  end.

(** The text shown for resume [m]. *)
Definition shown_resume (resume_texts : dict string) (m : string) : step :=
  Show_resume m (preview_text (get_default m "" resume_texts)).

(** The skills a response selected. *)
Definition selected (r : response) : list string :=
  or_default (skills_selected r) [].

(** The rating a response gives for a skill: the entry of its rating
    map, or "Low" when the map has none (or is absent). *)
Definition rating_given (r : response) (skl : string) : string :=
  match skill_ratings r with
  | Some ratings =>
      match get skl ratings with
      | Some rating => rating
      | None => "Low"
      end
  | None => "Low"
  end.

(** The ratings to record under [skl]: one for each time a response
    lists [skl] among its selected skills, in the order of the
    responses. *)
Definition ratings_recorded (resp_list : list response) (skl : string)
  : list string :=
  flat_map
    (fun r =>
       flat_map (fun s => if (s =? skl)%string then [rating_given r skl] else [])
         (selected r))
    resp_list.

Definition selected_by_some (resp_list : list response) (skl : string) : Prop :=
  exists r, In r resp_list /\ In skl (selected r).

(** How many times [skl] is listed, over all responses. *)
Definition occurrences (resp_list : list response) (skl : string) : nat :=
  list_sum (map (fun r => count_occ string_dec (selected r) skl) resp_list).

Definition selects (skl : string) (r : response) : bool :=
  existsb (String.eqb skl) (selected r).

(** How many responses list [skl]. *)
Definition respondents (resp_list : list response) (skl : string) : nat :=
  length (filter (selects skl) resp_list).

Definition known_rating (rating : string) : Prop :=
  rating = "High" \/ rating = "Medium" \/ rating = "Low".

(** The (skill, rating) pairs in the order the two loops of the
    aggregation meet them, and the loop body applied to each. *)
Definition pairs_of (resp_list : list response) : list (string * string) :=
  flat_map (fun r => map (fun skl => (skl, rating_of r skl)) (selected r))
    resp_list.

Definition record_all (pairs : list (string * string))
  (skill_map : dict (list string)) : dict (list string) :=
  fold_left (fun m p => record_rating (fst p) (snd p) m) pairs skill_map.

Definition recorded_in (pairs : list (string * string)) (skl : string)
  : list string :=
  map snd (filter (fun p => (fst p =? skl)%string) pairs).

(** [set_order] is a possible iteration order: it visits the elements
    of the set, each once. *)
Definition iteration_order (set_order : list string -> list string) : Prop :=
  forall s, Permutation (set_order s) s.

(** Every character of [s] satisfies [p]. *)
Fixpoint all_chars (p : ascii -> bool) (s : string) : bool :=
  match s with
  | EmptyString => true
  | String c s' => p c && all_chars p s'
  end.

(** Every character of [s] is an ASCII character. *)
Definition is_ascii (s : string) : bool :=
  all_chars (fun c => (PyStr.code c <? 128)%N) s.

Definition first_char (s : string) : option ascii :=
  match s with
  | EmptyString => None
  | String c _ => Some c
  end.

Fixpoint last_char (s : string) : option ascii :=
  match s with
  | EmptyString => None
  | String c EmptyString => Some c
  | String _ s' => last_char s'
  end.

(** [c], if any, is not among the characters that [p] removes. *)
Definition kept (p : ascii -> bool) (c : option ascii) : Prop :=
  match c with
  | Some c => p c = false
  | None => True
  end.

(** A lower-case hexadecimal digit. *)
Definition is_hex_digit (c : ascii) : bool :=
  PyStr.mem_char c "0123456789abcdef".

(** A skill entry that survives the text area as it is: not empty,
    without a comma, and with no white space at either end. *)
Definition plain_entry (s : string) : bool :=
  negb (PyStr.is_empty s) && negb (PyStr.mem_char "," s)
  && (PyStr.strip s =? s)%string.

(** The admin form's skills field: it is pre-filled with
    [", ".join(suggested)] and read back with the comprehension over
    [skills_input.split(",")]. *)
Definition skills_field (suggested : list string) : string :=
  PyStr.join ", " suggested.

Definition read_skills (skills_input : string) : list string :=
  stripped_nonempty (PyStr.split "," skills_input).

(** [a] is a run of consecutive characters of [b]. *)
Definition substring_of (a b : string) : Prop :=
  exists pre post, b = (pre ++ a ++ post)%string.

(** The test of the token heuristic on a word, and the token it adds. *)
Definition qualifies (w : string) : bool :=
  PyStr.istitle w && (2 <? String.length w)%nat && (String.length w <? 20)%nat.

Definition token_of (w : string) : string :=
  PyStr.strip_chars ",.()" (PyStr.strip w).

(** Some line of the text declares the skills. *)
Definition declares_skills (text : string) : Prop :=
  exists ln, In ln (PyStr.splitlines text) /\ occurs_ignoring_case "skills:" ln.

(** The file names of the resumes folder that [load_resumes_texts]
    keeps, and the text it records for a file. *)
Definition is_txt (f : string) : bool :=
  PyStr.endswith (PyStr.lower f) ".txt".

Definition text_read (content : option string) : string :=
  match content with
  | Some text => text
  | None => EmptyString
  end.

(** Some response selected a skill that is [x] when lower-cased. *)
Definition covered (resp_list : list response) (x : string) : Prop :=
  exists r skl, In r resp_list /\ In skl (selected r) /\ PyStr.lower skl = x.

(** ** User view: the assigned surveys and the submission of a response *)

Module UserView.

(** [d.get(key, default)]: only a dictionary has the method. *)
Definition py_get (d : json) (key : string) (default : json) : exc json :=
  match d with
  | JDict m => Ok (get_default key default m)
  | _ => Raise AttributeError
  end.

(** [d.items()] *)
Definition py_items (d : json) : exc (list (string * json)) :=
  match d with
  | JDict m => Ok m
  | _ => Raise AttributeError
  end.

(** [d.setdefault(key, default)], the value that [d] refers to
    afterwards. *)
Definition py_setdefault (d : json) (key : string) (default : json) : exc json :=
  match d with
  | JDict m => Ok (JDict (if mem key m then m else set key default m))
  | _ => Raise AttributeError
  end.

(** [l.append(x)], the value that [l] refers to afterwards. *)
Definition py_append (l : json) (x : json) : exc json :=
  match l with
  | JList xs => Ok (JList (xs ++ [x]))
  | _ => Raise AttributeError
  end.

(** [email in emails], where [email] is the choice of the select box:
    an address of [users.csv], or [None] when the file lists nobody. *)
Definition py_in_email (email : option string) (emails : json) : exc bool :=
  match email with
  | Some address => py_in address emails
  | None =>
      match emails with
      | JList l =>
          Ok (existsb (fun x => match x with
                                | JNull => true
                                | _ => false
                                end) l)
      | JDict _ => Ok false
      | JStr _ | JNull | JBool _ | JInt _ => Raise TypeError
      end
  end.

(** The loop that collects the surveys assigned to [email]. *)
Fixpoint assigned_scan (email : option string) (all_data : json)
  (items : list (string * json)) : exc (list (string * json)) :=
  match items with
  | [] => Ok []
  | (sid, emails) :: items' =>
      listed <- py_in_email email emails ;;
      here <- (if listed : bool then
                 surveys <- py_getitem all_data "surveys" ;;
                 survey <- py_getitem surveys sid ;;
                 Ok [(sid, survey)]
               else Ok []) ;;
      more <- assigned_scan email all_data items' ;;
      Ok (here ++ more)
  end.

Definition assigned_surveys (email : option string) (w : world)
  : exc (list (string * json)) :=
  let all_data := load_datafile w in
  assignments <- py_get all_data "assignments" (JDict []) ;;
  items <- py_items assignments ;;
  assigned_scan email all_data items.

(** The loop over the chosen skills: [radio skl] is the level picked for
    [skl]. *)
Definition collect_ratings (radio : string -> string)
  (chosen_skills : list string) : dict string :=
  fold_left (fun skill_ratings skl => set skl (radio skl) skill_ratings)
    chosen_skills [].

(** [f"q{i}"] *)
Definition question_key (i : nat) : string :=
  ("q" ++ NilZero.string_of_uint (Nat.to_uint i))%string.

(** The loop over [enumerate(questions, start=1)]: [text_area i] is what
    was typed under question [i]. *)
Definition collect_answers (text_area : nat -> string)
  (questions : list string) : dict string :=
  fold_left
    (fun responses (iq : nat * string) =>
       let (i, q) := iq in set (question_key i) (text_area i) responses)
    (combine (seq 1 (length questions)) questions) [].

(** What the form holds when it is submitted; [now] is
    [pd.Timestamp.now().isoformat()].  The name is the text that
    [users.csv] gives; a name column that holds numbers only, which
    pandas reads as numbers and [json.dump] refuses, is not modelled. *)
Record submission : Type := mkSubmission {
  email : option string;
  user_name : string;
  chosen_skills : list string;
  skill_ratings : dict string;
  responses : dict string;
  comments : string;
  now : string
}.

Definition json_strings (d : dict string) : json :=
  JDict (map (fun kv : string * string => (fst kv, JStr (snd kv))) d).

Definition entry_of (s : submission) : json :=
  JDict
    [ ("respondent_email", match email s with
                           | Some address => JStr address
                           | None => JNull
                           end);
      ("respondent_name", JStr (user_name s));
      ("skills_selected", JList (map JStr (chosen_skills s)));
      ("skill_ratings", json_strings (skill_ratings s));
      ("answers", json_strings (responses s));
      ("comments", JStr (comments s));
      ("timestamp", JStr (now s)) ].

(** The body of [if submitted:]. *)
Definition submit_survey (sid : string) (s : submission) (w : world)
  : exc unit * world :=
  let d := load_datafile w in
  match
    d <- py_setdefault d "responses" (JDict []) ;;
    recorded <- py_getitem d "responses" ;;
    recorded <- py_setdefault recorded sid (JList []) ;;
    entries <- py_getitem recorded sid ;;
    entries <- py_append entries (entry_of s) ;;
    recorded <- py_setitem recorded sid entries ;;
    py_setitem d "responses" recorded
  with
  | Raise e => (Raise e, w)
  | Ok d => (Ok tt, save_datafile d w)
  end.

End UserView.

(** ** Dashboard view: the export of the responses *)

(** A cell of an exported row: a string, a boolean, or [None]. *)
Inductive cell : Type :=
| Text (s : string)
| Flag (b : bool)
| Blank.

Definition export_row (sv : survey) (r : response) : dict cell :=
  let base :=
    [ ("respondent_email", Text (respondent_email r));
      ("respondent_name", Text (respondent_name r));
      ("timestamp", Text (timestamp r));
      ("comments", Text (comments r)) ] in
  let base :=
    fold_left
      (fun base skl =>
         let base :=
           set ("has_" ++ skl)%string
             (Flag (existsb (String.eqb skl) (or_default (skills_selected r) [])))
             base in
         set ("rating_" ++ skl)%string
           (match get skl (or_default (skill_ratings r) []) with
            | Some rating => Text rating
            | None => Blank
            end) base)
      (or_default (skills sv) []) base in
  fold_left
    (fun base (kv : string * string) => let (k, v) := kv in set k (Text v) base)
    (answers r) base.

(** The rows handed to [pd.DataFrame]; [None] stands for the warning
    shown when there is no response. *)
Definition export_rows (sv : survey) (resp_list : list response)
  : option (list (dict cell)) :=
  match resp_list with
  | [] => None
  | _ :: _ =>
      Some (fold_left (fun export_rows r => export_rows ++ [export_row sv r])
              resp_list [])
  end.

(** The responses recorded for survey [sid], when the document keeps a
    list for it. *)
Definition recorded_responses (sid : string) (m : dict json) : list json :=
  match entry "responses" sid m with
  | Some (JList l) => l
  | _ => []
  end.

(** The entry of [sid] under [responses] is a list, or there is none. *)
Definition list_or_absent (sid : string) (m : dict json) : Prop :=
  entry "responses" sid m = None \/
  exists l, entry "responses" sid m = Some (JList l).

(** A run of assignments [d[k] = v], in order. *)
Definition update_all {V : Type} (items : list (string * V)) (d : dict V)
  : dict V :=
  fold_left (fun d kv => set (fst kv) (snd kv) d) items d.

(** [email] is an element of the list [emails]. *)
Definition listed (email : option string) (emails : list json) : bool :=
  existsb (fun x => match x, email with
                    | JStr s, Some address => (s =? address)%string
                    | JNull, None => true
                    | _, _ => false
                    end) emails.

(** Every assignment is a list of addresses. *)
Definition assignments_are_lists (a : dict json) : Prop :=
  forall sid v, In (sid, v) a -> exists emails, v = JList emails.

(** [sid] is assigned to [email] in [a] but has no survey in [sv]. *)
Definition dangling (email : option string) (sv a : dict json) (sid : string)
  : Prop :=
  exists emails,
    In (sid, JList emails) a /\ listed email emails = true /\ get sid sv = None.

(** The two columns that the export writes for a skill. *)
Definition skill_columns (r : response) (skl : string) : list (string * cell) :=
  [ (("has_" ++ skl)%string,
     Flag (existsb (String.eqb skl) (or_default (skills_selected r) [])));
    (("rating_" ++ skl)%string,
     match get skl (or_default (skill_ratings r) []) with
     | Some rating => Text rating
     | None => Blank
     end) ].

(** The four columns every exported row starts with. *)
Definition fixed_columns (r : response) : dict cell :=
  [ ("respondent_email", Text (respondent_email r));
    ("respondent_name", Text (respondent_name r));
    ("timestamp", Text (timestamp r));
    ("comments", Text (comments r)) ].

(** ** Text beyond code point 255

    The direct match of the dashboard once more, over texts given as
    lists of code points.  [lower] is CPython's, written out for the
    ASCII range and the Greek letters U+0391 to U+03A9 and U+03B1 to
    U+03C9; a text with any other code point gets no result.  A Greek
    capital sigma (931) becomes the final sigma (962) at the end of a
    word and the small sigma (963) elsewhere, as in
    [handle_capital_sigma] of [unicodeobject.c]. *)

Module Unicode.

Definition ustr : Type := list N.

Definition within (lo hi c : N) : bool := ((lo <=? c) && (c <=? hi))%N.

Definition greek_capital (c : N) : bool := within 913 929 c || within 931 937 c.

Definition greek_small (c : N) : bool := within 945 969 c.

(** The code points whose case tables are written out. *)
Definition modelled (c : N) : bool :=
  (c <? 128)%N || greek_capital c || greek_small c.

(** Unicode's [Cased] and [Case_Ignorable] on those code points; among
    them the apostrophe, the full stop, the colon, the circumflex and the
    grave accent are ignorable. *)
Definition cased (c : N) : bool :=
  within 65 90 c || within 97 122 c || greek_capital c || greek_small c.

Definition case_ignorable (c : N) : bool :=
  ((c =? 39) || (c =? 46) || (c =? 58) || (c =? 94) || (c =? 96))%N.

(** The nearest code point that is not ignorable. *)
Fixpoint first_counted (s : ustr) : option N :=
  match s with
  | [] => None
  | c :: s' => if case_ignorable c then first_counted s' else Some c
  end.

(** The sigma ends a word: [before] is the text before it, nearest code
    point first, and [after] the text after it. *)
Definition final_sigma (before after : ustr) : bool :=
  match first_counted before with
  | Some c =>
      cased c &&
      match first_counted after with
      | Some c' => negb (cased c')
      | None => true
      end
  | None => false
  end.

Definition lower_code (c : N) : N :=
  if within 65 90 c || greek_capital c then (c + 32)%N else c.

Fixpoint lower_from (before s : ustr) : ustr :=
  match s with
  | [] => []
  | c :: after =>
      (if (c =? 931)%N
       then if final_sigma before after then 962%N else 963%N
       else lower_code c)
      :: lower_from (c :: before) after
  end.

(** [s.lower()] *)
Definition lower (s : ustr) : option ustr :=
  if forallb modelled s then Some (lower_from [] s) else None.

Fixpoint prefix (a b : ustr) : bool :=
  match a, b with
  | [], _ => true
  | _ :: _, [] => false
  | x :: a', y :: b' => (x =? y)%N && prefix a' b'
  end.

(** [needle in hay] *)
Fixpoint contains (needle hay : ustr) : bool :=
  prefix needle hay ||
  match hay with
  | [] => false
  | _ :: hay' => contains needle hay'
  end.

Definition match_resumes_for_skill (skill : ustr)
  (resumes : list (string * ustr)) : option (list string) :=
  match lower skill with
  | None => None
  | Some skill_lower =>
      fold_left
        (fun (matches : option (list string)) (item : string * ustr) =>
           let (fname, text) := item in
           match matches, lower text with
           | Some matches, Some text_lower =>
               Some (if contains skill_lower text_lower
                     then matches ++ [fname]
                     else matches)
           | _, _ => None
           end)
        resumes (Some [])
  end.

(** The code points of a text of the first model. *)
Definition of_string (s : string) : ustr :=
  map N_of_ascii (list_ascii_of_string s).

Definition of_resumes (resumes : dict string) : list (string * ustr) :=
  map (fun item : string * string => (fst item, of_string (snd item))) resumes.

End Unicode.

(** * Properties *)

(** ** Dictionaries: lookup after update *)

Section DictFacts.
Context {V : Type}.
Implicit Types (d : dict V) (k : string) (v : V).

Lemma get_set_eq k v d : get k (set k v d) = Some v.
Proof.
  induction d as [|[k' v'] d IH]; simpl.
  - now rewrite String.eqb_refl.
  - destruct (k' =? k)%string eqn:E; simpl; rewrite E; auto.
Qed.

Lemma get_set_neq k k' v d : k' <> k -> get k' (set k v d) = get k' d.
Proof.
  intros Hne. induction d as [|[k0 v0] d IH]; simpl.
  - destruct (k =? k')%string eqn:E; auto.
    apply String.eqb_eq in E. congruence.
  - destruct (k0 =? k)%string eqn:E; simpl.
    + apply String.eqb_eq in E. subst k0.
      destruct (k =? k')%string eqn:E'; auto.
      apply String.eqb_eq in E'. congruence.
    + now rewrite IH.
Qed.

Lemma get_pop_eq k d : get k (pop k d) = None.
Proof.
  induction d as [|[k' v'] d IH]; simpl; auto.
  destruct (k' =? k)%string eqn:E; simpl; auto. now rewrite E.
Qed.

Lemma get_pop_neq k k' d : k' <> k -> get k' (pop k d) = get k' d.
Proof.
  intros Hne. induction d as [|[k0 v0] d IH]; simpl; auto.
  destruct (k0 =? k)%string eqn:E; simpl.
  - apply String.eqb_eq in E. subst k0.
    destruct (k =? k')%string eqn:E'; auto.
    apply String.eqb_eq in E'. congruence.
  - now rewrite IH.
Qed.

Lemma mem_true_iff k d : mem k d = true <-> exists v, get k d = Some v.
Proof.
  unfold mem. destruct (get k d); split; intros H; eauto; try discriminate.
  now destruct H.
Qed.

Lemma get_In k v d : get k d = Some v -> In (k, v) d.
Proof.
  induction d as [|[k' v'] d IH]; simpl; try discriminate.
  destruct (k' =? k)%string eqn:E; auto.
  apply String.eqb_eq in E. intros [= ->]. left. congruence.
Qed.

Lemma In_mem k v d : In (k, v) d -> mem k d = true.
Proof.
  unfold mem. induction d as [|[k' v'] d IH]; simpl; [tauto|].
  intros [[= -> ->]|Hin].
  - now rewrite String.eqb_refl.
  - destruct (k' =? k)%string; auto.
Qed.

Lemma keys_set k v d :
  keys (set k v d) = if mem k d then keys d else keys d ++ [k].
Proof.
  unfold mem, keys. induction d as [|[k' v'] d IH]; simpl; auto.
  destruct (k' =? k)%string eqn:E; simpl; auto.
  rewrite IH. now destruct (get k d).
Qed.

Lemma mem_keys k d : mem k d = true <-> In k (keys d).
Proof.
  unfold mem, keys. induction d as [|[k' v'] d IH]; simpl.
  - split; [discriminate|tauto].
  - destruct (k' =? k)%string eqn:E.
    + apply String.eqb_eq in E. tauto.
    + apply String.eqb_neq in E. tauto.
Qed.

End DictFacts.

Create Rewrite HintDb pydict.
#[export] Hint Rewrite @get_set_eq @get_pop_eq : pydict.

(** ** The document store *)

Lemma load_datafile_save payload w : load_datafile (save_datafile payload w) = payload.
Proof. reflexivity. Qed.


Lemma ensure_key_dict key m changed :
  ensure_key key (JDict m, changed) =
  Ok (JDict (add_missing key m), changed || negb (mem key m)).
Proof.
  unfold ensure_key, add_missing; simpl.
  destruct (mem key m); simpl; now rewrite ?orb_false_r, ?orb_true_r.
Qed.

Lemma get_add_missing_eq key m :
  get key (add_missing key m) = Some (or_default (get key m) (JDict [])).
Proof.
  unfold add_missing, mem.
  destruct (get key m) eqn:E; simpl; auto using get_set_eq.
Qed.

Lemma get_add_missing_neq key k m :
  k <> key -> get k (add_missing key m) = get k m.
Proof.
  intros Hne. unfold add_missing.
  destruct (mem key m); auto using get_set_neq.
Qed.

Lemma mem_add_missing key k m :
  mem k (add_missing key m) = (k =? key)%string || mem k m.
Proof.
  destruct (String.eqb_spec k key) as [->|Hne]; simpl.
  - unfold mem. now rewrite get_add_missing_eq.
  - unfold mem. now rewrite get_add_missing_neq.
Qed.



Lemma complete_iff m : complete m = true <-> well_formed m.
Proof.
  unfold complete, well_formed, top_keys. rewrite !andb_true_iff. split.
  - intros [[H1 H2] H3] k [<-|[<-|[<-|[]]]]; assumption.
  - intros H. repeat split; apply H; simpl; auto.
Qed.

Lemma completed_of_complete m : complete m = true -> completed m = m.
Proof.
  unfold complete, completed. rewrite !andb_true_iff. intros [[H1 H2] H3].
  unfold add_missing at 3. rewrite H1.
  unfold add_missing at 2. rewrite H2.
  unfold add_missing. now rewrite H3.
Qed.

Lemma complete_completed m : complete (completed m) = true.
Proof.
  unfold complete, completed. rewrite !mem_add_missing. simpl.
  now rewrite ?orb_true_r.
Qed.

Lemma ensure_data_structure_dict w m :
  load_datafile w = JDict m ->
  ensure_data_structure w =
  (Ok (JDict (completed m)),
   if complete m then w else save_datafile (JDict (completed m)) w).
Proof.
  intros Hload. unfold ensure_data_structure. rewrite Hload. cbv zeta.
  rewrite ensure_key_dict. cbn [bind].
  rewrite ensure_key_dict. cbn [bind].
  rewrite ensure_key_dict. fold (completed m).
  rewrite !mem_add_missing. simpl.
  unfold complete.
  destruct (mem "surveys" m), (mem "responses" m), (mem "assignments" m);
    reflexivity.
Qed.

(** C1: on a document that lacks some of the three top-level keys,
    [ensure_data_structure] returns a document that has all three, each
    missing key bound to an empty map and everything else as it was, and
    writes that document once; on a document that has the three keys it
    returns the document unchanged and writes nothing; running it a
    second time returns the same document and writes nothing. *)
Theorem ensure_data_structure_idempotent :
  forall (w : world) (m : dict json),
    load_datafile w = JDict m ->
    exists m' : dict json,
      fst (ensure_data_structure w) = Ok (JDict m') /\
      well_formed m' /\
      (forall k, In k top_keys ->
                 get k m' = Some (or_default (get k m) (JDict []))) /\
      (forall k, ~ In k top_keys -> get k m' = get k m) /\
      (~ well_formed m ->
       snd (ensure_data_structure w) = save_datafile (JDict m') w /\
       writes (snd (ensure_data_structure w)) = writes w ++ [JDict m']) /\
      (well_formed m -> m' = m /\ snd (ensure_data_structure w) = w) /\
      ensure_data_structure (snd (ensure_data_structure w)) =
      (Ok (JDict m'), snd (ensure_data_structure w)).
Proof.
  intros w m Hload. exists (completed m).
  rewrite (ensure_data_structure_dict w m Hload). simpl fst. simpl snd.
  split; [reflexivity|].
  split; [apply complete_iff, complete_completed|].
  split.
  { intros k [<-|[<-|[<-|[]]]]; unfold completed.
    - rewrite 2 get_add_missing_neq by discriminate. apply get_add_missing_eq.
    - rewrite get_add_missing_neq by discriminate.
      rewrite get_add_missing_eq.
      now rewrite get_add_missing_neq by discriminate.
    - rewrite get_add_missing_eq.
      now rewrite 2 get_add_missing_neq by discriminate. }
  split.
  { intros k Hk. unfold completed.
    rewrite !get_add_missing_neq; auto; intros ->; apply Hk; simpl; auto. }
  split.
  { intros Hnwf. destruct (complete m) eqn:E.
    - exfalso. now apply Hnwf, complete_iff.
    - split; reflexivity. }
  split.
  { intros Hwf. apply complete_iff in Hwf. rewrite Hwf.
    split; [now apply completed_of_complete|reflexivity]. }
  destruct (complete m) eqn:E.
  - rewrite (ensure_data_structure_dict w m Hload), E.
    reflexivity.
  - rewrite (ensure_data_structure_dict _ (completed m) (load_datafile_save _ _)).
    rewrite complete_completed.
    now rewrite (completed_of_complete _ (complete_completed m)).
Qed.

Lemma ensure_data_structure_idempotent_witness :
  exists m' : dict json,
    fst (ensure_data_structure (mkWorld (Holds (JDict [("responses", JDict [("ab12cd34", JList [])])])) [] None)) = Ok (JDict m') /\
    well_formed m'.
Proof.
  destruct (ensure_data_structure_idempotent
              (mkWorld (Holds (JDict [("responses", JDict [("ab12cd34", JList [])])])) [] None)
              [("responses", JDict [("ab12cd34", JList [])])] eq_refl)
    as (m' & H1 & H2 & _).
  exists m'. split; assumption.
Defined.

(** C2: [load_datafile] returns the stored document when [data.json]
    exists and parses.  When the file is absent or unparsable it returns
    the empty dictionary, which has none of the three top-level keys; the
    three empty maps are what [ensure_data_structure] then adds. *)
Theorem load_datafile_degrades_to_empty :
  forall w : world,
    (forall j, data_file w = Holds j -> load_datafile w = j) /\
    (data_file w = Missing \/ data_file w = Unparsable ->
     load_datafile w = JDict [] /\
     (forall k, py_in k (load_datafile w) = Ok false) /\
     fst (ensure_data_structure w) =
     Ok (JDict [("surveys", JDict []); ("responses", JDict []);
                ("assignments", JDict [])])).
Proof.
  intros w. split.
  - intros j Hj. unfold load_datafile. now rewrite Hj.
  - intros Hw.
    assert (Hload : load_datafile w = JDict []).
    { unfold load_datafile. now destruct Hw as [-> | ->]. }
    split; [assumption|]. split.
    + intros k. now rewrite Hload.
    + now rewrite (ensure_data_structure_dict w [] Hload).
Qed.

Lemma load_datafile_degrades_to_empty_witness :
  load_datafile (mkWorld Unparsable [] None) = JDict [] /\
  load_datafile (mkWorld (Holds (JList [])) [] None) = JList [].
Proof.
  split.
  - apply (load_datafile_degrades_to_empty (mkWorld Unparsable [] None)).
    right. reflexivity.
  - apply (load_datafile_degrades_to_empty (mkWorld (Holds (JList [])) [] None)).
    reflexivity.
Defined.

(** C2, as stated, fails when [data.json] is absent: the document that
    [load_datafile] returns has no [surveys] key, let alone an empty map
    under each of the three keys. *)
Lemma load_datafile_missing_file_has_no_keys :
  ~ (forall k, In k top_keys ->
               py_getitem (load_datafile (mkWorld Missing [] None)) k
               = Ok (JDict [])).
Proof.
  intros H. specialize (H "surveys" (or_introl eq_refl)). discriminate H.
Qed.

(** ** Deleting a survey *)

Lemma entry_pop_in_eq key sid m : entry key sid (pop_in key sid m) = None.
Proof.
  unfold entry, pop_in.
  destruct (get key m) as [[| | | | |inner]|] eqn:E; rewrite ?E; auto.
  now autorewrite with pydict.
Qed.

Lemma entry_pop_in_neq key sid sid' m :
  sid' <> sid -> entry key sid' (pop_in key sid m) = entry key sid' m.
Proof.
  intros Hne. unfold entry, pop_in.
  destruct (get key m) as [[| | | | |inner]|] eqn:E; rewrite ?E; auto.
  rewrite get_set_eq. now apply get_pop_neq.
Qed.

Lemma get_pop_in_other key key' sid m :
  key' <> key -> get key' (pop_in key sid m) = get key' m.
Proof.
  intros Hne. unfold pop_in.
  destruct (get key m) as [[| | | | |inner]|]; auto using get_set_neq.
Qed.

Lemma entry_pop_in_other key key' sid sid' m :
  key' <> key -> entry key' sid' (pop_in key sid m) = entry key' sid' m.
Proof.
  intros Hne. unfold entry. now rewrite get_pop_in_other.
Qed.

Lemma py_get_pop_dict key sid m :
  map_or_absent key m ->
  py_get_pop (JDict m) key sid = Ok (JDict (pop_in key sid m)).
Proof.
  unfold py_get_pop, pop_in. intros [E|[inner E]]; now rewrite E.
Qed.

Lemma map_or_absent_pop_in key key' sid m :
  map_or_absent key' m -> map_or_absent key' (pop_in key sid m).
Proof.
  unfold map_or_absent. intros H.
  destruct (String.eqb_spec key' key) as [->|Hne].
  - unfold pop_in. destruct H as [E|[inner E]]; rewrite E.
    + now left.
    + right. exists (pop sid inner). apply get_set_eq.
  - now rewrite get_pop_in_other.
Qed.

Lemma delete_survey_dict sid w m sv :
  load_datafile w = JDict m ->
  get "surveys" m = Some (JDict sv) ->
  map_or_absent "assignments" m ->
  map_or_absent "responses" m ->
  delete_survey sid w =
  (Ok tt,
   save_datafile
     (JDict (pop_in "responses" sid
               (pop_in "assignments" sid (pop_in "surveys" sid m)))) w).
Proof.
  intros Hload Hsv Ha Hr. unfold delete_survey. rewrite Hload. cbv zeta.
  unfold py_getitem. rewrite Hsv. cbn [bind py_pop py_setitem].
  replace (set "surveys" (JDict (pop sid sv)) m) with (pop_in "surveys" sid m)
    by (unfold pop_in; now rewrite Hsv).
  rewrite py_get_pop_dict by now apply map_or_absent_pop_in.
  cbn [bind].
  rewrite py_get_pop_dict by now do 2 apply map_or_absent_pop_in.
  reflexivity.
Qed.

(** C9: deleting survey [sid] from a document whose [surveys] value is a
    map (and whose [assignments] and [responses] values are maps when
    present) writes a document in which none of the three maps has an
    entry for [sid], and in which the entry of every other survey id in
    each of the three maps is what it was. *)
Theorem delete_survey_removes_only_sid :
  forall (sid : string) (w : world) (m sv : dict json),
    load_datafile w = JDict m ->
    get "surveys" m = Some (JDict sv) ->
    map_or_absent "assignments" m ->
    map_or_absent "responses" m ->
    exists m' : dict json,
      delete_survey sid w = (Ok tt, save_datafile (JDict m') w) /\
      forall key, In key top_keys ->
        entry key sid m' = None /\
        forall sid', sid' <> sid -> entry key sid' m' = entry key sid' m.
Proof.
  intros sid w m sv Hload Hsv Ha Hr.
  eexists. split; [now apply (delete_survey_dict sid w m sv)|].
  intros key [<-|[<-|[<-|[]]]]; split; try (intros sid' Hne).
  - rewrite 2 entry_pop_in_other by discriminate. apply entry_pop_in_eq.
  - rewrite 2 entry_pop_in_other by discriminate. now apply entry_pop_in_neq.
  - apply entry_pop_in_eq.
  - rewrite entry_pop_in_neq by assumption.
    now rewrite 2 entry_pop_in_other by discriminate.
  - rewrite entry_pop_in_other by discriminate. apply entry_pop_in_eq.
  - rewrite entry_pop_in_other by discriminate.
    rewrite entry_pop_in_neq by assumption.
    now rewrite entry_pop_in_other by discriminate.
Qed.

Lemma delete_survey_removes_only_sid_witness :
  exists m' : dict json,
    delete_survey "ab12cd34"
      (mkWorld
         (Holds (JDict [("surveys", JDict [("ab12cd34", JNull); ("ffff0000", JNull)]);
                        ("responses", JDict [("ffff0000", JList [])])]))
         [] None)
    = (Ok tt,
       save_datafile (JDict m')
         (mkWorld
            (Holds (JDict [("surveys", JDict [("ab12cd34", JNull); ("ffff0000", JNull)]);
                           ("responses", JDict [("ffff0000", JList [])])]))
            [] None)) /\
    entry "surveys" "ab12cd34" m' = None /\
    entry "surveys" "ffff0000" m' = Some JNull.
Proof.
  destruct (delete_survey_removes_only_sid "ab12cd34"
              (mkWorld
                 (Holds (JDict [("surveys", JDict [("ab12cd34", JNull); ("ffff0000", JNull)]);
                                ("responses", JDict [("ffff0000", JList [])])]))
                 [] None)
              [("surveys", JDict [("ab12cd34", JNull); ("ffff0000", JNull)]);
               ("responses", JDict [("ffff0000", JList [])])]
              [("ab12cd34", JNull); ("ffff0000", JNull)]
              eq_refl eq_refl (or_introl eq_refl)
              (or_intror (ex_intro _ [("ffff0000", JList [])] eq_refl)))
    as (m' & Hrun & Hkeys).
  exists m'. split; [exact Hrun|].
  destruct (Hkeys "surveys" (or_introl eq_refl)) as [Hgone Hkept].
  split; [exact Hgone|].
  rewrite (Hkept "ffff0000") by discriminate. reflexivity.
Defined.

(** ** Creating a survey *)

Lemma entry_put_in_eq key sid v m : entry key sid (put_in key sid v m) = Some v.
Proof.
  unfold entry, put_in.
  destruct (get key m) as [[| | | | |inner]|] eqn:E; rewrite get_set_eq;
    simpl; rewrite ?String.eqb_refl; auto using get_set_eq.
Qed.

Lemma entry_put_in_neq key sid sid' v m :
  sid' <> sid -> entry key sid' (put_in key sid v m) = entry key sid' m.
Proof.
  intros Hne. unfold entry, put_in.
  destruct (get key m) as [[| | | | |inner]|] eqn:E; rewrite get_set_eq;
    simpl; auto using get_set_neq;
    destruct (String.eqb_spec sid sid'); congruence.
Qed.

Lemma get_put_in_other key key' sid v m :
  key' <> key -> get key' (put_in key sid v m) = get key' m.
Proof.
  intros Hne. unfold put_in.
  destruct (get key m) as [[| | | | |inner]|]; auto using get_set_neq.
Qed.

Lemma entry_put_in_other key key' sid sid' v m :
  key' <> key -> entry key' sid' (put_in key sid v m) = entry key' sid' m.
Proof.
  intros Hne. unfold entry. now rewrite get_put_in_other.
Qed.

Lemma py_setdefault_setitem_dict key sid v m :
  map_or_absent key m ->
  py_setdefault_setitem (JDict m) key sid v = Ok (JDict (put_in key sid v m)).
Proof.
  unfold py_setdefault_setitem, put_in. intros [E|[inner E]]; now rewrite E.
Qed.

Lemma length_take n s :
  n <= String.length s -> String.length (PyStr.take n s) = n.
Proof.
  unfold PyStr.take. revert s.
  induction n as [|n IH]; intros [|c s] Hle; simpl in *; auto; try lia.
  rewrite IH; lia.
Qed.

Lemma take_append n a b :
  String.length a = n -> PyStr.take n (a ++ b)%string = a.
Proof.
  unfold PyStr.take. revert n.
  induction a as [|c a IH]; intros n <-; simpl.
  - now destruct b.
  - now rewrite IH.
Qed.

Lemma length_append a b :
  String.length (a ++ b)%string = String.length a + String.length b.
Proof. induction a; simpl; auto. Qed.

Lemma length_hex width n : String.length (Uuid.hex width n) = width.
Proof.
  revert n. induction width as [|width IH]; intros n; simpl; auto.
  rewrite length_append, IH. simpl. lia.
Qed.

Lemma generate_survey_id_length random :
  String.length (generate_survey_id random) = 8.
Proof.
  unfold generate_survey_id, Uuid.str.
  set (h := Uuid.hex 32 (Uuid.uuid4 random)).
  assert (H8 : String.length (substring 0 8 h) = 8).
  { apply (length_take 8). unfold h. rewrite length_hex. lia. }
  now rewrite take_append.
Qed.

(** C8, as stated, fails: the handler does not look the new identifier
    up.  With a survey stored under ["0000002a"] and random bytes whose
    first four are [00 00 00 2a], the new survey is written under the
    same identifier and the stored one is gone. *)
Lemma create_and_save_survey_overwrites :
  let old := JDict [("survey_id", JStr "0000002a"); ("process", JStr "Data Migration")] in
  let m := [("surveys", JDict [("0000002a", old)]); ("assignments", JDict [])] in
  let w := mkWorld (Holds (JDict m)) [] None in
  let form := mkForm (Some "Order to Cash") None "SAP" "" [] in
  entry "surveys" "0000002a" m = Some old /\
  exists m',
    create_and_save_survey form (42 * 2 ^ 96) w
    = (Ok (St_success "0000002a"), save_datafile (JDict m') w) /\
    keys (match get "surveys" m' with Some (JDict sv) => sv | _ => [] end)
    = ["0000002a"] /\
    entry "surveys" "0000002a" m' <> Some old.
Proof.
  cbv zeta. split; [reflexivity|].
  eexists. split; [vm_compute; reflexivity|].
  split; [reflexivity|]. vm_compute. discriminate.
Qed.

(** C8 (amended): for a form that passes the two checks and a document
    whose [surveys] and [assignments] values are maps when present, the
    handler stores the new survey under the 8-character identifier it
    generated, without looking that identifier up; the entry of every
    other survey id is what it was, in every top-level map.  So no stored
    survey is overwritten provided the generated identifier was not
    already a key of [surveys]. *)
Theorem create_and_save_survey_keeps_other_ids :
  forall (form : create_form) (random : N) (w : world) (m : dict json),
    accepted form ->
    load_datafile w = JDict m ->
    map_or_absent "surveys" m ->
    map_or_absent "assignments" m ->
    exists (m' : dict json) (survey : json),
      create_and_save_survey form random w
      = (Ok (St_success (generate_survey_id random)),
         save_datafile (JDict m') w) /\
      String.length (generate_survey_id random) = 8 /\
      entry "surveys" (generate_survey_id random) m' = Some survey /\
      py_getitem survey "survey_id" = Ok (JStr (generate_survey_id random)) /\
      entry "assignments" (generate_survey_id random) m'
      = Some (JList (map JStr (selected_emails form))) /\
      (forall key sid', sid' <> generate_survey_id random ->
                        entry key sid' m' = entry key sid' m) /\
      (entry "surveys" (generate_survey_id random) m = None ->
       forall sid' old, entry "surveys" sid' m = Some old ->
                        entry "surveys" sid' m' = Some old).
Proof.
  intros form random w m [(p & Hp & Hpne) Hskills] Hload Hs Ha.
  set (sid := generate_survey_id random).
  set (skills := stripped_nonempty (PyStr.split "," (skills_input form))) in *.
  set (questions := stripped_nonempty (PyStr.splitlines (questions_input form))).
  set (survey := survey_record sid form skills questions).
  set (emails := JList (map JStr (selected_emails form))).
  exists (put_in "assignments" sid emails (put_in "surveys" sid survey m)), survey.
  assert (Hother : forall key sid', sid' <> sid ->
            entry key sid' (put_in "assignments" sid emails
                              (put_in "surveys" sid survey m))
            = entry key sid' m).
  { intros key sid' Hne.
    destruct (String.eqb_spec key "assignments") as [->|Hk1].
    - rewrite entry_put_in_neq by assumption.
      now rewrite entry_put_in_other by discriminate.
    - rewrite entry_put_in_other by assumption.
      destruct (String.eqb_spec key "surveys") as [->|Hk2].
      + now rewrite entry_put_in_neq.
      + now rewrite entry_put_in_other. }
  split; [|split; [|split; [|split; [|split; [|split]]]]].
  - unfold create_and_save_survey. rewrite Hp.
    destruct p as [|c p]; [congruence|].
    fold skills. destruct skills as [|s0 skills0] eqn:Esk; [congruence|].
    cbv zeta. rewrite Hload. fold sid. fold questions.
    fold survey. fold emails.
    rewrite py_setdefault_setitem_dict by assumption. cbn [bind].
    rewrite py_setdefault_setitem_dict; [reflexivity|].
    unfold map_or_absent. rewrite get_put_in_other by discriminate. exact Ha.
  - apply generate_survey_id_length.
  - rewrite entry_put_in_other by discriminate. apply entry_put_in_eq.
  - reflexivity.
  - apply entry_put_in_eq.
  - exact Hother.
  - intros Hfresh sid' old Hold. rewrite Hother; [assumption|].
    intros ->. fold sid in Hfresh. congruence.
Qed.

Lemma create_and_save_survey_keeps_other_ids_witness :
  exists (m' : dict json) (survey : json),
    create_and_save_survey
      (mkForm (Some "Order to Cash") (Some 1%Z) "SAP, Invoicing" "" ["a@b.c"])
      (42 * 2 ^ 96)
      (mkWorld (Holds (JDict [("surveys", JDict [("ffff0000", JNull)])])) [] None)
    = (Ok (St_success (generate_survey_id (42 * 2 ^ 96))),
       save_datafile (JDict m')
         (mkWorld (Holds (JDict [("surveys", JDict [("ffff0000", JNull)])])) [] None)) /\
    entry "surveys" (generate_survey_id (42 * 2 ^ 96)) m' = Some survey /\
    entry "surveys" "ffff0000" m' = Some JNull.
Proof.
  assert (Hacc : accepted (mkForm (Some "Order to Cash") (Some 1%Z)
                             "SAP, Invoicing" "" ["a@b.c"])).
  { split.
    - exists "Order to Cash". split; [reflexivity|discriminate].
    - vm_compute. discriminate. }
  destruct (create_and_save_survey_keeps_other_ids
              (mkForm (Some "Order to Cash") (Some 1%Z) "SAP, Invoicing" "" ["a@b.c"])
              (42 * 2 ^ 96)
              (mkWorld (Holds (JDict [("surveys", JDict [("ffff0000", JNull)])])) [] None)
              [("surveys", JDict [("ffff0000", JNull)])]
              Hacc eq_refl
              (or_intror (ex_intro _ [("ffff0000", JNull)] eq_refl))
              (or_introl eq_refl))
    as (m' & survey & Hrun & _ & Hnew & _ & _ & _ & Hfresh).
  exists m', survey. split; [exact Hrun|]. split; [exact Hnew|].
  apply Hfresh; reflexivity.
Defined.

(** ** Strings: substrings and case *)

Lemma lower_append (a b : string) :
  PyStr.lower (a ++ b) = (PyStr.lower a ++ PyStr.lower b)%string.
Proof. induction a; simpl; congruence. Qed.

Lemma lower_append_inv (t a b : string) :
  PyStr.lower t = (a ++ b)%string ->
  exists t1 t2, t = (t1 ++ t2)%string /\ PyStr.lower t1 = a /\ PyStr.lower t2 = b.
Proof.
  revert t. induction a as [|c a IH]; intros t H; simpl in H.
  - exists EmptyString, t. auto.
  - destruct t as [|d t]; simpl in H; [discriminate|].
    injection H as Hc Ht. destruct (IH t Ht) as (t1 & t2 & -> & H1 & H2).
    exists (String d t1), t2. simpl. repeat split; congruence.
Qed.

Lemma prefix_iff (needle hay : string) :
  prefix needle hay = true <-> exists post, hay = (needle ++ post)%string.
Proof.
  revert hay. induction needle as [|c needle IH]; intros hay; simpl.
  - split; [intros _; now exists hay|]. now destruct hay.
  - destruct hay as [|d hay].
    + split; [discriminate|]. intros [post H]. discriminate.
    + simpl. destruct (ascii_dec c d) as [->|Hne].
      * rewrite IH. split; intros [post H]; exists post; congruence.
      * split; [discriminate|]. intros [post H]. congruence.
Qed.

Lemma contains_iff (needle hay : string) :
  PyStr.contains needle hay = true <->
  exists pre post, hay = (pre ++ needle ++ post)%string.
Proof.
  induction hay as [|d hay IH]; cbn [PyStr.contains].
  - rewrite orb_false_r, prefix_iff. split.
    + intros [post H]. now exists EmptyString, post.
    + intros ([|c pre] & post & H); [now exists post|discriminate].
  - rewrite orb_true_iff, prefix_iff, IH. split.
    + intros [[post H]|(pre & post & H)].
      * now exists EmptyString, post.
      * exists (String d pre), post. simpl. congruence.
    + intros ([|c pre] & post & H); simpl in H.
      * left. now exists post.
      * right. exists pre, post. congruence.
Qed.

(** The test [needle.lower() in hay.lower()] decides occurrence up to
    case. *)
Lemma contains_lower_iff (needle hay : string) :
  PyStr.contains (PyStr.lower needle) (PyStr.lower hay) = true <->
  occurs_ignoring_case needle hay.
Proof.
  rewrite contains_iff. unfold occurs_ignoring_case. split.
  - intros (pre' & post' & H).
    apply lower_append_inv in H. destruct H as (pre & rest & -> & _ & H).
    apply lower_append_inv in H. destruct H as (mid & post & -> & H & _).
    now exists pre, mid, post.
  - intros (pre & mid & post & -> & H).
    exists (PyStr.lower pre), (PyStr.lower post).
    now rewrite !lower_append, H.
Qed.

Lemma contains_lower_false_iff (needle hay : string) :
  PyStr.contains (PyStr.lower needle) (PyStr.lower hay) = false <->
  ~ occurs_ignoring_case needle hay.
Proof.
  rewrite <- contains_lower_iff.
  destruct (PyStr.contains _ _); split; congruence.
Qed.

(** ** Skill suggestions *)

Lemma suggest_scan_some items process_name v :
  suggest_scan items process_name = Some v ->
  exists pre k post,
    items = pre ++ (k, v) :: post /\
    occurs_ignoring_case k process_name /\
    forall k' v', In (k', v') pre -> ~ occurs_ignoring_case k' process_name.
Proof.
  induction items as [|[k0 v0] items IH]; simpl; [discriminate|].
  destruct (PyStr.contains _ _) eqn:E.
  - intros [= ->]. exists [], k0, items. repeat split.
    + now apply contains_lower_iff.
    + intros k' v' [].
  - intros H. destruct (IH H) as (pre & k & post & -> & Hk & Hpre).
    exists ((k0, v0) :: pre), k, post. repeat split; auto.
    intros k' v' [[= <- <-]|Hin]; [now apply contains_lower_false_iff|eauto].
Qed.

Lemma suggest_scan_none items process_name :
  suggest_scan items process_name = None ->
  forall k v, In (k, v) items -> ~ occurs_ignoring_case k process_name.
Proof.
  induction items as [|[k0 v0] items IH]; simpl; [intros _ k v []|].
  destruct (PyStr.contains _ _) eqn:E; [discriminate|].
  intros H k v [[= <- <-]|Hin]; [now apply contains_lower_false_iff|eauto].
Qed.

(** C7: the suggestion for a process name is the skill list of the
    first entry of the table, in table order, whose key occurs in the
    name when case is ignored; when no key does, it is the generic list
    Communication, Process Knowledge, Documentation, Tools.  For the name
    "Order to Cash" it is Order Processing, Invoicing, Accounts
    Receivable, SAP. *)
Theorem suggest_skills_for_process_first_match :
  forall process_name : string,
    ((exists pre k v post,
         mapping = pre ++ (k, v) :: post /\
         occurs_ignoring_case k process_name /\
         (forall k' v', In (k', v') pre ->
                        ~ occurs_ignoring_case k' process_name) /\
         suggest_skills_for_process process_name = v)
     \/
     ((forall k v, In (k, v) mapping -> ~ occurs_ignoring_case k process_name) /\
      suggest_skills_for_process process_name
      = ["Communication"; "Process Knowledge"; "Documentation"; "Tools"]))
    /\
    suggest_skills_for_process "Order to Cash"
    = ["Order Processing"; "Invoicing"; "Accounts Receivable"; "SAP"].
Proof.
  intros process_name. split; [|reflexivity].
  unfold suggest_skills_for_process.
  destruct (suggest_scan mapping process_name) as [v|] eqn:E.
  - left. destruct (suggest_scan_some _ _ _ E) as (pre & k & post & H1 & H2 & H3).
    now exists pre, k, v, post.
  - right. split; [now apply suggest_scan_none|reflexivity].
Qed.

(** ** Splitting and the declared skills line *)

Lemma mem_char_append c a b :
  PyStr.mem_char c (a ++ b) = PyStr.mem_char c a || PyStr.mem_char c b.
Proof. induction a as [|d a IH]; simpl; [auto|]. now rewrite IH, orb_assoc. Qed.

Lemma eqb_colon_lower_char c :
  Ascii.eqb ":" (PyStr.lower_char c) = Ascii.eqb ":" c.
Proof. destruct c as [[] [] [] [] [] [] [] []]; reflexivity. Qed.

Lemma mem_char_colon_lower s :
  PyStr.mem_char ":" (PyStr.lower s) = PyStr.mem_char ":" s.
Proof.
  induction s as [|c s IH]; cbn [PyStr.mem_char PyStr.lower]; [auto|].
  now rewrite eqb_colon_lower_char, IH.
Qed.

Lemma occurs_skills_has_colon ln :
  occurs_ignoring_case "skills:" ln -> PyStr.mem_char ":" ln = true.
Proof.
  intros H. apply contains_lower_iff, contains_iff in H.
  destruct H as (pre & post & H).
  rewrite <- mem_char_colon_lower, H, !mem_char_append. simpl.
  now rewrite orb_true_r.
Qed.

Lemma split_once_spec sep s :
  (exists before rest,
      s = (before ++ String sep rest)%string /\
      PyStr.mem_char sep before = false /\
      PyStr.split_once sep s = [before; rest])
  \/ (PyStr.mem_char sep s = false /\ PyStr.split_once sep s = [s]).
Proof.
  induction s as [|c s IH]; simpl.
  - right. auto.
  - destruct (Ascii.eqb_spec c sep) as [->|Hne].
    + left. exists EmptyString, s. auto.
    + assert (Hsc : Ascii.eqb sep c = false)
        by (apply Ascii.eqb_neq; congruence).
      rewrite Hsc. simpl.
      destruct IH as [(before & rest & -> & Hb & ->)|[Hs ->]].
      * left. exists (String c before), rest. simpl. now rewrite Hsc, Hb.
      * right. auto.
Qed.

Lemma split_nonempty sep s : PyStr.split sep s <> [].
Proof.
  destruct s as [|c s]; simpl; [discriminate|].
  destruct (Ascii.eqb c sep); [discriminate|].
  destruct (PyStr.split sep s); discriminate.
Qed.

Lemma split_join sep s :
  PyStr.join (String sep EmptyString) (PyStr.split sep s) = s.
Proof.
  unfold PyStr.join. induction s as [|c s IH]; simpl; [reflexivity|].
  destruct (Ascii.eqb_spec c sep) as [->|Hne].
  - pose proof (split_nonempty sep s) as Hnil.
    destruct (PyStr.split sep s) as [|h t] eqn:E; [congruence|].
    cbn [String.concat append] in *. congruence.
  - pose proof (split_nonempty sep s) as Hnil.
    destruct (PyStr.split sep s) as [|h t] eqn:E; [congruence|].
    destruct t; cbn [String.concat append] in *; congruence.
Qed.

Lemma split_pieces sep s :
  Forall (fun p => PyStr.mem_char sep p = false) (PyStr.split sep s).
Proof.
  induction s as [|c s IH]; simpl.
  - now constructor.
  - destruct (Ascii.eqb_spec c sep) as [->|Hne].
    + now constructor.
    + destruct (PyStr.split sep s) as [|h t]; inversion IH; subst;
        constructor; simpl; auto.
      * assert (Ascii.eqb sep c = false) as -> by (apply Ascii.eqb_neq; congruence).
        reflexivity.
      * assert (Ascii.eqb sep c = false) as -> by (apply Ascii.eqb_neq; congruence).
        assumption.
Qed.

Lemma declared_skills_spec ln :
  occurs_ignoring_case "skills:" ln ->
  exists before rest,
    ln = (before ++ ":" ++ rest)%string /\
    PyStr.mem_char ":" before = false /\
    declared_skills ln = Ok (stripped_nonempty (PyStr.split "," rest)).
Proof.
  intros H. apply occurs_skills_has_colon in H.
  unfold declared_skills.
  destruct (split_once_spec ":" ln) as [(before & rest & -> & Hb & ->)|[Hs _]].
  - exists before, rest. auto.
  - congruence.
Qed.

Lemma scan_lines_first lines :
  (exists ln, In ln lines /\ occurs_ignoring_case "skills:" ln) ->
  exists pre ln post,
    lines = pre ++ ln :: post /\
    (forall l, In l pre -> ~ occurs_ignoring_case "skills:" l) /\
    occurs_ignoring_case "skills:" ln /\
    scan_lines lines = Some (declared_skills ln).
Proof.
  induction lines as [|l0 lines IH]; intros (ln & Hin & Hocc); [destruct Hin|].
  cbn [scan_lines].
  destruct (PyStr.contains "skills:" (PyStr.lower l0)) eqn:E;
    change "skills:" with (PyStr.lower "skills:") in E.
  - exists [], l0, lines.
    split; [reflexivity|]. split; [intros l []|].
    split; [now apply contains_lower_iff|reflexivity].
  - apply contains_lower_false_iff in E.
    destruct Hin as [->|Hin]; [contradiction|].
    destruct IH as (pre & ln' & post & -> & Hpre & Hocc' & Hscan); [eauto|].
    exists (l0 :: pre), ln', post.
    split; [reflexivity|]. split; [|now split].
    intros l [<-|Hl]; auto.
Qed.

(** C6: when some line of the text contains "skills:" (case ignored),
    [extract_skills_from_text] returns what the first such line
    declares: the line is cut at its first colon, the remainder is cut
    at every comma, each piece is stripped of white space and the empty
    ones are dropped, in order.  The result is that of the [return]
    inside the loop, so later lines and the token heuristic (and with it
    the iteration order of sets) play no part.  The text
    "Skills: Excel, SAP, Communication" gives Excel, SAP,
    Communication. *)
Theorem extract_skills_from_text_declared_line :
  forall set_order : list string -> list string,
    (forall text : string,
        (exists ln, In ln (PyStr.splitlines text) /\
                    occurs_ignoring_case "skills:" ln) ->
        exists pre ln post before rest pieces,
          PyStr.splitlines text = pre ++ ln :: post /\
          (forall l, In l pre -> ~ occurs_ignoring_case "skills:" l) /\
          occurs_ignoring_case "skills:" ln /\
          ln = (before ++ ":" ++ rest)%string /\
          PyStr.mem_char ":" before = false /\
          rest = PyStr.join "," pieces /\
          Forall (fun p => PyStr.mem_char "," p = false) pieces /\
          extract_skills_from_text set_order text = declared_skills ln /\
          extract_skills_from_text set_order text
          = Ok (map PyStr.strip
                  (filter (fun p => negb (PyStr.is_empty (PyStr.strip p)))
                     pieces)))
    /\
    extract_skills_from_text set_order "Skills: Excel, SAP, Communication"
    = Ok ["Excel"; "SAP"; "Communication"].
Proof.
  intros set_order. split; [|reflexivity].
  intros text Hline.
  destruct (scan_lines_first _ Hline) as (pre & ln & post & Hl & Hpre & Hocc & Hscan).
  destruct (declared_skills_spec ln Hocc) as (before & rest & Hln & Hb & Hdecl).
  exists pre, ln, post, before, rest, (PyStr.split "," rest).
  unfold extract_skills_from_text. rewrite Hscan.
  repeat split; auto.
  - symmetry. apply split_join.
  - apply split_pieces.
Qed.

Lemma extract_skills_from_text_declared_line_witness :
  exists ln,
    In ln (PyStr.splitlines ("Resume of A. Lovelace" ++ String "010" "SKILLS: ETL, , SQL ")) /\
    extract_skills_from_text (fun l => l)
      ("Resume of A. Lovelace" ++ String "010" "SKILLS: ETL, , SQL ")
    = declared_skills ln.
Proof.
  assert (Hline : exists ln,
             In ln (PyStr.splitlines
                      ("Resume of A. Lovelace" ++ String "010" "SKILLS: ETL, , SQL ")) /\
             occurs_ignoring_case "skills:" ln).
  { exists "SKILLS: ETL, , SQL ". split.
    - simpl. auto.
    - exists "", "SKILLS:", " ETL, , SQL ". split; reflexivity. }
  destruct (proj1 (extract_skills_from_text_declared_line (fun l => l)) _ Hline)
    as (pre & ln & post & _ & _ & pieces & Hl & _ & _ & _ & _ & _ & _ & Hret & _).
  exists ln. split; [|exact Hret].
  rewrite Hl. apply in_elt.
Defined.

(** ** Resume matching *)

Lemma match_resumes_fold skill_lower resumes (acc : list string) :
  fold_left
    (fun matches (item : string * string) =>
       let (fname, text) := item in
       if PyStr.contains skill_lower (PyStr.lower text)
       then matches ++ [fname]
       else matches)
    resumes acc
  = acc ++ map fst (filter (fun item => PyStr.contains skill_lower
                                          (PyStr.lower (snd item))) resumes).
Proof.
  revert acc. induction resumes as [|[fname text] resumes IH]; intros acc; simpl.
  - now rewrite app_nil_r.
  - rewrite IH. destruct (PyStr.contains _ _); simpl; [|reflexivity].
    now rewrite <- app_assoc.
Qed.

Lemma match_resumes_for_skill_filter skill resumes :
  match_resumes_for_skill skill resumes
  = map fst (filter (fun item => PyStr.contains (PyStr.lower skill)
                                   (PyStr.lower (snd item))) resumes).
Proof. unfold match_resumes_for_skill. now rewrite match_resumes_fold. Qed.

(** In this model of texts, where [lower] acts on each character by
    itself, that is containment up to case. *)
Lemma match_resumes_for_skill_iff skill resumes fname :
  In fname (match_resumes_for_skill skill resumes) <->
  exists text, In (fname, text) resumes /\ occurs_ignoring_case skill text.
Proof.
  rewrite match_resumes_for_skill_filter, in_map_iff. split.
  - intros ([f text] & <- & Hin). apply filter_In in Hin. destruct Hin as [Hin Hc].
    exists text. split; [assumption|]. now apply contains_lower_iff.
  - intros (text & Hin & Hocc). exists (fname, text). split; [reflexivity|].
    apply filter_In. split; [assumption|]. now apply contains_lower_iff.
Qed.

Lemma match_resumes_for_skill_keys skill resumes fname :
  In fname (match_resumes_for_skill skill resumes) -> mem fname resumes = true.
Proof.
  rewrite match_resumes_for_skill_iff. intros (text & Hin & _).
  now apply In_mem with text.
Qed.

Lemma show_matches_ok resume_texts matches :
  (forall m, In m matches -> mem m resume_texts = true) ->
  show_matches resume_texts matches
  = Ok (map (shown_resume resume_texts) matches).
Proof.
  induction matches as [|m matches IH]; intros Hkeys; simpl; [reflexivity|].
  unfold preview, shown_resume at 1, get_default.
  assert (Hm : mem m resume_texts = true) by (apply Hkeys; now left).
  apply mem_true_iff in Hm. destruct Hm as [text ->]. cbn [bind].
  rewrite IH by (intros; apply Hkeys; now right). reflexivity.
Qed.

Lemma scan_lines_ok lines r :
  scan_lines lines = Some r -> exists skills, r = Ok skills.
Proof.
  induction lines as [|ln lines IH]; simpl; [discriminate|].
  destruct (PyStr.contains "skills:" (PyStr.lower ln)) eqn:E; [|assumption].
  intros [= <-].
  change "skills:" with (PyStr.lower "skills:") in E.
  apply contains_lower_iff, declared_skills_spec in E.
  destruct E as (before & rest & _ & _ & ->). eauto.
Qed.

(** [extract_skills_from_text] never raises: the line it cuts at the
    colon has one. *)
Lemma extract_skills_from_text_ok set_order text :
  exists tokens, extract_skills_from_text set_order text = Ok tokens.
Proof.
  unfold extract_skills_from_text.
  destruct (scan_lines (PyStr.splitlines text)) as [r|] eqn:E; [|eauto].
  now apply scan_lines_ok with (PyStr.splitlines text).
Qed.

Lemma fallback_scan_ok set_order ms items :
  exists suggestions,
    fallback_scan set_order ms items
    = Ok (map Call_extract (keys items), suggestions) /\
    forall fname,
      In fname suggestions <->
      exists txt tokens,
        In (fname, txt) items /\
        extract_skills_from_text set_order txt = Ok tokens /\
        In ms (map PyStr.lower tokens).
Proof.
  induction items as [|[fname txt] items IH]; simpl.
  - exists []. split; [reflexivity|]. intros f. split; [intros []|].
    intros (t & tok & [] & _).
  - destruct (extract_skills_from_text_ok set_order txt) as [tokens Htok].
    destruct IH as (suggestions & -> & Hiff).
    rewrite Htok. cbn [bind].
    assert (Hmem : PySet.mem ms (map PyStr.lower tokens) = true <->
                   In ms (map PyStr.lower tokens)).
    { unfold PySet.mem. rewrite existsb_exists. split.
      - intros (x & Hx & Heq). apply String.eqb_eq in Heq. now subst.
      - intros Hin. exists ms. split; [assumption|apply String.eqb_refl]. }
    destruct (PySet.mem ms (map PyStr.lower tokens)) eqn:E.
    + exists (fname :: suggestions). split; [reflexivity|].
      intros f. simpl. rewrite Hiff. split.
      * intros [<-|(t & tok & Hin & H1 & H2)].
        -- exists txt, tokens. repeat split; auto. now apply Hmem.
        -- exists t, tok. auto.
      * intros (t & tok & [[= <- <-]|Hin] & H1 & H2); [now left|].
        right. now exists t, tok.
    + exists suggestions. split; [reflexivity|].
      intros f. rewrite Hiff. split.
      * intros (t & tok & Hin & H1 & H2). exists t, tok. auto.
      * intros (t & tok & [[= <- <-]|Hin] & H1 & H2).
        -- rewrite Htok in H1. injection H1 as <-.
           apply Hmem in H2. congruence.
        -- now exists t, tok.
Qed.

Lemma match_resumes_for_skill_lower_iff skill resumes fname :
  In fname (match_resumes_for_skill skill resumes) <->
  exists text,
    In (fname, text) resumes /\
    substring_of (PyStr.lower skill) (PyStr.lower text).
Proof.
  rewrite match_resumes_for_skill_filter, in_map_iff. unfold substring_of.
  split.
  - intros ([f text] & <- & Hin). apply filter_In in Hin. destruct Hin as [Hin Hc].
    exists text. split; [assumption|]. now apply contains_iff.
  - intros (text & Hin & Hsub). exists (fname, text). split; [reflexivity|].
    apply filter_In. split; [assumption|]. now apply contains_iff.
Qed.

(** *** The two models of a text agree on ASCII *)

Lemma lower_code_ascii c :
  (PyStr.code c <? 128)%N = true ->
  (N_of_ascii c =? 931)%N = false /\
  Unicode.modelled (N_of_ascii c) = true /\
  Unicode.lower_code (N_of_ascii c) = N_of_ascii (PyStr.lower_char c).
Proof.
  destruct c as [[] [] [] [] [] [] [] []]; intros H;
    try discriminate H; repeat split; reflexivity.
Qed.

Lemma unicode_lower_from_ascii s before :
  is_ascii s = true ->
  Unicode.lower_from before (Unicode.of_string s)
  = Unicode.of_string (PyStr.lower s).
Proof.
  revert before. induction s as [|c s IH]; intros before H; [reflexivity|].
  unfold is_ascii in H. cbn [all_chars] in H. apply andb_prop in H.
  destruct H as [Hc Hs].
  destruct (lower_code_ascii c Hc) as (Hsigma & _ & Hlow).
  unfold Unicode.of_string.
  cbn [list_ascii_of_string map Unicode.lower_from PyStr.lower].
  rewrite Hsigma, Hlow. f_equal. now apply IH.
Qed.

Lemma unicode_modelled_ascii s :
  is_ascii s = true -> forallb Unicode.modelled (Unicode.of_string s) = true.
Proof.
  induction s as [|c s IH]; intros H; [reflexivity|].
  unfold is_ascii in H. cbn [all_chars] in H. apply andb_prop in H.
  destruct H as [Hc Hs].
  destruct (lower_code_ascii c Hc) as (_ & Hm & _).
  unfold Unicode.of_string. cbn [list_ascii_of_string map forallb].
  rewrite Hm. now apply IH.
Qed.

Lemma unicode_lower_ascii s :
  is_ascii s = true ->
  Unicode.lower (Unicode.of_string s)
  = Some (Unicode.of_string (PyStr.lower s)).
Proof.
  intros H. unfold Unicode.lower.
  now rewrite unicode_modelled_ascii, unicode_lower_from_ascii.
Qed.

Lemma N_of_ascii_eqb c d : (N_of_ascii c =? N_of_ascii d)%N = Ascii.eqb c d.
Proof.
  destruct (Ascii.eqb_spec c d) as [->|Hne]; [apply N.eqb_refl|].
  apply N.eqb_neq. intros H. apply Hne.
  now rewrite <- (ascii_N_embedding c), <- (ascii_N_embedding d), H.
Qed.

Lemma unicode_prefix_of_string a b :
  Unicode.prefix (Unicode.of_string a) (Unicode.of_string b) = prefix a b.
Proof.
  revert b. induction a as [|c a IH]; intros b; [now destruct b|].
  destruct b as [|d b]; [reflexivity|].
  unfold Unicode.of_string. cbn [list_ascii_of_string map Unicode.prefix prefix].
  rewrite N_of_ascii_eqb. fold (Unicode.of_string a) (Unicode.of_string b).
  rewrite IH. destruct (ascii_dec c d) as [->|Hne].
  - now rewrite Ascii.eqb_refl.
  - apply Ascii.eqb_neq in Hne. now rewrite Hne.
Qed.

Lemma unicode_contains_of_string a b :
  Unicode.contains (Unicode.of_string a) (Unicode.of_string b)
  = PyStr.contains a b.
Proof.
  induction b as [|d b IH].
  - cbn [PyStr.contains]. change (Unicode.of_string EmptyString) with (@nil N).
    cbn [Unicode.contains].
    change (@nil N) with (Unicode.of_string EmptyString).
    now rewrite unicode_prefix_of_string.
  - cbn [PyStr.contains].
    change (Unicode.of_string (String d b))
      with (N_of_ascii d :: Unicode.of_string b).
    cbn [Unicode.contains]. rewrite IH.
    change (N_of_ascii d :: Unicode.of_string b)
      with (Unicode.of_string (String d b)).
    now rewrite unicode_prefix_of_string.
Qed.

(** On ASCII texts the direct match over code points is the direct match
    of the first model. *)
Lemma unicode_match_resumes_for_skill_ascii skill resumes :
  is_ascii skill = true ->
  Forall (fun item : string * string => is_ascii (snd item) = true) resumes ->
  Unicode.match_resumes_for_skill (Unicode.of_string skill)
    (Unicode.of_resumes resumes)
  = Some (match_resumes_for_skill skill resumes).
Proof.
  intros Hskill Hres.
  unfold Unicode.match_resumes_for_skill, match_resumes_for_skill.
  rewrite unicode_lower_ascii by assumption. cbv zeta.
  set (f := fun (matches : option (list string)) (item : string * Unicode.ustr) => _).
  set (g := fun (matches : list string) (item : string * string) => _).
  assert (H : forall acc,
             fold_left f (Unicode.of_resumes resumes) (Some acc)
             = Some (fold_left g resumes acc)); [|apply H].
  induction Hres as [|[fname text] resumes Htext Hres IH]; intros acc;
    [reflexivity|].
  cbn [Unicode.of_resumes map fold_left fst snd] in *.
  unfold f at 2, g at 2.
  rewrite unicode_lower_ascii by assumption.
  rewrite unicode_contains_of_string. apply IH.
Qed.

(** C5, as stated, fails: the text of resume [a.txt], the Greek word
    of code points 927 916 927 931 919 924 913, begins with the skill
    927 916 927 931 letter for letter, and [match_resumes_for_skill] does
    not return [a.txt].  The skill ends with a capital sigma, which
    [lower] turns into the final sigma 962; in the text a letter follows
    the sigma, which becomes 963. *)
Lemma match_resumes_for_skill_misses_contained_skill :
  [927; 916; 927; 931; 919; 924; 913]%N
  = ([927; 916; 927; 931] ++ [919; 924; 913])%N /\
  Unicode.lower [927; 916; 927; 931]%N = Some [959; 948; 959; 962]%N /\
  Unicode.lower [927; 916; 927; 931; 919; 924; 913]%N
  = Some [959; 948; 959; 963; 951; 956; 945]%N /\
  Unicode.match_resumes_for_skill [927; 916; 927; 931]%N
    [("a.txt", [927; 916; 927; 931; 919; 924; 913]%N)]
  = Some [].
Proof. repeat split; reflexivity. Qed.

(** C5 (amended): the direct matches of a skill are exactly the resumes
    whose lower-cased text contains the lower-cased skill; when the
    resume texts are ASCII, these are exactly the resumes whose text
    contains the skill when case is ignored.  When there is at least one
    direct match, the dashboard shows them and takes no step of the token
    fallback: it does not call [extract_skills_from_text] and shows no
    fallback result.  When there is none, it calls
    [extract_skills_from_text] once per resume and reports as fallback
    matches the resumes whose extracted tokens, lower-cased, include the
    skill (or that there are no matches). *)
Theorem resume_matching_fallback_only_without_direct_match :
  forall (set_order : list string -> list string)
         (resume_texts : dict string) (ms : string),
    (forall fname,
        In fname (match_resumes_for_skill ms resume_texts) <->
        exists text,
          In (fname, text) resume_texts /\
          substring_of (PyStr.lower ms) (PyStr.lower text)) /\
    (Forall (fun item : string * string => is_ascii (snd item) = true)
       resume_texts ->
     forall fname,
       In fname (match_resumes_for_skill ms resume_texts) <->
       exists text,
         In (fname, text) resume_texts /\ occurs_ignoring_case ms text) /\
    exists steps,
      resume_matching_for set_order resume_texts ms = Ok steps /\
      (match_resumes_for_skill ms resume_texts <> [] ->
       steps = Show_matches ms (length (match_resumes_for_skill ms resume_texts))
               :: map (shown_resume resume_texts)
                    (match_resumes_for_skill ms resume_texts) /\
       forall st, In st steps -> is_fallback_step st = false) /\
      (match_resumes_for_skill ms resume_texts = [] ->
       exists suggestions,
         steps = Show_matches ms 0
                 :: map Call_extract (keys resume_texts)
                 ++ [match suggestions with
                     | _ :: _ => Show_fallback suggestions
                     | [] => Show_no_matches
                     end] /\
         forall fname,
           In fname suggestions <->
           exists txt tokens,
             In (fname, txt) resume_texts /\
             extract_skills_from_text set_order txt = Ok tokens /\
             In ms (map PyStr.lower tokens)).
Proof.
  intros set_order resume_texts ms.
  split; [intros fname; apply match_resumes_for_skill_lower_iff|].
  split; [intros _ fname; apply match_resumes_for_skill_iff|].
  unfold resume_matching_for.
  pose proof (match_resumes_for_skill_keys ms resume_texts) as Hkeys.
  destruct (match_resumes_for_skill ms resume_texts) as [|m matches] eqn:E.
  - destruct (fallback_scan_ok set_order ms resume_texts)
      as (suggestions & -> & Hiff).
    cbn [bind]. eexists. split; [reflexivity|]. split; [congruence|].
    intros _. exists suggestions. split; [reflexivity|exact Hiff].
  - rewrite show_matches_ok by assumption. cbn [bind].
    eexists. split; [reflexivity|]. split; [|discriminate].
    intros _. split; [reflexivity|].
    intros st [<-|Hin]; [reflexivity|].
    apply in_map_iff in Hin. now destruct Hin as (x & <- & _).
Qed.

(** ** Skill aggregation *)

Lemma rating_of_given r skl : rating_of r skl = rating_given r skl.
Proof.
  unfold rating_of, rating_given, get_default, or_default.
  now destruct (skill_ratings r).
Qed.

Lemma record_all_app pairs1 pairs2 m :
  record_all (pairs1 ++ pairs2) m = record_all pairs2 (record_all pairs1 m).
Proof. apply fold_left_app. Qed.

Lemma record_all_map r (skls : list string) m :
  fold_left (fun skill_map skl => record_rating skl (rating_of r skl) skill_map)
    skls m
  = record_all (map (fun skl => (skl, rating_of r skl)) skls) m.
Proof.
  revert m. induction skls as [|skl skls IH]; intros m; simpl; auto.
Qed.

Lemma aggregate_from resp_list m :
  fold_left
    (fun skill_map r =>
       fold_left
         (fun skill_map skl => record_rating skl (rating_of r skl) skill_map)
         (or_default (skills_selected r) []) skill_map)
    resp_list m
  = record_all (pairs_of resp_list) m.
Proof.
  revert m. induction resp_list as [|r resp_list IH]; intros m; simpl; auto.
  rewrite IH, record_all_map. unfold pairs_of at 2. simpl.
  fold (pairs_of resp_list). now rewrite record_all_app.
Qed.

Lemma aggregate_pairs resp_list :
  aggregate resp_list = record_all (pairs_of resp_list) [].
Proof. apply aggregate_from. Qed.

Lemma get_record_rating_eq skl rating m :
  get skl (record_rating skl rating m) = Some (get_default skl [] m ++ [rating]).
Proof. apply get_set_eq. Qed.

Lemma get_record_rating_neq skl k rating m :
  k <> skl -> get k (record_rating skl rating m) = get k m.
Proof. intros H. now apply get_set_neq. Qed.

Lemma get_record_all pairs skl m :
  get skl (record_all pairs m)
  = match get skl m with
    | Some ratings => Some (ratings ++ recorded_in pairs skl)
    | None =>
        match recorded_in pairs skl with
        | [] => None
        | ratings => Some ratings
        end
    end.
Proof.
  revert m. induction pairs as [|[k rating] pairs IH]; intros m.
  - simpl. destruct (get skl m); [now rewrite app_nil_r|reflexivity].
  - cbn [record_all fold_left fst snd]. fold (record_all pairs).
    rewrite IH. unfold recorded_in. cbn [filter fst].
    destruct (String.eqb_spec k skl) as [->|Hne].
    + rewrite get_record_rating_eq. unfold get_default. cbn [map snd].
      destruct (get skl m) as [ratings|].
      * now rewrite <- app_assoc.
      * reflexivity.
    + now rewrite get_record_rating_neq by congruence.
Qed.

Lemma recorded_in_app pairs1 pairs2 skl :
  recorded_in (pairs1 ++ pairs2) skl
  = recorded_in pairs1 skl ++ recorded_in pairs2 skl.
Proof. unfold recorded_in. now rewrite filter_app, map_app. Qed.

Lemma recorded_in_response r (skls : list string) skl :
  recorded_in (map (fun s => (s, rating_of r s)) skls) skl
  = flat_map (fun s => if (s =? skl)%string then [rating_given r skl] else [])
      skls.
Proof.
  unfold recorded_in. induction skls as [|s skls IH]; simpl; [reflexivity|].
  destruct (String.eqb_spec s skl) as [->|Hne]; simpl; rewrite IH;
    [now rewrite rating_of_given|reflexivity].
Qed.

Lemma recorded_in_pairs_of resp_list skl :
  recorded_in (pairs_of resp_list) skl = ratings_recorded resp_list skl.
Proof.
  induction resp_list as [|r resp_list IH]; [reflexivity|].
  unfold pairs_of, ratings_recorded. cbn [flat_map].
  fold (pairs_of resp_list). fold (ratings_recorded resp_list skl).
  now rewrite recorded_in_app, recorded_in_response, IH.
Qed.

Lemma get_aggregate resp_list skl :
  get skl (aggregate resp_list)
  = match ratings_recorded resp_list skl with
    | [] => None
    | ratings => Some ratings
    end.
Proof.
  rewrite aggregate_pairs, get_record_all. simpl.
  now rewrite recorded_in_pairs_of.
Qed.

Lemma ratings_of_selected_nil (skls : list string) r skl :
  flat_map (fun s => if (s =? skl)%string then [rating_given r skl] else []) skls
  = [] <-> ~ In skl skls.
Proof.
  induction skls as [|s skls IH]; simpl; [tauto|].
  destruct (String.eqb_spec s skl) as [->|Hne]; simpl.
  - split; [discriminate|]. intros H. exfalso. auto.
  - rewrite IH. tauto.
Qed.

Lemma ratings_recorded_nil resp_list skl :
  ratings_recorded resp_list skl = [] <-> ~ selected_by_some resp_list skl.
Proof.
  unfold selected_by_some.
  induction resp_list as [|r resp_list IH]; cbn [ratings_recorded flat_map].
  - split; [|reflexivity]. intros _ (r & [] & _).
  - fold (ratings_recorded resp_list skl).
    split.
    + intros H. apply app_eq_nil in H. destruct H as [H1 H2].
      apply ratings_of_selected_nil in H1. apply IH in H2.
      intros (r' & [<-|Hin] & Hsel); [auto|]. apply H2. eauto.
    + intros H.
      assert (H1 : ~ In skl (selected r)).
      { intros Hin. apply H. exists r. split; [now left|assumption]. }
      assert (H2 : ~ (exists r', In r' resp_list /\ In skl (selected r'))).
      { intros (r' & Hin & Hsel). apply H. exists r'. split; [now right|assumption]. }
      apply (ratings_of_selected_nil _ r) in H1. apply IH in H2.
      now rewrite H1, H2.
Qed.

Lemma ratings_recorded_In resp_list skl rating :
  In rating (ratings_recorded resp_list skl) -> selected_by_some resp_list skl.
Proof.
  unfold ratings_recorded. rewrite in_flat_map. intros (r & Hr & Hin).
  apply in_flat_map in Hin. destruct Hin as (s & Hs & Hin).
  destruct (String.eqb_spec s skl) as [->|Hne]; [|destruct Hin].
  now exists r.
Qed.

Lemma NoDup_keys_record_rating skl rating m :
  NoDup (keys m) -> NoDup (keys (record_rating skl rating m)).
Proof.
  intros H. unfold record_rating. rewrite keys_set.
  destruct (mem skl m) eqn:E; [assumption|].
  apply NoDup_rev in H. rewrite <- (rev_involutive (keys m ++ [skl])).
  apply NoDup_rev. rewrite rev_app_distr. simpl. constructor; [|assumption].
  rewrite <- in_rev. intros Hin. apply mem_keys in Hin. congruence.
Qed.

Lemma NoDup_keys_record_all pairs m :
  NoDup (keys m) -> NoDup (keys (record_all pairs m)).
Proof.
  revert m. induction pairs as [|p pairs IH]; intros m H; simpl; [assumption|].
  apply IH. now apply NoDup_keys_record_rating.
Qed.

Lemma NoDup_keys_aggregate resp_list : NoDup (keys (aggregate resp_list)).
Proof. rewrite aggregate_pairs. apply NoDup_keys_record_all. constructor. Qed.

Lemma In_get_NoDup {V : Type} (k : string) (v : V) (d : dict V) :
  NoDup (keys d) -> In (k, v) d -> get k d = Some v.
Proof.
  induction d as [|[k' v'] d IH]; simpl; [tauto|].
  intros Hnd [[= -> ->]|Hin].
  - now rewrite String.eqb_refl.
  - inversion Hnd as [|? ? Hnotin Hnd']; subst.
    destruct (String.eqb_spec k' k) as [->|Hne]; [|auto].
    exfalso. apply Hnotin. apply mem_keys. now apply In_mem with v.
Qed.

Lemma keys_aggregate_iff resp_list skl :
  In skl (keys (aggregate resp_list)) <-> selected_by_some resp_list skl.
Proof.
  rewrite <- mem_keys. unfold mem. rewrite get_aggregate.
  pose proof (ratings_recorded_nil resp_list skl) as Hnil.
  destruct (ratings_recorded resp_list skl) as [|x l] eqn:E.
  - split; [discriminate|]. intros H. exfalso. now apply Hnil.
  - split; [|reflexivity]. intros _.
    apply ratings_recorded_In with x. rewrite E. now left.
Qed.

Lemma keys_aggregation_rows skill_map :
  map Skill (aggregation_rows skill_map) = keys skill_map.
Proof.
  unfold aggregation_rows, keys. rewrite map_map.
  apply map_ext. now intros [skl ratings].
Qed.

Lemma aggregation_rows_iff resp_list rw :
  In rw (aggregation_rows (aggregate resp_list)) <->
  selected_by_some resp_list (Skill rw) /\
  rw = row_of (Skill rw, ratings_recorded resp_list (Skill rw)).
Proof.
  unfold aggregation_rows. rewrite in_map_iff. split.
  - intros ([skl ratings] & <- & Hin).
    apply In_get_NoDup in Hin; [|apply NoDup_keys_aggregate].
    cbn [row_of Skill]. split.
    + apply keys_aggregate_iff, mem_keys, mem_true_iff. eauto.
    + rewrite get_aggregate in Hin.
      destruct (ratings_recorded resp_list skl); congruence.
  - intros [Hsel Hrw].
    exists (Skill rw, ratings_recorded resp_list (Skill rw)).
    split; [now symmetry|]. apply get_In. rewrite get_aggregate.
    destruct (ratings_recorded resp_list (Skill rw)) eqn:E; [|reflexivity].
    exfalso. now apply (ratings_recorded_nil resp_list (Skill rw)).
Qed.

(** C3: in the aggregation, the ratings kept under a skill are, in
    order, one rating for each time a response lists the skill among its
    selected skills: the entry of that response's rating map, or "Low"
    when the map has no entry for it (looking the rating up cannot
    fail).  A skill has an entry exactly when some response selected it,
    and the table has one row per such skill, holding the numbers of
    "High", "Medium" and "Low" among its ratings and their total
    number. *)
Theorem aggregate_records_ratings :
  forall resp_list : list response,
    (forall r skl, rating_of r skl = rating_given r skl) /\
    (forall skl,
        get skl (aggregate resp_list)
        = match ratings_recorded resp_list skl with
          | [] => None
          | ratings => Some ratings
          end) /\
    (forall r skl,
        In r resp_list -> In skl (selected r) ->
        exists ratings,
          get skl (aggregate resp_list) = Some ratings /\
          In (rating_given r skl) ratings) /\
    (forall skl,
        In skl (keys (aggregate resp_list)) <-> selected_by_some resp_list skl) /\
    NoDup (map Skill (aggregation_rows (aggregate resp_list))) /\
    (forall rw,
        In rw (aggregation_rows (aggregate resp_list)) <->
        selected_by_some resp_list (Skill rw) /\
        rw = {| Skill := Skill rw;
                High := count "High" (ratings_recorded resp_list (Skill rw));
                Medium := count "Medium" (ratings_recorded resp_list (Skill rw));
                Low := count "Low" (ratings_recorded resp_list (Skill rw));
                Total := length (ratings_recorded resp_list (Skill rw)) |}).
Proof.
  intros resp_list.
  split; [apply rating_of_given|].
  split; [apply get_aggregate|].
  split.
  { intros r skl Hr Hskl. rewrite get_aggregate.
    assert (Hin : In (rating_given r skl) (ratings_recorded resp_list skl)).
    { unfold ratings_recorded. apply in_flat_map. exists r. split; [assumption|].
      apply in_flat_map. exists skl. split; [assumption|].
      rewrite String.eqb_refl. now left. }
    destruct (ratings_recorded resp_list skl) as [|x l]; [destruct Hin|].
    eauto. }
  split; [apply keys_aggregate_iff|].
  split; [rewrite keys_aggregation_rows; apply NoDup_keys_aggregate|].
  apply aggregation_rows_iff.
Qed.

(** The two examples of the specification: one response that selects
    SQL rated "High", and one that selects a skill it has no rating
    for. *)
Example aggregate_one_rated_response :
  aggregation_rows
    (aggregate [mkResponse "a@b.c" "A" (Some ["SQL"]) (Some [("SQL", "High")])
                  [] "" "2024-01-01T00:00:00"])
  = [mkRow "SQL" 1 0 0 1].
Proof. reflexivity. Qed.

Example aggregate_unrated_skill_counts_low :
  aggregation_rows
    (aggregate [mkResponse "a@b.c" "A" (Some ["X"]) (Some [])
                  [] "" "2024-01-01T00:00:00"])
  = [mkRow "X" 0 0 1 1].
Proof. reflexivity. Qed.

(** ** Counting *)

Lemma length_ratings_of_selected (skls : list string) r skl :
  length (flat_map (fun s => if (s =? skl)%string then [rating_given r skl] else [])
            skls)
  = count_occ string_dec skls skl.
Proof.
  induction skls as [|s skls IH]; simpl; [reflexivity|].
  destruct (String.eqb_spec s skl) as [->|Hne]; destruct (string_dec _ _);
    simpl; congruence.
Qed.

Lemma length_ratings_recorded resp_list skl :
  length (ratings_recorded resp_list skl) = occurrences resp_list skl.
Proof.
  unfold ratings_recorded, occurrences.
  induction resp_list as [|r resp_list IH]; simpl; [reflexivity|].
  now rewrite length_app, length_ratings_of_selected, IH.
Qed.

Lemma count_occ_selects (skls : list string) skl :
  (if existsb (String.eqb skl) skls then 1 else 0) <= count_occ string_dec skls skl
  /\ (NoDup skls ->
      count_occ string_dec skls skl = if existsb (String.eqb skl) skls then 1 else 0).
Proof.
  induction skls as [|s skls [IHle IHeq]]; simpl; [auto|].
  destruct (string_dec s skl) as [->|Hne].
  - rewrite String.eqb_refl. simpl. split; [lia|].
    intros Hnd. inversion Hnd as [|? ? Hnotin Hnd']; subst.
    rewrite (IHeq Hnd').
    destruct (existsb (String.eqb skl) skls) eqn:E; [|reflexivity].
    exfalso. apply Hnotin. apply existsb_exists in E.
    destruct E as (x & Hx & Heq). apply String.eqb_eq in Heq. now subst.
  - assert (E : (skl =? s)%string = false) by (apply String.eqb_neq; congruence).
    rewrite E. simpl. split; [assumption|].
    intros Hnd. inversion Hnd; subst. auto.
Qed.

Lemma respondents_le_occurrences resp_list skl :
  respondents resp_list skl <= occurrences resp_list skl.
Proof.
  unfold respondents, occurrences, selects.
  induction resp_list as [|r resp_list IH]; simpl; [lia|].
  pose proof (proj1 (count_occ_selects (selected r) skl)) as H.
  destruct (existsb (String.eqb skl) (selected r)); simpl; lia.
Qed.

Lemma respondents_eq_occurrences resp_list skl :
  (forall r, In r resp_list -> NoDup (selected r)) ->
  occurrences resp_list skl = respondents resp_list skl.
Proof.
  unfold respondents, occurrences, selects.
  induction resp_list as [|r resp_list IH]; intros Hnd; simpl; [reflexivity|].
  rewrite IH by (intros; apply Hnd; now right).
  rewrite (proj2 (count_occ_selects (selected r) skl)) by (apply Hnd; now left).
  now destruct (existsb (String.eqb skl) (selected r)).
Qed.

(** One rating more: which of the three counters it moves, if any. *)
Ltac count_step IHeq :=
  simpl; split; [lia|]; split;
  [ intros Hsum; constructor;
    [unfold known_rating; tauto | apply IHeq; simpl in Hsum; lia]
  | intros Hall; inversion Hall as [|? ? Hx Hl]; subst;
    apply IHeq in Hl; simpl; lia ].

Lemma counts_le_length ratings :
  count "High" ratings + count "Medium" ratings + count "Low" ratings
  <= length ratings
  /\ (count "High" ratings + count "Medium" ratings + count "Low" ratings
      = length ratings <-> Forall known_rating ratings).
Proof.
  unfold count. induction ratings as [|x ratings [IHle IHeq]].
  - simpl. split; [lia|]. split; auto.
  - cbn [count_occ length].
    destruct (string_dec x "High") as [->|H1]; [count_step IHeq|].
    destruct (string_dec x "Medium") as [->|H2]; [count_step IHeq|].
    destruct (string_dec x "Low") as [->|H3]; [count_step IHeq|].
    split; [lia|]. split.
    + intros Hsum. lia.
    + intros Hall. inversion Hall as [|? ? Hx Hl]; subst.
      destruct Hx as [-> | [-> | ->]]; congruence.
Qed.

(** C10, as stated, fails for a response that lists a skill twice: both
    ratings are recorded, so Total is 2 although one response contains
    the skill. *)
Lemma aggregation_total_counts_repeated_selection :
  aggregation_rows
    (aggregate [mkResponse "a@b.c" "A" (Some ["SQL"; "SQL"])
                  (Some [("SQL", "High")]) [] "" "2024-01-01T00:00:00"])
  = [mkRow "SQL" 2 0 0 2] /\
  respondents [mkResponse "a@b.c" "A" (Some ["SQL"; "SQL"])
                 (Some [("SQL", "High")]) [] "" "2024-01-01T00:00:00"] "SQL"
  = 1 /\
  ~ (forall rw,
        In rw (aggregation_rows
                 (aggregate [mkResponse "a@b.c" "A" (Some ["SQL"; "SQL"])
                               (Some [("SQL", "High")]) [] ""
                               "2024-01-01T00:00:00"])) ->
        Total rw
        = respondents [mkResponse "a@b.c" "A" (Some ["SQL"; "SQL"])
                         (Some [("SQL", "High")]) [] ""
                         "2024-01-01T00:00:00"] (Skill rw)).
Proof.
  split; [reflexivity|]. split; [reflexivity|].
  intros H. specialize (H (mkRow "SQL" 2 0 0 2) (or_introl eq_refl)).
  discriminate H.
Qed.

(** C10 (amended): for every row of the aggregation, Total is the number
    of times the skill is listed among the selected skills over all
    responses; that is at least the number of responses that list it,
    and equal to it when no response lists a skill twice.  High + Medium
    + Low is at most Total, with equality exactly when every rating
    recorded for the skill is one of "High", "Medium", "Low": any other
    rating counts in Total only. *)
Theorem aggregation_counts :
  forall (resp_list : list response) (rw : row),
    In rw (aggregation_rows (aggregate resp_list)) ->
    Total rw = occurrences resp_list (Skill rw) /\
    respondents resp_list (Skill rw) <= Total rw /\
    ((forall r, In r resp_list -> NoDup (selected r)) ->
     Total rw = respondents resp_list (Skill rw)) /\
    High rw + Medium rw + Low rw <= Total rw /\
    (High rw + Medium rw + Low rw = Total rw <->
     Forall known_rating (ratings_recorded resp_list (Skill rw))).
Proof.
  intros resp_list rw Hin.
  apply aggregation_rows_iff in Hin. destruct Hin as [_ Hrw].
  set (skl := Skill rw) in *. set (ratings := ratings_recorded resp_list skl) in *.
  assert (Htotal : Total rw = occurrences resp_list skl).
  { rewrite Hrw. cbn [row_of Total]. apply length_ratings_recorded. }
  split; [assumption|].
  split; [rewrite Htotal; apply respondents_le_occurrences|].
  split; [intros Hnd; rewrite Htotal; now apply respondents_eq_occurrences|].
  rewrite Hrw. cbn [row_of High Medium Low Total].
  apply counts_le_length.
Qed.

Lemma aggregation_counts_witness :
  Total (mkRow "SQL" 1 0 1 4)
  = occurrences
      [mkResponse "a@b.c" "A" (Some ["SQL"; "ETL"])
         (Some [("SQL", "High"); ("ETL", "Low")]) [] "" "2024-01-01T00:00:00";
       mkResponse "d@e.f" "D" (Some ["SQL"; "SQL"])
         (Some [("SQL", "Expert")]) [] "" "2024-01-02T00:00:00";
       mkResponse "g@h.i" "G" (Some ["SQL"]) None [] "" "2024-01-03T00:00:00"]
      "SQL".
Proof.
  apply (aggregation_counts
           [mkResponse "a@b.c" "A" (Some ["SQL"; "ETL"])
              (Some [("SQL", "High"); ("ETL", "Low")]) [] "" "2024-01-01T00:00:00";
            mkResponse "d@e.f" "D" (Some ["SQL"; "SQL"])
              (Some [("SQL", "Expert")]) [] "" "2024-01-02T00:00:00";
            mkResponse "g@h.i" "G" (Some ["SQL"]) None [] "" "2024-01-03T00:00:00"]
           (mkRow "SQL" 1 0 1 4)).
  simpl. auto.
Defined.

(** ** Sets and the gap analysis *)

Lemma set_mem_iff x s : PySet.mem x s = true <-> In x s.
Proof.
  unfold PySet.mem. rewrite existsb_exists. split.
  - intros (y & Hy & Heq). apply String.eqb_eq in Heq. now subst.
  - intros Hin. exists x. split; [assumption|apply String.eqb_refl].
Qed.

Lemma set_add_In x y s : In y (PySet.add x s) <-> y = x \/ In y s.
Proof.
  unfold PySet.add. destruct (PySet.mem x s) eqn:E.
  - apply set_mem_iff in E. split; [auto|]. intros [->|H]; assumption.
  - rewrite in_app_iff. simpl. intuition.
Qed.

Lemma set_add_NoDup x s : NoDup s -> NoDup (PySet.add x s).
Proof.
  intros H. unfold PySet.add. destruct (PySet.mem x s) eqn:E; [assumption|].
  assert (Hx : ~ In x s) by (rewrite <- set_mem_iff; congruence).
  clear E. induction H as [|y s Hy Hs IH]; simpl.
  - constructor; [intros []|constructor].
  - constructor.
    + rewrite in_app_iff. simpl in *. intuition.
    + apply IH. simpl in Hx. tauto.
Qed.

Lemma set_of_list_from l s x :
  In x (fold_left (fun s x => PySet.add x s) l s) <-> In x s \/ In x l.
Proof.
  revert s. induction l as [|y l IH]; intros s; simpl; [tauto|].
  rewrite IH, set_add_In. intuition.
Qed.

Lemma set_of_list_In l x : In x (PySet.of_list l) <-> In x l.
Proof. unfold PySet.of_list. rewrite set_of_list_from. simpl. tauto. Qed.

Lemma set_of_list_NoDup l : NoDup (PySet.of_list l).
Proof.
  unfold PySet.of_list.
  assert (H : forall s, NoDup s -> NoDup (fold_left (fun s x => PySet.add x s) l s)).
  { induction l as [|y l IH]; intros s Hs; simpl; [assumption|].
    apply IH. now apply set_add_NoDup. }
  apply H. constructor.
Qed.

Lemma set_diff_In a b x : In x (PySet.diff a b) <-> In x a /\ ~ In x b.
Proof.
  unfold PySet.diff. rewrite filter_In, negb_true_iff. split.
  - intros [Ha Hb]. split; [assumption|].
    intros Hin. apply set_mem_iff in Hin. congruence.
  - intros [Ha Hb]. split; [assumption|].
    destruct (PySet.mem x b) eqn:E; [|reflexivity].
    apply set_mem_iff in E. contradiction.
Qed.

Lemma set_diff_NoDup a b : NoDup a -> NoDup (PySet.diff a b).
Proof. apply NoDup_filter. Qed.

(** C4, as stated, fails on its second half: the list shown is
    [list(missing)], in the iteration order of the set, and is not
    sorted.  For a survey with skills SQL and ETL and no response, two
    iteration orders give two different lists. *)
Lemma missing_listed_depends_on_set_order :
  iteration_order (fun s => s) /\
  iteration_order (@rev string) /\
  missing_listed (fun s => s)
    (missing_skills (mkSurvey "ab12cd34" "Data Migration" (Some ["SQL"; "ETL"]) None)
       (aggregate []))
  = Some ["sql"; "etl"] /\
  missing_listed (@rev string)
    (missing_skills (mkSurvey "ab12cd34" "Data Migration" (Some ["SQL"; "ETL"]) None)
       (aggregate []))
  = Some ["etl"; "sql"].
Proof.
  split; [intros s; apply Permutation_refl|].
  split; [intros s; apply Permutation_sym, Permutation_rev|].
  split; reflexivity.
Qed.

(** C4 (amended): the set of missing skills is the set difference of the
    lower-cased survey skills and the lower-cased skill names of the
    aggregation.  The list shown holds exactly the elements of that set,
    each once, in the order in which Python iterates the set (nothing is
    shown as a list when the set is empty); that order is not sorted and
    is not fixed by the survey and the responses. *)
Theorem missing_skills_set_difference :
  forall set_order : list string -> list string,
    iteration_order set_order ->
    forall (sv : survey) (resp_list : list response),
      (forall x,
          In x (missing_skills sv (aggregate resp_list)) <->
          In x (map PyStr.lower (or_default (skills sv) [])) /\
          ~ In x (map PyStr.lower (keys (aggregate resp_list)))) /\
      NoDup (missing_skills sv (aggregate resp_list)) /\
      match missing_listed set_order (missing_skills sv (aggregate resp_list)) with
      | None => missing_skills sv (aggregate resp_list) = []
      | Some listed =>
          NoDup listed /\
          forall x,
            In x listed <->
            In x (map PyStr.lower (or_default (skills sv) [])) /\
            ~ In x (map PyStr.lower (keys (aggregate resp_list)))
      end.
Proof.
  intros set_order Horder sv resp_list.
  assert (Hset : forall x,
             In x (missing_skills sv (aggregate resp_list)) <->
             In x (map PyStr.lower (or_default (skills sv) [])) /\
             ~ In x (map PyStr.lower (keys (aggregate resp_list)))).
  { intros x. unfold missing_skills. now rewrite set_diff_In, !set_of_list_In. }
  assert (Hnd : NoDup (missing_skills sv (aggregate resp_list))).
  { unfold missing_skills. apply set_diff_NoDup, set_of_list_NoDup. }
  split; [exact Hset|]. split; [exact Hnd|].
  unfold missing_listed.
  destruct (missing_skills sv (aggregate resp_list)) as [|x0 missing] eqn:E;
    [reflexivity|].
  split.
  - apply (Permutation_NoDup (l := x0 :: missing)); [|assumption].
    apply Permutation_sym, Horder.
  - intros x. rewrite <- Hset. split; apply Permutation_in;
      [apply Horder|apply Permutation_sym, Horder].
Qed.

Lemma missing_skills_set_difference_witness :
  In "etl"
    (missing_skills (mkSurvey "ab12cd34" "Data Migration" (Some ["SQL"; "ETL"]) None)
       (aggregate [mkResponse "a@b.c" "A" (Some ["SQL"]) (Some [("SQL", "High")])
                     [] "" "2024-01-01T00:00:00"])) <->
  In "etl" ["sql"; "etl"] /\ ~ In "etl" ["sql"].
Proof.
  apply (proj1 (missing_skills_set_difference (fun s => s)
                  (fun s => Permutation_refl s)
                  (mkSurvey "ab12cd34" "Data Migration" (Some ["SQL"; "ETL"]) None)
                  [mkResponse "a@b.c" "A" (Some ["SQL"]) (Some [("SQL", "High")])
                     [] "" "2024-01-01T00:00:00"])).
Defined.

(** The gap analysis example of the specification. *)
Example missing_skills_example :
  missing_skills (mkSurvey "ab12cd34" "Data Migration" (Some ["SQL"; "ETL"]) None)
    (aggregate [mkResponse "a@b.c" "A" (Some ["SQL"]) (Some [("SQL", "High")])
                  [] "" "2024-01-01T00:00:00"])
  = ["etl"].
Proof. reflexivity. Qed.

(** ** Stripping

    [s.strip()] removes a run of white space at each end and nothing
    else: what is left neither starts nor ends with white space. *)

Lemma lstrip_by_spec p s :
  exists lead,
    s = (lead ++ PyStr.lstrip_by p s)%string /\
    all_chars p lead = true /\
    kept p (first_char (PyStr.lstrip_by p s)).
Proof.
  induction s as [|c s (lead & Hs & Hlead & Hfirst)]; simpl.
  - now exists EmptyString.
  - destruct (p c) eqn:E.
    + exists (String c lead). simpl. rewrite E. repeat split; auto. congruence.
    + exists EmptyString. simpl. auto.
Qed.

Lemma rstrip_by_spec p s :
  exists trail,
    s = (PyStr.rstrip_by p s ++ trail)%string /\
    all_chars p trail = true /\
    kept p (last_char (PyStr.rstrip_by p s)) /\
    (kept p (first_char s) -> first_char (PyStr.rstrip_by p s) = first_char s).
Proof.
  induction s as [|c s (trail & Hs & Htrail & Hlast & Hfirst)]; simpl.
  - now exists EmptyString.
  - destruct (p c) eqn:E; simpl.
    + destruct (PyStr.rstrip_by p s) as [|d r] eqn:Er; simpl.
      * exists (String c trail). simpl in *. rewrite E. repeat split; auto.
        -- congruence.
        -- congruence.
      * exists trail. simpl in *. repeat split; auto. congruence.
    + exists trail. repeat split; auto; [congruence|].
      destruct (PyStr.rstrip_by p s) as [|d r]; simpl in *; auto.
Qed.

Lemma strip_by_spec p s :
  exists lead trail,
    s = (lead ++ PyStr.strip_by p s ++ trail)%string /\
    all_chars p lead = true /\
    all_chars p trail = true /\
    kept p (first_char (PyStr.strip_by p s)) /\
    kept p (last_char (PyStr.strip_by p s)).
Proof.
  unfold PyStr.strip_by.
  destruct (lstrip_by_spec p s) as (lead & Hs & Hlead & Hfirst).
  destruct (rstrip_by_spec p (PyStr.lstrip_by p s))
    as (trail & Hr & Htrail & Hlast & Hkeep).
  exists lead, trail. repeat split; auto.
  - now rewrite <- Hr.
  - rewrite (Hkeep Hfirst). exact Hfirst.
Qed.

(** ** The dashboard as a whole: it never raises *)

Lemma resume_matching_for_ok set_order resume_texts ms :
  exists steps, resume_matching_for set_order resume_texts ms = Ok steps.
Proof.
  unfold resume_matching_for.
  pose proof (match_resumes_for_skill_keys ms resume_texts) as Hkeys.
  destruct (match_resumes_for_skill ms resume_texts) as [|m matches].
  - destruct (fallback_scan_ok set_order ms resume_texts) as (sugg & -> & _).
    cbn [bind]. eauto.
  - rewrite show_matches_ok by assumption. cbn [bind]. eauto.
Qed.

Lemma resume_matching_ok set_order resume_texts missing :
  exists steps, resume_matching set_order resume_texts missing = Ok steps.
Proof.
  induction missing as [|ms missing (rest & IH)]; simpl; [eauto|].
  destruct (resume_matching_for_ok set_order resume_texts ms) as (here & ->).
  rewrite IH. cbn [bind]. eauto.
Qed.

(** X17: The analysis shows the table when some skill was selected, then the
    missing skills, then the resume matching of each missing skill. *)
Lemma dashboard_analysis_steps set_order sv resp_list w :
  exists matching,
    dashboard_analysis set_order sv resp_list w
    = Ok ((match aggregate resp_list with
           | [] => []
           | _ :: _ => [Show_table (aggregation_rows (aggregate resp_list))]
           end)
          ++ Show_missing
               (missing_listed set_order
                  (missing_skills sv (aggregate resp_list)))
          :: matching) /\
    (missing_skills sv (aggregate resp_list) = [] -> matching = []).
Proof.
  unfold dashboard_analysis.
  destruct (missing_skills sv (aggregate resp_list)) as [|ms missing].
  - exists []. split; reflexivity.
  - destruct (resume_matching_ok set_order (load_resumes_texts w)
                (set_order (ms :: missing))) as (steps & ->).
    cbn [bind]. exists steps. split; [reflexivity|discriminate].
Qed.

(** * Further properties *)

(** ** [ensure_data_structure] and the store *)

(** X1: [ensure_data_structure] writes at most once, and only a document
    that was a JSON object to begin with; whatever it returns is what
    [data.json] holds afterwards; and when it raises, which it does with
    [TypeError] only, the store is as it was. *)
Theorem ensure_data_structure_store :
  forall w : world,
    match fst (ensure_data_structure w) with
    | Ok d =>
        load_datafile (snd (ensure_data_structure w)) = d /\
        (snd (ensure_data_structure w) = w \/
         snd (ensure_data_structure w) = save_datafile d w /\
         exists m, load_datafile w = JDict m)
    | Raise e =>
        e = TypeError /\ snd (ensure_data_structure w) = w /\
        forall m, load_datafile w <> JDict m
    end.
Proof.
  intros w.
  destruct (load_datafile w) as [| b | z | s | l | m] eqn:Hload.
  6: { rewrite (ensure_data_structure_dict w m Hload). simpl.
       destruct (complete m) eqn:E.
       - split; [|now left]. rewrite Hload. f_equal.
         symmetry. now apply completed_of_complete.
       - split; [reflexivity|]. right. split; [reflexivity|eauto]. }
  all: unfold ensure_data_structure; rewrite Hload; cbv zeta;
    unfold ensure_key; simpl;
    repeat match goal with
      | |- context [negb ?b] => destruct b; simpl
      end;
    try (split; [reflexivity|split; [reflexivity|discriminate]]);
    try (split; [assumption|now left]).
Qed.

(** ** Survey identifiers *)

Lemma hex_split (a b : nat) (n : N) :
  Uuid.hex (a + b) n
  = (Uuid.hex a (n / 16 ^ N.of_nat b) ++ Uuid.hex b n)%string.
Proof.
  revert n. induction b as [|b IH]; intros n.
  - rewrite Nat.add_0_r. simpl. rewrite N.div_1_r.
    induction (Uuid.hex a n); simpl; congruence.
  - rewrite Nat.add_succ_r. cbn [Uuid.hex]. rewrite IH.
    rewrite Nat2N.inj_succ, N.pow_succ_r', N.Div0.div_div.
    generalize (Uuid.hex a (n / (16 * 16 ^ N.of_nat b))) as h.
    induction h; simpl; congruence.
Qed.

Lemma uuid4_high_bits (random : N) :
  (Uuid.uuid4 random / 2 ^ 96 = (random mod 2 ^ 128) / 2 ^ 96)%N.
Proof.
  unfold Uuid.uuid4. cbv zeta.
  set (i := (random mod 2 ^ 128)%N).
  rewrite <- !N.shiftr_div_pow2. apply N.bits_inj. intros n.
  rewrite !N.shiftr_spec', N.lor_spec, N.ldiff_spec, N.lor_spec, N.ldiff_spec.
  assert (Hhigh : forall c, (N.log2 c < 96)%N -> N.testbit c (n + 96) = false).
  { intros c Hc. apply N.bits_above_log2. lia. }
  rewrite (Hhigh (N.shiftl 4 76)), (Hhigh (N.shiftl 61440 64)),
    (Hhigh (N.shiftl 32768 48)), (Hhigh (N.shiftl 49152 48))
    by (vm_compute; reflexivity).
  simpl. now rewrite !orb_false_r, !andb_true_r.
Qed.

Lemma generate_survey_id_take random :
  generate_survey_id random
  = PyStr.take 8 (Uuid.hex 32 (Uuid.uuid4 random)).
Proof.
  unfold generate_survey_id, Uuid.str.
  set (h := Uuid.hex 32 (Uuid.uuid4 random)).
  rewrite take_append; [reflexivity|].
  apply (length_take 8). unfold h. rewrite length_hex. lia.
Qed.

Lemma all_chars_append p a b :
  all_chars p (a ++ b) = all_chars p a && all_chars p b.
Proof. induction a as [|c a IH]; simpl; [reflexivity|]. now rewrite IH, andb_assoc. Qed.

Lemma hex_digit_is_hex n : (n < 16)%N -> is_hex_digit (Uuid.hex_digit n) = true.
Proof.
  intros H.
  assert (Hn : In n [0; 1; 2; 3; 4; 5; 6; 7; 8; 9; 10; 11; 12; 13; 14; 15]%N).
  { simpl. lia. }
  simpl in Hn.
  repeat (destruct Hn as [<-|Hn]; [reflexivity|]). destruct Hn.
Qed.

Lemma hex_all_hex width n : all_chars is_hex_digit (Uuid.hex width n) = true.
Proof.
  revert n. induction width as [|width IH]; intros n; simpl; [reflexivity|].
  rewrite all_chars_append, IH. simpl.
  rewrite hex_digit_is_hex; [reflexivity|]. apply N.mod_lt. lia.
Qed.

(** X2: A survey identifier is the first four random bytes written as eight
    lower-case hexadecimal digits: the other twelve bytes play no part,
    so two draws that agree on their first four bytes give the same
    identifier. *)
Theorem generate_survey_id_first_four_bytes :
  forall random : N,
    generate_survey_id random
    = Uuid.hex 8 ((random mod 2 ^ 128) / 2 ^ 96) /\
    String.length (generate_survey_id random) = 8 /\
    all_chars is_hex_digit (generate_survey_id random) = true /\
    forall random' : N,
      ((random mod 2 ^ 128) / 2 ^ 96 = (random' mod 2 ^ 128) / 2 ^ 96)%N ->
      generate_survey_id random' = generate_survey_id random.
Proof.
  assert (Hid : forall random,
             generate_survey_id random
             = Uuid.hex 8 ((random mod 2 ^ 128) / 2 ^ 96)).
  { intros random. rewrite generate_survey_id_take.
    change 32 with (8 + 24). rewrite hex_split.
    rewrite take_append by apply length_hex.
    change (16 ^ N.of_nat 24)%N with (2 ^ 96)%N.
    now rewrite uuid4_high_bits. }
  intros random. split; [apply Hid|].
  split; [apply generate_survey_id_length|].
  split; [rewrite Hid; apply hex_all_hex|].
  intros random' H. now rewrite !Hid, H.
Qed.

(** ** Skill suggestions and the skills field *)

Lemma lower_char_idempotent c :
  PyStr.lower_char (PyStr.lower_char c) = PyStr.lower_char c.
Proof. destruct c as [[] [] [] [] [] [] [] []]; reflexivity. Qed.

Lemma lower_idempotent s : PyStr.lower (PyStr.lower s) = PyStr.lower s.
Proof.
  induction s as [|c s IH]; cbn [PyStr.lower]; [reflexivity|].
  now rewrite lower_char_idempotent, IH.
Qed.

Lemma suggest_scan_lower items process_name :
  suggest_scan items (PyStr.lower process_name) = suggest_scan items process_name.
Proof.
  induction items as [|[k v] items IH]; cbn [suggest_scan]; [reflexivity|].
  now rewrite lower_idempotent, IH.
Qed.

Lemma suggest_scan_In items process_name v :
  suggest_scan items process_name = Some v -> In v (map snd items).
Proof.
  induction items as [|[k0 v0] items IH]; cbn [suggest_scan]; [discriminate|].
  destruct (PyStr.contains _ _); [intros [= ->]; now left|].
  intros H. right. auto.
Qed.

Lemma suggest_skills_for_process_In process_name :
  In (suggest_skills_for_process process_name) (generic_skills :: map snd mapping).
Proof.
  unfold suggest_skills_for_process.
  destruct (suggest_scan mapping process_name) as [v|] eqn:E; [|now left].
  right. now apply suggest_scan_In with process_name.
Qed.

(** X3: The suggestion ignores the case of the process name, is never
    empty, and is always one of the ten lists of the function: a row of
    the table or the generic list. *)
Theorem suggest_skills_for_process_ignores_case :
  forall process_name : string,
    suggest_skills_for_process (PyStr.lower process_name)
    = suggest_skills_for_process process_name /\
    In (suggest_skills_for_process process_name)
      (generic_skills :: map snd mapping) /\
    suggest_skills_for_process process_name <> [].
Proof.
  intros process_name. split.
  - unfold suggest_skills_for_process. now rewrite suggest_scan_lower.
  - split; [apply suggest_skills_for_process_In|].
    pose proof (suggest_skills_for_process_In process_name) as H.
    simpl in H.
    repeat (destruct H as [<-|H]; [discriminate|]). destruct H.
Qed.

Lemma string_append_assoc (a b c : string) :
  ((a ++ b) ++ c = a ++ (b ++ c))%string.
Proof. induction a; simpl; congruence. Qed.

Lemma split_at_sep sep a b :
  PyStr.mem_char sep a = false ->
  PyStr.split sep (a ++ String sep b) = a :: PyStr.split sep b.
Proof.
  induction a as [|c a IH]; cbn [append PyStr.split PyStr.mem_char].
  - intros _. now rewrite Ascii.eqb_refl.
  - intros H. apply orb_false_iff in H. destruct H as [Hc Ha].
    rewrite Ascii.eqb_sym in Hc. rewrite Hc, (IH Ha). reflexivity.
Qed.

Lemma split_without_sep sep a :
  PyStr.mem_char sep a = false -> PyStr.split sep a = [a].
Proof.
  induction a as [|c a IH]; cbn [PyStr.split PyStr.mem_char]; [reflexivity|].
  intros H. apply orb_false_iff in H. destruct H as [Hc Ha].
  rewrite Ascii.eqb_sym in Hc. now rewrite Hc, (IH Ha).
Qed.

Lemma split_skills_field pre x l :
  PyStr.mem_char "," pre = false ->
  forallb plain_entry (x :: l) = true ->
  PyStr.split "," (pre ++ skills_field (x :: l))
  = (pre ++ x)%string :: map (String " ") l.
Proof.
  unfold skills_field, PyStr.join.
  revert pre x. induction l as [|y l IH]; intros pre x Hpre Hall.
  - cbn [String.concat map]. apply split_without_sep.
    rewrite mem_char_append, Hpre. simpl in Hall.
    unfold plain_entry in Hall. rewrite !andb_true_iff in Hall.
    destruct Hall as [[[_ Hx] _] _]. now apply negb_true_iff in Hx.
  - cbn [forallb] in Hall. apply andb_true_iff in Hall. destruct Hall as [Hx Hall].
    change (String.concat ", " (x :: y :: l))
      with (x ++ String "," (" " ++ String.concat ", " (y :: l)))%string.
    rewrite <- (string_append_assoc pre x). rewrite split_at_sep.
    + f_equal. now apply (IH " " y).
    + rewrite mem_char_append, Hpre.
      unfold plain_entry in Hx. rewrite !andb_true_iff in Hx.
      destruct Hx as [[_ Hx] _]. now apply negb_true_iff in Hx.
Qed.

Lemma stripped_nonempty_plain l :
  forallb plain_entry l = true ->
  stripped_nonempty (map (String " ") l) = l /\ stripped_nonempty l = l.
Proof.
  unfold stripped_nonempty.
  induction l as [|y l IH]; cbn [forallb map filter]; [auto|].
  intros H. apply andb_true_iff in H. destruct H as [Hy Hall].
  destruct (IH Hall) as [IH1 IH2].
  unfold plain_entry in Hy. rewrite !andb_true_iff in Hy.
  destruct Hy as [[Hne _] Hstrip]. apply String.eqb_eq in Hstrip.
  change (PyStr.strip (String " " y)) with (PyStr.strip y).
  rewrite Hstrip, Hne. cbn [map].
  change (PyStr.strip (String " " y)) with (PyStr.strip y).
  now rewrite Hstrip, IH1, IH2.
Qed.

Lemma read_skills_field l :
  forallb plain_entry l = true -> read_skills (skills_field l) = l.
Proof.
  intros Hall. unfold read_skills. destruct l as [|x l]; [reflexivity|].
  pose proof (split_skills_field EmptyString x l eq_refl Hall) as Hsplit.
  cbn [append] in Hsplit. rewrite Hsplit. clear Hsplit. cbn [forallb] in Hall. apply andb_true_iff in Hall.
  destruct Hall as [Hx Hall].
  destruct (stripped_nonempty_plain [x]) as [_ H1]; [simpl; now rewrite Hx|].
  destruct (stripped_nonempty_plain l Hall) as [H2 _].
  unfold stripped_nonempty in *. cbn [filter map] in *.
  destruct (negb (PyStr.is_empty (PyStr.strip x))); cbn [map] in *;
    [|discriminate].
  injection H1 as H1. now rewrite H1, H2.
Qed.

(** X4: A list of skills written into the skills field and read back comes
    out unchanged when no entry is empty, holds a comma, or starts or
    ends with white space; every suggestion is such a list, so an admin
    who does not edit the field gets exactly the suggested skills. *)
Theorem skills_field_round_trip :
  (forall l : list string,
      forallb plain_entry l = true -> read_skills (skills_field l) = l) /\
  (forall process_name : string,
      read_skills (skills_field (suggest_skills_for_process process_name))
      = suggest_skills_for_process process_name).
Proof.
  split; [apply read_skills_field|].
  intros process_name. apply read_skills_field.
  assert (Htable : forallb (forallb plain_entry)
                     (generic_skills :: map snd mapping) = true)
    by (vm_compute; reflexivity).
  rewrite forallb_forall in Htable. apply Htable.
  apply suggest_skills_for_process_In.
Qed.

Lemma skills_field_round_trip_witness :
  read_skills (skills_field ["ETL"; "Data Mapping"; "C++"])
  = ["ETL"; "Data Mapping"; "C++"].
Proof.
  apply (proj1 skills_field_round_trip ["ETL"; "Data Mapping"; "C++"]).
  vm_compute. reflexivity.
Defined.

(** ** The admin handlers: what they refuse and what they leave alone *)

(** X5: The form is refused, with an error message and without touching the
    store, exactly when no process is chosen or no skill is left after
    the skills field is read; what [data.json] holds plays no part. *)
Theorem create_and_save_survey_refuses :
  forall (form : create_form) (random : N) (w : world),
    ~ accepted form ->
    (exists text, create_and_save_survey form random w = (Ok (St_error text), w)).
Proof.
  intros form random w Hno. unfold create_and_save_survey.
  destruct (proc_choice form) as [[|c p]|] eqn:Hp; eauto.
  destruct (stripped_nonempty (PyStr.split "," (skills_input form)))
    as [|s0 skills0] eqn:Hs; eauto.
  exfalso. apply Hno. split.
  - exists (String c p). split; [assumption|discriminate].
  - rewrite Hs. discriminate.
Qed.

Lemma create_and_save_survey_refuses_witness :
  exists text,
    create_and_save_survey (mkForm (Some "Data Migration") None " , ,, " "Q?" [])
      7 (mkWorld Unparsable [] None)
    = (Ok (St_error text), mkWorld Unparsable [] None).
Proof.
  apply (create_and_save_survey_refuses
           (mkForm (Some "Data Migration") None " , ,, " "Q?" [])
           7 (mkWorld Unparsable [] None)).
  intros [_ H]. apply H. reflexivity.
Defined.

(** X6: The handler writes only when it reports success, and then once;
    when it shows an error or raises, the store is as it was.  Given a
    form that passes the checks, it raises [AttributeError] when
    [data.json] holds a JSON value that is not an object. *)
Theorem create_and_save_survey_writes_on_success_only :
  forall (form : create_form) (random : N) (w : world),
    match fst (create_and_save_survey form random w) with
    | Ok (St_success sid) =>
        sid = generate_survey_id random /\
        exists d, snd (create_and_save_survey form random w)
                  = save_datafile d w
    | Ok (St_error _) => snd (create_and_save_survey form random w) = w
    | Raise e => snd (create_and_save_survey form random w) = w
    end /\
    (accepted form ->
     (forall m, load_datafile w <> JDict m) ->
     create_and_save_survey form random w = (Raise AttributeError, w)).
Proof.
  intros form random w. unfold create_and_save_survey. split.
  - destruct (proc_choice form) as [[|c p]|]; try reflexivity.
    destruct (stripped_nonempty (PyStr.split "," (skills_input form)))
      as [|s0 skills0]; try reflexivity.
    cbv zeta.
    destruct (py_setdefault_setitem (load_datafile w) "surveys" _ _)
      as [data|e] eqn:E1; cbn [bind]; [|reflexivity].
    destruct (py_setdefault_setitem data "assignments" _ _) as [data'|e] eqn:E2;
      cbn [fst snd]; [split; eauto|reflexivity].
  - intros [(p & Hp & Hpne) Hskills] Hnot. rewrite Hp.
    destruct p as [|c p]; [congruence|].
    destruct (stripped_nonempty (PyStr.split "," (skills_input form)))
      as [|s0 skills0]; [congruence|].
    cbv zeta.
    destruct (load_datafile w) as [| | | | |m]; try reflexivity.
    exfalso. now apply (Hnot m).
Qed.

(** ** Deleting: missing key, absent id, twice *)

Lemma set_same {V : Type} (k : string) (v : V) (d : dict V) :
  get k d = Some v -> set k v d = d.
Proof.
  induction d as [|[k' v'] d IH]; simpl; [discriminate|].
  destruct (k' =? k)%string eqn:E.
  - now intros [= ->].
  - intros H. now rewrite IH.
Qed.

Lemma pop_absent {V : Type} (k : string) (d : dict V) :
  get k d = None -> pop k d = d.
Proof.
  induction d as [|[k' v'] d IH]; simpl; [reflexivity|].
  destruct (k' =? k)%string eqn:E; [discriminate|].
  intros H. now rewrite IH.
Qed.

Lemma pop_in_absent key sid m : entry key sid m = None -> pop_in key sid m = m.
Proof.
  unfold entry, pop_in.
  destruct (get key m) as [[| | | | |inner]|] eqn:E; auto.
  intros H. rewrite (pop_absent _ _ H). now apply set_same.
Qed.

(** X7: When the document has no [surveys] key the delete handler raises
    [KeyError] before it removes anything: assignments and responses
    recorded under the id stay, and nothing is written. *)
Theorem delete_survey_without_surveys_key :
  forall (sid : string) (w : world) (m : dict json),
    load_datafile w = JDict m ->
    get "surveys" m = None ->
    delete_survey sid w = (Raise KeyError, w).
Proof.
  intros sid w m Hload Hs. unfold delete_survey. rewrite Hload. cbv zeta.
  unfold py_getitem. now rewrite Hs.
Qed.

Lemma delete_survey_without_surveys_key_witness :
  delete_survey "ab12cd34"
    (mkWorld (Holds (JDict [("assignments",
                             JDict [("ab12cd34", JList [JStr "a@b.c"])])]))
       [] None)
  = (Raise KeyError,
     mkWorld (Holds (JDict [("assignments",
                             JDict [("ab12cd34", JList [JStr "a@b.c"])])]))
       [] None).
Proof.
  apply (delete_survey_without_surveys_key "ab12cd34" _
           [("assignments", JDict [("ab12cd34", JList [JStr "a@b.c"])])]);
    reflexivity.
Defined.

(** X8: Deleting a second time changes nothing: the second run writes the
    very document the first one wrote. *)
Theorem delete_survey_twice :
  forall (sid : string) (w : world) (m sv : dict json),
    load_datafile w = JDict m ->
    get "surveys" m = Some (JDict sv) ->
    map_or_absent "assignments" m ->
    map_or_absent "responses" m ->
    exists m' : dict json,
      delete_survey sid w = (Ok tt, save_datafile (JDict m') w) /\
      delete_survey sid (save_datafile (JDict m') w)
      = (Ok tt, save_datafile (JDict m') (save_datafile (JDict m') w)).
Proof.
  intros sid w m sv Hload Hsv Ha Hr.
  set (m' := pop_in "responses" sid
               (pop_in "assignments" sid (pop_in "surveys" sid m))).
  exists m'. split; [now apply (delete_survey_dict sid w m sv)|].
  assert (Hsv' : get "surveys" m' = Some (JDict (pop sid sv))).
  { unfold m'. rewrite 2 get_pop_in_other by discriminate.
    unfold pop_in. rewrite Hsv. apply get_set_eq. }
  rewrite (delete_survey_dict sid _ m' (pop sid sv)); auto.
  - do 2 f_equal. f_equal.
    assert (H1 : pop_in "surveys" sid m' = m').
    { apply pop_in_absent. unfold m'.
      rewrite 2 entry_pop_in_other by discriminate. apply entry_pop_in_eq. }
    assert (H2 : pop_in "assignments" sid m' = m').
    { apply pop_in_absent. unfold m'.
      rewrite entry_pop_in_other by discriminate. apply entry_pop_in_eq. }
    assert (H3 : pop_in "responses" sid m' = m').
    { apply pop_in_absent. apply entry_pop_in_eq. }
    now rewrite H1, H2, H3.
  - unfold m'. now do 3 apply map_or_absent_pop_in.
  - unfold m'. now do 3 apply map_or_absent_pop_in.
Qed.

Lemma delete_survey_twice_witness :
  exists m' : dict json,
    delete_survey "ab12cd34"
      (mkWorld (Holds (JDict [("surveys", JDict [("ab12cd34", JNull)])])) [] None)
    = (Ok tt,
       save_datafile (JDict m')
         (mkWorld (Holds (JDict [("surveys", JDict [("ab12cd34", JNull)])]))
            [] None)).
Proof.
  destruct (delete_survey_twice "ab12cd34"
              (mkWorld (Holds (JDict [("surveys", JDict [("ab12cd34", JNull)])]))
                 [] None)
              [("surveys", JDict [("ab12cd34", JNull)])]
              [("ab12cd34", JNull)]
              eq_refl eq_refl (or_introl eq_refl) (or_introl eq_refl))
    as (m' & H & _).
  now exists m'.
Defined.

Lemma entry_pop_in_keep key key0 sid sid' m :
  sid' <> sid -> entry key sid' (pop_in key0 sid m) = entry key sid' m.
Proof.
  intros Hne. destruct (String.eqb_spec key key0) as [->|Hk].
  - now apply entry_pop_in_neq.
  - now apply entry_pop_in_other.
Qed.

Lemma entry_put_in_keep key key0 sid sid' v m :
  sid' <> sid -> entry key sid' (put_in key0 sid v m) = entry key sid' m.
Proof.
  intros Hne. destruct (String.eqb_spec key key0) as [->|Hk].
  - now apply entry_put_in_neq.
  - now apply entry_put_in_other.
Qed.

(** X9: Creating a survey and deleting it again gives back every entry of
    the document: for each top-level map and each survey id, the entry
    is what it was before the survey was created (the id being new). *)
Theorem create_then_delete_restores_entries :
  forall (form : create_form) (random : N) (w : world) (m : dict json),
    accepted form ->
    load_datafile w = JDict m ->
    map_or_absent "surveys" m ->
    map_or_absent "assignments" m ->
    map_or_absent "responses" m ->
    (forall key, entry key (generate_survey_id random) m = None) ->
    exists m1 m2 : dict json,
      create_and_save_survey form random w
      = (Ok (St_success (generate_survey_id random)),
         save_datafile (JDict m1) w) /\
      delete_survey (generate_survey_id random) (save_datafile (JDict m1) w)
      = (Ok tt, save_datafile (JDict m2) (save_datafile (JDict m1) w)) /\
      forall key sid, entry key sid m2 = entry key sid m.
Proof.
  intros form random w m [(p & Hp & Hpne) Hskills] Hload Hs Ha Hr Hfresh.
  set (sid := generate_survey_id random) in *.
  set (survey := survey_record sid form
                   (stripped_nonempty (PyStr.split "," (skills_input form)))
                   (stripped_nonempty (PyStr.splitlines (questions_input form)))).
  set (emails := JList (map JStr (selected_emails form))).
  set (m1 := put_in "assignments" sid emails (put_in "surveys" sid survey m)).
  set (m2 := pop_in "responses" sid
               (pop_in "assignments" sid (pop_in "surveys" sid m1))).
  exists m1, m2.
  assert (Hsv1 : exists sv1, get "surveys" m1 = Some (JDict sv1)).
  { unfold m1. rewrite get_put_in_other by discriminate. unfold put_in.
    destruct Hs as [E|[inner E]]; rewrite E; rewrite get_set_eq; eauto. }
  assert (Ha1 : map_or_absent "assignments" m1).
  { right. unfold m1, put_in at 1.
    rewrite get_put_in_other by discriminate.
    destruct Ha as [E|[inner E]]; rewrite E; rewrite get_set_eq; eauto. }
  assert (Hr1 : map_or_absent "responses" m1).
  { unfold map_or_absent, m1. now rewrite 2 get_put_in_other by discriminate. }
  split.
  { unfold create_and_save_survey. rewrite Hp.
    destruct p as [|c p]; [congruence|].
    destruct (stripped_nonempty (PyStr.split "," (skills_input form)))
      as [|s0 skills0] eqn:Esk; [congruence|].
    cbv zeta. rewrite Hload. fold sid.
    rewrite py_setdefault_setitem_dict by assumption. cbn [bind].
    rewrite py_setdefault_setitem_dict; [reflexivity|].
    unfold map_or_absent. rewrite get_put_in_other by discriminate. exact Ha. }
  split.
  { destruct Hsv1 as [sv1 Hsv1].
    now apply (delete_survey_dict sid _ m1 sv1). }
  intros key sid'. unfold m2.
  destruct (String.eqb_spec sid' sid) as [->|Hne].
  - rewrite Hfresh.
    destruct (String.eqb_spec key "responses") as [->|Hk1];
      [apply entry_pop_in_eq|].
    rewrite entry_pop_in_other by assumption.
    destruct (String.eqb_spec key "assignments") as [->|Hk2];
      [apply entry_pop_in_eq|].
    rewrite entry_pop_in_other by assumption.
    destruct (String.eqb_spec key "surveys") as [->|Hk3];
      [apply entry_pop_in_eq|].
    rewrite entry_pop_in_other by assumption.
    unfold m1. rewrite 2 entry_put_in_other by assumption. apply Hfresh.
  - rewrite 3 entry_pop_in_keep by assumption.
    unfold m1. now rewrite 2 entry_put_in_keep by assumption.
Qed.

Lemma create_then_delete_restores_entries_witness :
  exists m1 m2 : dict json,
    delete_survey (generate_survey_id 7)
      (save_datafile (JDict m1)
         (mkWorld (Holds (JDict [("surveys", JDict [("ffff0000", JNull)])]))
            [] None))
    = (Ok tt,
       save_datafile (JDict m2)
         (save_datafile (JDict m1)
            (mkWorld (Holds (JDict [("surveys", JDict [("ffff0000", JNull)])]))
               [] None))) /\
    entry "surveys" "ffff0000" m2 = Some JNull.
Proof.
  assert (Hacc : accepted (mkForm (Some "Data Migration") None "SQL" "" [])).
  { split.
    - exists "Data Migration". split; [reflexivity|discriminate].
    - vm_compute. discriminate. }
  assert (Hfresh : forall key,
             entry key (generate_survey_id 7)
               [("surveys", JDict [("ffff0000", JNull)])] = None).
  { intros key. unfold entry. cbn [get].
    now destruct (String.eqb_spec "surveys" key). }
  destruct (create_then_delete_restores_entries
              (mkForm (Some "Data Migration") None "SQL" "" []) 7
              (mkWorld (Holds (JDict [("surveys", JDict [("ffff0000", JNull)])]))
                 [] None)
              [("surveys", JDict [("ffff0000", JNull)])]
              Hacc eq_refl
              (or_intror (ex_intro _ [("ffff0000", JNull)] eq_refl))
              (or_introl eq_refl) (or_introl eq_refl) Hfresh)
    as (m1 & m2 & _ & Hdel & Hentries).
  exists m1, m2. split; [exact Hdel|]. now rewrite Hentries.
Defined.

(** ** Pieces of a text are substrings of it *)

Lemma substring_of_refl a : substring_of a a.
Proof.
  exists EmptyString, EmptyString. simpl.
  induction a; simpl; congruence.
Qed.

Lemma substring_of_trans a b c :
  substring_of a b -> substring_of b c -> substring_of a c.
Proof.
  intros (p1 & q1 & ->) (p2 & q2 & ->).
  exists (p2 ++ p1)%string, (q1 ++ q2)%string.
  now rewrite !string_append_assoc.
Qed.

Lemma substring_of_cons c a b : substring_of a b -> substring_of a (String c b).
Proof. intros (p & q & ->). now exists (String c p), q. Qed.

Lemma substring_of_prefix a post : substring_of a (a ++ post).
Proof. now exists EmptyString, post. Qed.

Lemma substring_of_suffix pre a : substring_of a (pre ++ a).
Proof.
  exists pre, EmptyString. f_equal. induction a; simpl; congruence.
Qed.

Lemma strip_by_substring p s : substring_of (PyStr.strip_by p s) s.
Proof.
  destruct (strip_by_spec p s) as (lead & trail & H & _). now exists lead, trail.
Qed.

Lemma split_substring sep s :
  (forall piece, In piece (PyStr.split sep s) -> substring_of piece s) /\
  (forall h t, PyStr.split sep s = h :: t -> exists post, s = (h ++ post)%string).
Proof.
  induction s as [|c s [IHin IHhd]]; cbn [PyStr.split].
  - split.
    + intros piece [<-|[]]. apply substring_of_refl.
    + intros h t [= <- <-]. now exists EmptyString.
  - destruct (Ascii.eqb c sep).
    + split.
      * intros piece [<-|Hin]; [now exists EmptyString, (String c s)|].
        apply substring_of_cons. auto.
      * intros h t [= <- <-]. now exists (String c s).
    + destruct (PyStr.split sep s) as [|h0 t0] eqn:E.
      * split.
        -- intros piece [<-|[]]. apply (substring_of_prefix (String c EmptyString) s).
        -- intros h t [= <- <-]. now exists s.
      * destruct (IHhd h0 t0 eq_refl) as [post Hpost]. split.
        -- intros piece [<-|Hin].
           ++ rewrite Hpost. apply (substring_of_prefix (String c h0) post).
           ++ apply substring_of_cons. apply IHin. now right.
        -- intros h t [= <- <-]. exists post. simpl. congruence.
Qed.

Lemma split_ws_substring s :
  (forall w, In w (PyStr.split_ws s) -> substring_of w s) /\
  (forall h t, PyStr.split_ws s = h :: t ->
               kept PyStr.is_space (first_char s) ->
               exists post, s = (h ++ post)%string).
Proof.
  induction s as [|c s [IHin IHhd]]; cbn [PyStr.split_ws].
  - split; [intros w []|discriminate].
  - destruct (PyStr.is_space c) eqn:Ec.
    + split.
      * intros w Hin. apply substring_of_cons. auto.
      * intros h t _ Hkept. simpl in Hkept. congruence.
    + destruct s as [|c' s'].
      * split.
        -- intros w [<-|[]]. apply substring_of_refl.
        -- intros h t [= <- <-] _. now exists EmptyString.
      * destruct (PyStr.is_space c') eqn:Ec'.
        -- split.
           ++ intros w [<-|Hin].
              ** apply (substring_of_prefix (String c EmptyString)).
              ** apply substring_of_cons. auto.
           ++ intros h t [= <- <-] _. now exists (String c' s').
        -- destruct (PyStr.split_ws (String c' s')) as [|h0 t0] eqn:E.
           ++ split.
              ** intros w [<-|[]].
                 apply (substring_of_prefix (String c EmptyString)).
              ** intros h t [= <- <-] _. now exists (String c' s').
           ++ destruct (IHhd h0 t0 eq_refl Ec') as [post Hpost]. split.
              ** intros w [<-|Hin].
                 --- rewrite Hpost. apply (substring_of_prefix (String c h0) post).
                 --- apply substring_of_cons. apply IHin. now right.
              ** intros h t [= <- <-] _. exists post. simpl. congruence.
Qed.

Lemma splitlines_from_substring n :
  forall s acc ln,
    String.length s <= n ->
    In ln (PyStr.splitlines_from acc s) -> substring_of ln (acc ++ s).
Proof.
  induction n as [|n IH]; intros s acc ln Hlen Hin.
  - destruct s as [|c s]; [|simpl in Hlen; lia].
    simpl in Hin. destruct (PyStr.is_empty acc); [destruct Hin|].
    destruct Hin as [<-|[]]. apply substring_of_prefix.
  - destruct s as [|c s].
    + simpl in Hin. destruct (PyStr.is_empty acc); [destruct Hin|].
      destruct Hin as [<-|[]]. apply substring_of_prefix.
    + cbn [PyStr.splitlines_from] in Hin. simpl in Hlen.
      destruct (PyStr.is_linebreak c).
      * destruct Hin as [<-|Hin]; [apply substring_of_prefix|].
        apply substring_of_trans with (String c s);
          [|apply substring_of_suffix].
        apply substring_of_cons.
        destruct s as [|c' s'].
        -- apply (IH EmptyString EmptyString); [simpl; lia|assumption].
        -- destruct (Ascii.eqb c "013" && Ascii.eqb c' "010").
           ++ apply substring_of_cons.
              apply (IH s' EmptyString); [simpl in *; lia|assumption].
           ++ apply (IH (String c' s') EmptyString); [simpl in *; lia|assumption].
      * apply IH in Hin; [|lia].
        now rewrite string_append_assoc in Hin.
Qed.

Lemma splitlines_substring text ln :
  In ln (PyStr.splitlines text) -> substring_of ln text.
Proof.
  intros Hin.
  now apply (splitlines_from_substring (String.length text) text EmptyString).
Qed.

Lemma mem_char_substring c a b :
  substring_of a b -> PyStr.mem_char c b = false -> PyStr.mem_char c a = false.
Proof.
  intros (p & q & ->). rewrite !mem_char_append.
  intros H. apply orb_false_iff in H. destruct H as [_ H].
  apply orb_false_iff in H. tauto.
Qed.

Lemma substring_occurs tok text :
  substring_of tok text -> occurs_ignoring_case (PyStr.lower tok) text.
Proof.
  intros (p & q & ->). exists p, tok, q. split; [reflexivity|].
  now rewrite lower_idempotent.
Qed.

(** ** What [extract_skills_from_text] returns *)

Lemma lstrip_by_kept p s :
  kept p (first_char s) -> PyStr.lstrip_by p s = s.
Proof. destruct s as [|c s]; simpl; [reflexivity|]. now intros ->. Qed.

Lemma rstrip_by_kept p s :
  kept p (last_char s) -> PyStr.rstrip_by p s = s.
Proof.
  induction s as [|c s IH]; [reflexivity|].
  cbn [PyStr.rstrip_by]. destruct s as [|c' s'].
  - simpl. now intros ->.
  - intros H. rewrite IH by exact H. simpl. now rewrite andb_false_r.
Qed.

Lemma strip_by_idempotent p s :
  PyStr.strip_by p (PyStr.strip_by p s) = PyStr.strip_by p s.
Proof.
  destruct (strip_by_spec p s) as (_ & _ & _ & _ & _ & Hfirst & Hlast).
  unfold PyStr.strip_by at 1.
  rewrite lstrip_by_kept by assumption. now apply rstrip_by_kept.
Qed.

Lemma declared_skills_tokens ln tokens :
  declared_skills ln = Ok tokens ->
  Forall (fun tok =>
            tok <> EmptyString /\ PyStr.mem_char "," tok = false /\
            PyStr.strip tok = tok /\ substring_of tok ln) tokens.
Proof.
  unfold declared_skills, py_index.
  destruct (split_once_spec ":" ln) as [(before & rest & Hln & _ & ->)|[_ ->]];
    [|discriminate].
  cbn [nth_error bind]. intros [= <-].
  unfold stripped_nonempty. apply Forall_forall. intros tok Hin.
  apply in_map_iff in Hin. destruct Hin as (piece & <- & Hin).
  apply filter_In in Hin. destruct Hin as [Hpiece Hne].
  pose proof (split_pieces "," rest) as Hcomma.
  rewrite Forall_forall in Hcomma. specialize (Hcomma piece Hpiece).
  assert (Hsub : substring_of (PyStr.strip piece) piece)
    by apply strip_by_substring.
  repeat split.
  - intros E. rewrite E in Hne. discriminate.
  - now apply mem_char_substring with piece.
  - apply strip_by_idempotent.
  - apply substring_of_trans with piece; [assumption|].
    apply substring_of_trans with rest;
      [now apply (proj1 (split_substring "," rest))|].
    rewrite Hln. apply substring_of_trans with (String ":" rest);
      [apply substring_of_cons, substring_of_refl|apply substring_of_suffix].
Qed.

Lemma scan_lines_result lines r :
  scan_lines lines = Some r ->
  exists ln, In ln lines /\ occurs_ignoring_case "skills:" ln /\
             r = declared_skills ln.
Proof.
  induction lines as [|l0 lines IH]; cbn [scan_lines]; [discriminate|].
  destruct (PyStr.contains "skills:" (PyStr.lower l0)) eqn:E.
  - intros [= <-]. exists l0. split; [now left|]. split; [|reflexivity].
    change "skills:" with (PyStr.lower "skills:") in E.
    now apply contains_lower_iff.
  - intros H. destruct (IH H) as (ln & Hin & Hocc & Hr). exists ln.
    split; [now right|]. now split.
Qed.

Lemma scan_lines_none lines :
  scan_lines lines = None ->
  forall ln, In ln lines -> ~ occurs_ignoring_case "skills:" ln.
Proof.
  induction lines as [|l0 lines IH]; cbn [scan_lines]; [intros _ ln []|].
  destruct (PyStr.contains "skills:" (PyStr.lower l0)) eqn:E; [discriminate|].
  change "skills:" with (PyStr.lower "skills:") in E.
  apply contains_lower_false_iff in E.
  intros H ln [<-|Hin]; auto.
Qed.

(** X10: [extract_skills_from_text] never raises.  When a line declares the
    skills, every skill it returns is a piece of that text, not empty,
    without a comma and without white space at either end. *)
Theorem extract_skills_from_text_declared_tokens :
  forall (set_order : list string -> list string) (text : string),
    exists tokens,
      extract_skills_from_text set_order text = Ok tokens /\
      (declares_skills text ->
       Forall (fun tok =>
                 tok <> EmptyString /\ PyStr.mem_char "," tok = false /\
                 PyStr.strip tok = tok /\ substring_of tok text) tokens).
Proof.
  intros set_order text. unfold extract_skills_from_text, declares_skills.
  destruct (scan_lines (PyStr.splitlines text)) as [r|] eqn:E.
  - destruct (scan_lines_result _ _ E) as (ln & Hin & Hocc & ->).
    destruct (declared_skills_spec ln Hocc) as (before & rest & _ & _ & Hr).
    eexists. split; [exact Hr|]. intros _.
    apply declared_skills_tokens in Hr.
    eapply Forall_impl; [|exact Hr].
    intros tok (H1 & H2 & H3 & H4). repeat split; auto.
    apply substring_of_trans with ln; [assumption|].
    now apply splitlines_substring.
  - eexists. split; [reflexivity|].
    intros (ln & Hin & Hocc). exfalso.
    now apply (scan_lines_none _ E ln).
Qed.

Lemma heuristic_words_fold words (s : PySet.pyset) :
  NoDup s ->
  NoDup (fold_left
           (fun tokens w =>
              if PyStr.istitle w && (2 <? String.length w)%nat
                 && (String.length w <? 20)%nat
              then PySet.add (PyStr.strip_chars ",.()" (PyStr.strip w)) tokens
              else tokens) words s) /\
  forall tok,
    In tok (fold_left
              (fun tokens w =>
                 if PyStr.istitle w && (2 <? String.length w)%nat
                    && (String.length w <? 20)%nat
                 then PySet.add (PyStr.strip_chars ",.()" (PyStr.strip w)) tokens
                 else tokens) words s) <->
    In tok s \/ exists w, In w words /\ qualifies w = true /\ tok = token_of w.
Proof.
  revert s. induction words as [|w words IH]; intros s Hs; cbn [fold_left].
  - split; [assumption|]. intros tok. split; [auto|].
    intros [H|(w & [] & _)]. assumption.
  - fold (qualifies w). fold (token_of w).
    destruct (qualifies w) eqn:Eq.
    + destruct (IH (PySet.add (token_of w) s) (set_add_NoDup _ _ Hs)) as [Hnd Hin].
      split; [assumption|]. intros tok. rewrite Hin, set_add_In. split.
      * intros [[->|H]|(w' & Hw' & Hq & Ht)].
        -- right. exists w. split; [now left|]. auto.
        -- now left.
        -- right. exists w'. split; [now right|]. auto.
      * intros [H|(w' & [<-|Hw'] & Hq & Ht)].
        -- left. now right.
        -- left. now left.
        -- right. exists w'. auto.
    + destruct (IH s Hs) as [Hnd Hin].
      split; [assumption|]. intros tok. rewrite Hin. split.
      * intros [H|(w' & Hw' & Hq & Ht)].
        -- now left.
        -- right. exists w'. split; [now right|]. auto.
      * intros [H|(w' & [<-|Hw'] & Hq & Ht)].
        -- now left.
        -- congruence.
        -- right. exists w'. auto.
Qed.

Lemma In_firstn {A : Type} (n : nat) (l : list A) (x : A) :
  In x (firstn n l) -> In x l.
Proof.
  revert n. induction l as [|y l IH]; intros [|n]; simpl; try tauto.
  intros [->|H]; eauto.
Qed.

Lemma NoDup_firstn {A : Type} (n : nat) (l : list A) : NoDup l -> NoDup (firstn n l).
Proof.
  revert n. induction l as [|x l IH]; intros [|n] H; simpl;
    try constructor; inversion H; subst.
  - intros Hin. apply In_firstn in Hin. contradiction.
  - auto.
Qed.

Lemma heuristic_tokens_spec set_order text :
  iteration_order set_order ->
  length (heuristic_tokens set_order text) <= 8 /\
  NoDup (heuristic_tokens set_order text) /\
  (forall tok, In tok (heuristic_tokens set_order text) ->
               exists w, In w (PyStr.split_ws text) /\ qualifies w = true /\
                         tok = token_of w) /\
  (length (heuristic_tokens set_order text) < 8 ->
   forall w, In w (PyStr.split_ws text) -> qualifies w = true ->
             In (token_of w) (heuristic_tokens set_order text)).
Proof.
  intros Horder. unfold heuristic_tokens. cbv zeta.
  destruct (heuristic_words_fold (PyStr.split_ws text) [] (NoDup_nil _))
    as [Hnd Hin].
  match goal with
  | |- context [firstn 8 (set_order ?t)] => set (tokens := t) in *
  end.
  split; [apply firstn_le_length|].
  split.
  { apply NoDup_firstn.
    apply (Permutation_NoDup (l := tokens)); [|assumption].
    apply Permutation_sym, Horder. }
  split.
  { intros tok Htok. apply In_firstn in Htok.
    apply (Permutation_in _ (Horder tokens)) in Htok.
    apply Hin in Htok. destruct Htok as [[]|H]. exact H. }
  intros Hlen w Hw Hq.
  assert (Hall : firstn 8 (set_order tokens) = set_order tokens).
  { apply firstn_all2.
    destruct (Nat.le_gt_cases (length (set_order tokens)) 8) as [H|H];
      [assumption|].
    rewrite firstn_length_le in Hlen by lia. lia. }
  rewrite Hall.
  apply (Permutation_in _ (Permutation_sym (Horder tokens))).
  apply Hin. right. exists w. auto.
Qed.

Lemma scan_lines_undeclared text :
  ~ declares_skills text -> scan_lines (PyStr.splitlines text) = None.
Proof.
  intros Hno. destruct (scan_lines (PyStr.splitlines text)) as [r|] eqn:E;
    [|reflexivity].
  exfalso. apply Hno.
  destruct (scan_lines_result _ _ E) as (ln & Hin & Hocc & _).
  now exists ln.
Qed.

(** X11: When no line declares the skills, the result holds at most eight
    tokens, all different; each comes from a word of the text that is
    title-cased and 3 to 19 characters long, stripped of white space and
    of the characters [,.()] at its ends; and when fewer than eight are
    returned, no such word was left out. *)
Theorem extract_skills_from_text_heuristic_tokens :
  forall (set_order : list string -> list string) (text : string),
    iteration_order set_order ->
    ~ declares_skills text ->
    exists tokens,
      extract_skills_from_text set_order text = Ok tokens /\
      length tokens <= 8 /\
      NoDup tokens /\
      (forall tok, In tok tokens ->
                   exists w, In w (PyStr.split_ws text) /\ qualifies w = true /\
                             tok = token_of w) /\
      (length tokens < 8 ->
       forall w, In w (PyStr.split_ws text) -> qualifies w = true ->
                 In (token_of w) tokens).
Proof.
  intros set_order text Horder Hno.
  exists (heuristic_tokens set_order text). split.
  - unfold extract_skills_from_text. now rewrite scan_lines_undeclared.
  - now apply heuristic_tokens_spec.
Qed.

Lemma extract_skills_from_text_heuristic_tokens_witness :
  exists tokens,
    extract_skills_from_text (fun s => s)
      "Ada Lovelace, worked at Acme. Knows SQL and Python (Advanced)."
    = Ok tokens /\
    length tokens <= 8.
Proof.
  destruct (extract_skills_from_text_heuristic_tokens (fun s => s)
              "Ada Lovelace, worked at Acme. Knows SQL and Python (Advanced)."
              (fun s => Permutation_refl s))
    as (tokens & H1 & H2 & _).
  - intros (ln & Hin & Hocc). apply contains_lower_iff in Hocc.
    simpl in Hin. destruct Hin as [<-|[]]. vm_compute in Hocc. discriminate.
  - exists tokens. split; assumption.
Defined.

(** ** The token fallback of the dashboard on ASCII resumes *)

Lemma extract_tokens_substring set_order text tokens :
  iteration_order set_order ->
  extract_skills_from_text set_order text = Ok tokens ->
  forall tok, In tok tokens -> substring_of tok text.
Proof.
  intros Horder. unfold extract_skills_from_text.
  destruct (scan_lines (PyStr.splitlines text)) as [r|] eqn:E.
  - destruct (scan_lines_result _ _ E) as (ln & Hin & Hocc & ->).
    intros Hr tok Htok. apply declared_skills_tokens in Hr.
    rewrite Forall_forall in Hr. destruct (Hr tok Htok) as (_ & _ & _ & Hsub).
    apply substring_of_trans with ln; [assumption|].
    now apply splitlines_substring.
  - intros [= <-] tok Htok.
    destruct (heuristic_tokens_spec set_order text Horder) as (_ & _ & Hfrom & _).
    destruct (Hfrom tok Htok) as (w & Hw & _ & ->).
    unfold token_of.
    apply substring_of_trans with (PyStr.strip w); [apply strip_by_substring|].
    apply substring_of_trans with w; [apply strip_by_substring|].
    now apply (proj1 (split_ws_substring text)).
Qed.

(** X12: When the resume texts are ASCII, the fallback of the resume
    matching never finds a resume: it runs only for a skill that no
    resume text contains, and every token it extracts is a piece of a
    resume text.  Whenever the direct matches are empty the dashboard
    reports that there are no matches, and a "Fallback matches" line is
    never shown.  (On other texts the fallback can find a resume: a
    capital sigma is lower-cased by its place in the text.) *)
Theorem resume_matching_fallback_finds_nothing :
  forall set_order : list string -> list string,
    iteration_order set_order ->
    forall (resume_texts : dict string) (ms : string),
      Forall (fun item : string * string => is_ascii (snd item) = true)
        resume_texts ->
      (match_resumes_for_skill ms resume_texts = [] ->
       resume_matching_for set_order resume_texts ms
       = Ok (Show_matches ms 0
             :: map Call_extract (keys resume_texts) ++ [Show_no_matches])) /\
      (forall steps suggestions,
          resume_matching_for set_order resume_texts ms = Ok steps ->
          ~ In (Show_fallback suggestions) steps).
Proof.
  intros set_order Horder resume_texts ms _.
  assert (Hnone : match_resumes_for_skill ms resume_texts = [] ->
                  resume_matching_for set_order resume_texts ms
                  = Ok (Show_matches ms 0
                        :: map Call_extract (keys resume_texts)
                        ++ [Show_no_matches])).
  { intros Hempty. unfold resume_matching_for. rewrite Hempty.
    destruct (fallback_scan_ok set_order ms resume_texts)
      as (suggestions & -> & Hiff).
    cbn [bind length]. destruct suggestions as [|fname rest]; [reflexivity|].
    exfalso.
    destruct (proj1 (Hiff fname) (or_introl eq_refl))
      as (txt & tokens & Hin & Htok & Hms).
    apply in_map_iff in Hms. destruct Hms as (tok & <- & Htokin).
    assert (Hdirect : In fname (match_resumes_for_skill (PyStr.lower tok)
                                  resume_texts)).
    { apply match_resumes_for_skill_iff. exists txt. split; [assumption|].
      apply substring_occurs.
      now apply (extract_tokens_substring set_order txt tokens). }
    rewrite Hempty in Hdirect. destruct Hdirect. }
  split; [exact Hnone|].
  intros steps suggestions Hsteps Hin.
  destruct (match_resumes_for_skill ms resume_texts) as [|m matches] eqn:E.
  - rewrite (Hnone eq_refl) in Hsteps. injection Hsteps as <-.
    destruct Hin as [Hin|Hin]; [discriminate|].
    apply in_app_iff in Hin. destruct Hin as [Hin|[Hin|[]]]; [|discriminate].
    apply in_map_iff in Hin. destruct Hin as (x & Hx & _). discriminate.
  - unfold resume_matching_for in Hsteps. rewrite E in Hsteps.
    rewrite show_matches_ok in Hsteps.
    + cbn [bind] in Hsteps. injection Hsteps as <-.
      destruct Hin as [Hin|[Hin|Hin]]; [discriminate|discriminate|].
      apply in_map_iff in Hin. destruct Hin as (x & Hx & _). discriminate.
    + intros m0 Hm0. apply (match_resumes_for_skill_keys ms). now rewrite E.
Qed.

Lemma resume_matching_fallback_finds_nothing_witness :
  resume_matching_for (fun s => s)
    [("a.txt", "Skills: ETL, Excel"); ("b.txt", "Knows Python")] "sql"
  = Ok [Show_matches "sql" 0; Call_extract "a.txt"; Call_extract "b.txt";
        Show_no_matches].
Proof.
  refine (proj1 (resume_matching_fallback_finds_nothing (fun s => s)
                   (fun s => Permutation_refl s)
                   [("a.txt", "Skills: ETL, Excel"); ("b.txt", "Knows Python")]
                   "sql" _) _).
  - repeat constructor.
  - reflexivity.
Defined.

(** ** Direct matches *)

Lemma contains_substring a b hay :
  substring_of a b -> PyStr.contains b hay = true -> PyStr.contains a hay = true.
Proof.
  intros Hab Hb. apply contains_iff in Hb. destruct Hb as (p & q & ->).
  apply contains_iff.
  assert (H : substring_of a (p ++ b ++ q)).
  { apply substring_of_trans with b; [assumption|]. now exists p, q. }
  exact H.
Qed.

Lemma lower_substring a b :
  substring_of a b -> substring_of (PyStr.lower a) (PyStr.lower b).
Proof.
  intros (p & q & ->). exists (PyStr.lower p), (PyStr.lower q).
  now rewrite !lower_append.
Qed.

Lemma contains_empty hay : PyStr.contains EmptyString hay = true.
Proof. destruct hay; reflexivity. Qed.

(** X13: Each resume is judged on its own, so the matches come in the order
    of the resumes; the case of the skill plays no part; the empty skill
    matches every resume; distinct file names give distinct matches; and
    a piece of an ASCII skill matches at least the resumes the skill
    matches. *)
Theorem match_resumes_for_skill_properties :
  forall (skill : string) (resumes : dict string),
    (forall more : dict string,
        match_resumes_for_skill skill (resumes ++ more)
        = match_resumes_for_skill skill resumes
          ++ match_resumes_for_skill skill more) /\
    match_resumes_for_skill (PyStr.lower skill) resumes
    = match_resumes_for_skill skill resumes /\
    match_resumes_for_skill EmptyString resumes = keys resumes /\
    (NoDup (keys resumes) -> NoDup (match_resumes_for_skill skill resumes)) /\
    (is_ascii skill = true ->
     forall part, substring_of part skill ->
                  incl (match_resumes_for_skill skill resumes)
                    (match_resumes_for_skill part resumes)).
Proof.
  intros skill resumes. rewrite !match_resumes_for_skill_filter.
  split.
  { intros more. rewrite !match_resumes_for_skill_filter.
    now rewrite filter_app, map_app. }
  split; [now rewrite lower_idempotent|].
  split.
  { unfold keys. f_equal. induction resumes as [|[f t] resumes IH];
      [reflexivity|].
    cbn [filter snd PyStr.lower]. rewrite contains_empty. now f_equal. }
  split.
  { unfold keys. induction resumes as [|[f t] resumes IH]; intros Hnd;
      cbn [filter map fst snd] in *; [constructor|].
    inversion Hnd as [|? ? Hnotin Hnd']; subst.
    destruct (PyStr.contains _ _); [|auto].
    cbn [map fst]. constructor; [|auto].
    intros Hin. apply Hnotin. apply in_map_iff in Hin.
    destruct Hin as (x & <- & Hin). apply filter_In in Hin.
    apply in_map. tauto. }
  intros _ part Hpart fname Hin.
  rewrite match_resumes_for_skill_filter.
  apply in_map_iff in Hin. destruct Hin as (item & <- & Hin).
  apply filter_In in Hin. destruct Hin as [Hin Hc].
  apply in_map. apply filter_In. split; [assumption|].
  apply contains_substring with (PyStr.lower skill); [|assumption].
  now apply lower_substring.
Qed.

(** ** The order of the rows and the meaning of a gap *)

Lemma set_mem_keys {V : Type} (k : string) (d : dict V) :
  PySet.mem k (keys d) = mem k d.
Proof.
  destruct (mem k d) eqn:E.
  - apply set_mem_iff. now apply mem_keys.
  - destruct (PySet.mem k (keys d)) eqn:E'; [|reflexivity].
    apply set_mem_iff, mem_keys in E'. congruence.
Qed.

Lemma keys_record_rating skl rating m :
  keys (record_rating skl rating m) = PySet.add skl (keys m).
Proof.
  unfold record_rating, PySet.add. now rewrite keys_set, set_mem_keys.
Qed.

Lemma keys_record_all pairs m :
  keys (record_all pairs m)
  = fold_left (fun s x => PySet.add x s) (map fst pairs) (keys m).
Proof.
  revert m. induction pairs as [|[k r] pairs IH]; intros m; [reflexivity|].
  cbn [record_all fold_left map fst snd]. fold (record_all pairs).
  now rewrite IH, keys_record_rating.
Qed.

Lemma fst_pairs_of resp_list :
  map fst (pairs_of resp_list) = flat_map selected resp_list.
Proof.
  unfold pairs_of. induction resp_list as [|r resp_list IH]; [reflexivity|].
  cbn [flat_map]. rewrite map_app, IH. f_equal.
  rewrite map_map. cbn [fst]. apply map_id.
Qed.

(** X14: The table lists the skills in the order in which they were first
    selected, going through the responses in order and through each
    response's selected skills in order. *)
Theorem aggregation_rows_in_order_of_first_selection :
  forall resp_list : list response,
    map Skill (aggregation_rows (aggregate resp_list))
    = PySet.of_list (flat_map selected resp_list).
Proof.
  intros resp_list.
  rewrite keys_aggregation_rows, aggregate_pairs, keys_record_all.
  now rewrite fst_pairs_of.
Qed.

(** X15: A skill is reported missing exactly when it is a survey skill in
    lower case and no response selected a skill that is equal to it when
    lower-cased: the comparison with the responses ignores case. *)
Theorem missing_skills_ignore_case :
  forall (sv : survey) (resp_list : list response) (x : string),
    In x (missing_skills sv (aggregate resp_list)) <->
    (exists s, In s (or_default (skills sv) []) /\ x = PyStr.lower s) /\
    ~ covered resp_list x.
Proof.
  intros sv resp_list x. unfold missing_skills, covered.
  rewrite set_diff_In, !set_of_list_In, !in_map_iff.
  split.
  - intros [(s & <- & Hs) Hno]. split; [now exists s|].
    intros (r & skl & Hr & Hskl & Hx). apply Hno. exists skl.
    split; [assumption|]. apply keys_aggregate_iff. now exists r.
  - intros [(s & Hs & ->) Hno]. split; [now exists s|].
    intros (skl & Hx & Hin). apply Hno.
    apply keys_aggregate_iff in Hin. destruct Hin as (r & Hr & Hskl).
    now exists r, skl.
Qed.

(** X16: When every survey skill was selected by some response, in whatever
    case, the dashboard reports no missing skill and stops there: it
    does not read the resumes folder and matches nothing. *)
Theorem dashboard_analysis_without_gap :
  forall (set_order : list string -> list string) (sv : survey)
         (resp_list : list response) (w : world),
    (forall s, In s (or_default (skills sv) []) ->
               covered resp_list (PyStr.lower s)) ->
    dashboard_analysis set_order sv resp_list w
    = Ok ((match aggregate resp_list with
           | [] => []
           | _ :: _ => [Show_table (aggregation_rows (aggregate resp_list))]
           end) ++ [Show_missing None]).
Proof.
  intros set_order sv resp_list w Hall.
  assert (Hempty : missing_skills sv (aggregate resp_list) = []).
  { destruct (missing_skills sv (aggregate resp_list)) as [|x l] eqn:E;
      [reflexivity|].
    exfalso.
    assert (Hx : In x (missing_skills sv (aggregate resp_list)))
      by (rewrite E; now left).
    unfold missing_skills in Hx.
    rewrite set_diff_In, !set_of_list_In, !in_map_iff in Hx.
    destruct Hx as [(s & <- & Hs) Hno]. apply Hno.
    destruct (Hall s Hs) as (r & skl & Hr & Hskl & Hlow).
    exists skl. split; [assumption|]. apply keys_aggregate_iff. now exists r. }
  unfold dashboard_analysis. cbv zeta. now rewrite Hempty.
Qed.

Lemma dashboard_analysis_without_gap_witness :
  dashboard_analysis (fun s => s)
    (mkSurvey "ab12cd34" "Data Migration" (Some ["SQL"]) None)
    [mkResponse "a@b.c" "A" (Some ["sql"]) (Some [("sql", "High")]) []
       "fine" "2024-01-01T00:00:00"]
    (mkWorld Missing [] None)
  = Ok [Show_table [mkRow "sql" 1 0 0 1]; Show_missing None].
Proof.
  apply (dashboard_analysis_without_gap (fun s => s)
           (mkSurvey "ab12cd34" "Data Migration" (Some ["SQL"]) None)
           [mkResponse "a@b.c" "A" (Some ["sql"]) (Some [("sql", "High")]) []
              "fine" "2024-01-01T00:00:00"]
           (mkWorld Missing [] None)).
  intros s [<-|[]].
  exists (mkResponse "a@b.c" "A" (Some ["sql"]) (Some [("sql", "High")]) []
            "fine" "2024-01-01T00:00:00"), "sql".
  simpl. auto.
Defined.

(** ** The resumes folder *)

Lemma load_resumes_fold files :
  NoDup (map fst files) ->
  forall acc : dict string,
    (forall f, In f (map fst files) -> mem f acc = false) ->
    let resumes :=
      fold_left
        (fun resumes (entry : string * option string) =>
           let (f, content) := entry in
           if PyStr.endswith (PyStr.lower f) ".txt" then
             set f (match content with
                    | Some text => text
                    | None => ""
                    end) resumes
           else resumes)
        files acc in
    keys resumes = keys acc ++ filter is_txt (map fst files) /\
    (forall f content,
        In (f, content) files -> is_txt f = true ->
        get f resumes = Some (text_read content)) /\
    (forall f, ~ (In f (map fst files) /\ is_txt f = true) ->
               get f resumes = get f acc).
Proof.
  induction files as [|[f0 c0] files IH]; intros Hnd acc Hfresh; cbv zeta.
  - cbn [fold_left map filter]. rewrite app_nil_r.
    split; [reflexivity|]. split; [intros f c []|reflexivity].
  - cbn [fold_left map fst filter]. fold (is_txt f0). fold (text_read c0).
    inversion Hnd as [|? ? Hnotin Hnd']; subst.
    set (acc' := if is_txt f0 then set f0 (text_read c0) acc else acc).
    assert (Hf0 : mem f0 acc = false) by (apply Hfresh; now left).
    assert (Hkeys' : keys acc'
                     = keys acc ++ (if is_txt f0 then [f0] else [])).
    { unfold acc'. destruct (is_txt f0); [|now rewrite app_nil_r].
      now rewrite keys_set, Hf0. }
    assert (Hfresh' : forall f, In f (map fst files) -> mem f acc' = false).
    { intros f Hf. unfold acc'. destruct (is_txt f0); [|apply Hfresh; now right].
      unfold mem. rewrite get_set_neq by (intros ->; contradiction).
      apply (Hfresh f). now right. }
    destruct (IH Hnd' acc' Hfresh') as (Hkeys & Hin & Hout).
    split; [|split].
    + rewrite Hkeys, Hkeys', <- app_assoc. f_equal.
      now destruct (is_txt f0).
    + intros f content [[= -> ->]|Hfc] Htxt.
      * rewrite Hout by (intros [H _]; contradiction).
        unfold acc'. rewrite Htxt. apply get_set_eq.
      * now apply Hin.
    + intros f Hnot. rewrite Hout.
      * unfold acc'. destruct (is_txt f0) eqn:E0; [|reflexivity].
        apply get_set_neq. intros ->. apply Hnot. split; [now left|assumption].
      * intros [H1 H2]. apply Hnot. split; [now right|assumption].
Qed.

(** X18: [load_resumes_texts] keeps the files of the folder whose name ends
    in ".txt" in any case, in the order of the listing, each with its
    text, or with the empty text when it cannot be read; other files are
    left out, and a missing folder gives no resume at all. *)
Theorem load_resumes_texts_keeps_txt_files :
  forall w : world,
    (resume_folder w = None -> load_resumes_texts w = []) /\
    (forall files,
        resume_folder w = Some files ->
        NoDup (map fst files) ->
        keys (load_resumes_texts w) = filter is_txt (map fst files) /\
        (forall f content,
            In (f, content) files -> is_txt f = true ->
            get f (load_resumes_texts w) = Some (text_read content)) /\
        (forall f, is_txt f = false -> get f (load_resumes_texts w) = None)).
Proof.
  intros w. unfold load_resumes_texts. split; [now intros ->|].
  intros files -> Hnd.
  destruct (load_resumes_fold files Hnd [] (fun f _ => eq_refl))
    as (Hkeys & Hin & Hout).
  split; [exact Hkeys|]. split; [exact Hin|].
  intros f Hf. rewrite Hout; [reflexivity|]. intros [_ H]. congruence.
Qed.

(** ** Submitting a response *)

Lemma set_set {V : Type} (k : string) (v v' : V) (d : dict V) :
  set k v (set k v' d) = set k v d.
Proof.
  induction d as [|[k0 v0] d IH]; simpl.
  - now rewrite String.eqb_refl.
  - destruct (k0 =? k)%string eqn:E; simpl; rewrite E; congruence.
Qed.

Lemma submit_survey_dict sid s w m :
  load_datafile w = JDict m ->
  map_or_absent "responses" m ->
  list_or_absent sid m ->
  UserView.submit_survey sid s w
  = (Ok tt,
     save_datafile
       (JDict (put_in "responses" sid
                 (JList (recorded_responses sid m ++ [UserView.entry_of s])) m))
       w).
Proof.
  intros Hload Hmap Hlist. unfold UserView.submit_survey. rewrite Hload.
  cbv zeta. unfold recorded_responses, list_or_absent, entry, put_in in *.
  cbn [UserView.py_setdefault bind]. unfold mem.
  destruct Hmap as [E|[inner E]]; rewrite E in *.
  - unfold py_getitem at 1. rewrite get_set_eq. cbn [bind UserView.py_setdefault].
    cbn [mem get py_getitem set]. rewrite String.eqb_refl.
    cbn [bind UserView.py_append py_setitem app set].
    rewrite String.eqb_refl. now rewrite set_set.
  - unfold py_getitem at 1. rewrite E. cbn [bind UserView.py_setdefault].
    unfold mem. destruct Hlist as [Hnone|[l Hl]].
    + rewrite Hnone. unfold py_getitem. rewrite get_set_eq.
      cbn [bind UserView.py_append py_setitem app]. now rewrite set_set.
    + rewrite Hl. unfold py_getitem. rewrite Hl.
      cbn [bind UserView.py_append py_setitem]. reflexivity.
Qed.

(** X19: Submitting a response adds it at the end of the list kept for the
    survey, after the responses already there, which stay as they are
    and in their order; no other entry of the document changes. *)
Theorem submit_survey_appends :
  forall (sid : string) (s : UserView.submission) (w : world) (m : dict json),
    load_datafile w = JDict m ->
    map_or_absent "responses" m ->
    list_or_absent sid m ->
    exists m' : dict json,
      UserView.submit_survey sid s w = (Ok tt, save_datafile (JDict m') w) /\
      recorded_responses sid m'
      = recorded_responses sid m ++ [UserView.entry_of s] /\
      (forall sid', sid' <> sid ->
                    entry "responses" sid' m' = entry "responses" sid' m) /\
      (forall key sid', key <> "responses" ->
                        entry key sid' m' = entry key sid' m).
Proof.
  intros sid s w m Hload Hmap Hlist.
  rewrite (submit_survey_dict sid s w m Hload Hmap Hlist).
  eexists. split; [reflexivity|].
  split.
  - unfold recorded_responses at 1. now rewrite entry_put_in_eq.
  - split.
    + intros sid' Hne. now apply entry_put_in_neq.
    + intros key sid' Hne. now apply entry_put_in_other.
Qed.

Lemma submit_survey_appends_witness :
  exists m' : dict json,
    UserView.submit_survey "ab12cd34"
      (UserView.mkSubmission (Some "a@b.c") "A" ["SQL"] [("SQL", "High")]
         [("q1", "yes")] "fine" "2024-01-01T00:00:00")
      (mkWorld (Holds (JDict [("responses", JDict [("ab12cd34", JList [JNull])])]))
         [] None)
    = (Ok tt,
       save_datafile (JDict m')
         (mkWorld
            (Holds (JDict [("responses", JDict [("ab12cd34", JList [JNull])])]))
            [] None)) /\
    length (recorded_responses "ab12cd34" m') = 2.
Proof.
  destruct (submit_survey_appends "ab12cd34"
              (UserView.mkSubmission (Some "a@b.c") "A" ["SQL"] [("SQL", "High")]
                 [("q1", "yes")] "fine" "2024-01-01T00:00:00")
              (mkWorld
                 (Holds (JDict [("responses",
                                 JDict [("ab12cd34", JList [JNull])])]))
                 [] None)
              [("responses", JDict [("ab12cd34", JList [JNull])])]
              eq_refl
              (or_intror (ex_intro _ [("ab12cd34", JList [JNull])] eq_refl))
              (or_intror (ex_intro _ [JNull] eq_refl)))
    as (m' & Hrun & Hrec & _).
  exists m'. split; [exact Hrun|]. now rewrite Hrec.
Defined.

(** X20: Two submissions for the same survey are both kept, in the order in
    which they were made, even when they come from the same respondent:
    nothing is overwritten or merged. *)
Theorem submit_survey_twice_keeps_both :
  forall (sid : string) (s1 s2 : UserView.submission) (w : world)
         (m : dict json),
    load_datafile w = JDict m ->
    map_or_absent "responses" m ->
    list_or_absent sid m ->
    exists m1 m2 : dict json,
      UserView.submit_survey sid s1 w = (Ok tt, save_datafile (JDict m1) w) /\
      UserView.submit_survey sid s2 (save_datafile (JDict m1) w)
      = (Ok tt, save_datafile (JDict m2) (save_datafile (JDict m1) w)) /\
      recorded_responses sid m2
      = recorded_responses sid m
        ++ [UserView.entry_of s1; UserView.entry_of s2].
Proof.
  intros sid s1 s2 w m Hload Hmap Hlist.
  set (m1 := put_in "responses" sid
               (JList (recorded_responses sid m ++ [UserView.entry_of s1])) m).
  assert (Hrec1 : recorded_responses sid m1
                  = recorded_responses sid m ++ [UserView.entry_of s1]).
  { unfold recorded_responses at 1, m1. now rewrite entry_put_in_eq. }
  assert (Hmap1 : map_or_absent "responses" m1).
  { right. unfold m1, put_in.
    destruct (get "responses" m) as [[| | | | |inner]|]; rewrite get_set_eq;
      eauto. }
  assert (Hlist1 : list_or_absent sid m1).
  { right. unfold m1. rewrite entry_put_in_eq. eauto. }
  exists m1, (put_in "responses" sid
                (JList (recorded_responses sid m1 ++ [UserView.entry_of s2])) m1).
  split; [now apply (submit_survey_dict sid s1 w m)|].
  split; [now apply (submit_survey_dict sid s2 _ m1)|].
  unfold recorded_responses at 1. rewrite entry_put_in_eq, Hrec1.
  now rewrite <- app_assoc.
Qed.

Lemma submit_survey_twice_keeps_both_witness :
  exists m1 m2 : dict json,
    UserView.submit_survey "ab12cd34"
      (UserView.mkSubmission (Some "a@b.c") "A" [] [] [] "again"
         "2024-01-02T00:00:00")
      (save_datafile (JDict m1) (mkWorld Missing [] None))
    = (Ok tt,
       save_datafile (JDict m2)
         (save_datafile (JDict m1) (mkWorld Missing [] None))) /\
    length (recorded_responses "ab12cd34" m2) = 2.
Proof.
  destruct (submit_survey_twice_keeps_both "ab12cd34"
              (UserView.mkSubmission (Some "a@b.c") "A" [] [] [] "first"
                 "2024-01-01T00:00:00")
              (UserView.mkSubmission (Some "a@b.c") "A" [] [] [] "again"
                 "2024-01-02T00:00:00")
              (mkWorld Missing [] None) []
              eq_refl (or_introl eq_refl) (or_introl eq_refl))
    as (m1 & m2 & _ & Hrun & Hrec).
  exists m1, m2. split; [exact Hrun|]. now rewrite Hrec.
Defined.

(** X21: When what the document keeps for the survey under "responses" is
    not a list, the submission raises [AttributeError] before anything
    is written: the store is as it was. *)
Theorem submit_survey_raises_on_a_non_list :
  forall (sid : string) (s : UserView.submission) (w : world)
         (m inner : dict json) (v : json),
    load_datafile w = JDict m ->
    get "responses" m = Some (JDict inner) ->
    get sid inner = Some v ->
    (forall l, v <> JList l) ->
    UserView.submit_survey sid s w = (Raise AttributeError, w).
Proof.
  intros sid s w m inner v Hload Hresp Hv Hnot.
  unfold UserView.submit_survey. rewrite Hload. cbv zeta.
  cbn [UserView.py_setdefault bind]. unfold mem. rewrite Hresp.
  unfold py_getitem at 1. rewrite Hresp.
  cbn [bind UserView.py_setdefault]. unfold mem. rewrite Hv.
  unfold py_getitem. rewrite Hv. cbn [bind].
  destruct v as [| | | |l|]; try reflexivity.
  exfalso. now apply (Hnot l).
Qed.

Lemma submit_survey_raises_on_a_non_list_witness :
  UserView.submit_survey "ab12cd34"
    (UserView.mkSubmission (Some "a@b.c") "A" ["SQL"] [("SQL", "High")]
       [("q1", "yes")] "fine" "2024-01-01T00:00:00")
    (mkWorld
       (Holds (JDict [("responses", JDict [("ab12cd34", JStr "none yet")])]))
       [] None)
  = (Raise AttributeError,
     mkWorld
       (Holds (JDict [("responses", JDict [("ab12cd34", JStr "none yet")])]))
       [] None).
Proof.
  apply (submit_survey_raises_on_a_non_list "ab12cd34" _ _
           [("responses", JDict [("ab12cd34", JStr "none yet")])]
           [("ab12cd34", JStr "none yet")] (JStr "none yet")).
  - reflexivity.
  - reflexivity.
  - reflexivity.
  - intros l. discriminate.
Defined.

(** ** Runs of assignments to a dictionary *)

Section UpdateAll.
Context {V : Type}.
Implicit Types (d : dict V) (items : list (string * V)).

Lemma get_update_all_out items d k :
  ~ In k (map fst items) -> get k (update_all items d) = get k d.
Proof.
  revert d. induction items as [|[k0 v0] items IH]; intros d Hout;
    [reflexivity|].
  cbn [update_all fold_left fst snd]. fold (update_all items (set k0 v0 d)).
  rewrite IH by (intros H; apply Hout; now right).
  apply get_set_neq. intros ->. apply Hout. now left.
Qed.

Lemma get_update_all_in items d k v :
  In k (map fst items) ->
  (forall v', In (k, v') items -> v' = v) ->
  get k (update_all items d) = Some v.
Proof.
  revert d. induction items as [|[k0 v0] items IH]; intros d Hin Hsame;
    [destruct Hin|].
  cbn [update_all fold_left fst snd]. fold (update_all items (set k0 v0 d)).
  destruct (in_dec string_dec k (map fst items)) as [Hlater|Hlast].
  - apply IH; [assumption|]. intros v' Hv'. apply Hsame. now right.
  - rewrite get_update_all_out by assumption.
    destruct Hin as [Hk|Hin]; [|contradiction]. cbn [fst] in Hk. subst k0.
    rewrite get_set_eq. f_equal. apply Hsame. now left.
Qed.

Lemma keys_update_all items d :
  keys (update_all items d)
  = fold_left (fun s x => PySet.add x s) (map fst items) (keys d).
Proof.
  revert d. induction items as [|[k0 v0] items IH]; intros d; [reflexivity|].
  cbn [update_all fold_left map fst snd]. fold (update_all items (set k0 v0 d)).
  rewrite IH. f_equal. unfold PySet.add.
  now rewrite keys_set, set_mem_keys.
Qed.

End UpdateAll.

Lemma update_all_map {A V : Type} (kf : A -> string) (vf : A -> V)
  (l : list A) (d : dict V) :
  fold_left (fun d x => set (kf x) (vf x) d) l d
  = update_all (map (fun x => (kf x, vf x)) l) d.
Proof. revert d. induction l as [|x l IH]; intros d; simpl; auto. Qed.

Lemma set_of_list_NoDup_id l : NoDup l -> PySet.of_list l = l.
Proof.
  unfold PySet.of_list.
  assert (H : forall s, NoDup (s ++ l) ->
                        fold_left (fun s x => PySet.add x s) l s = s ++ l).
  { induction l as [|x l IH]; intros s Hnd; cbn [fold_left].
    - now rewrite app_nil_r.
    - assert (Hx : PySet.mem x s = false).
      { destruct (PySet.mem x s) eqn:E; [|reflexivity].
        apply set_mem_iff in E. apply NoDup_remove_2 in Hnd.
        exfalso. apply Hnd. apply in_or_app. now left. }
      unfold PySet.add at 2. rewrite Hx. rewrite IH.
      + now rewrite <- app_assoc.
      + now rewrite <- app_assoc. }
  intros Hnd. now apply (H []).
Qed.

(** ** What the form collects *)

(** X22: The ratings collected by the form have one entry per chosen skill,
    the level picked for it; so for a response built from the form the
    aggregation reads the picked level for every selected skill and the
    default "Low" never comes into play. *)
Theorem collect_ratings_rates_every_chosen_skill :
  forall (radio : string -> string) (chosen_skills : list string),
    keys (UserView.collect_ratings radio chosen_skills)
    = PySet.of_list chosen_skills /\
    (forall skl, In skl chosen_skills ->
                 get skl (UserView.collect_ratings radio chosen_skills)
                 = Some (radio skl)) /\
    (forall r : response,
        skills_selected r = Some chosen_skills ->
        skill_ratings r = Some (UserView.collect_ratings radio chosen_skills) ->
        forall skl, In skl (selected r) -> rating_of r skl = radio skl).
Proof.
  intros radio chosen_skills. unfold UserView.collect_ratings.
  rewrite (update_all_map (fun skl => skl) radio).
  assert (Hfst : map fst (map (fun x => (x, radio x)) chosen_skills)
                 = chosen_skills).
  { rewrite map_map. cbn [fst]. apply map_id. }
  assert (Hget : forall skl, In skl chosen_skills ->
                   get skl (update_all (map (fun x => (x, radio x)) chosen_skills) [])
                   = Some (radio skl)).
  { intros skl Hin. apply get_update_all_in; [now rewrite Hfst|].
    intros v' Hv'. apply in_map_iff in Hv'.
    now destruct Hv' as (x & [= -> <-] & _). }
  split; [now rewrite keys_update_all, Hfst|].
  split; [exact Hget|].
  intros r Hsel Hrat skl Hin. unfold selected in Hin. rewrite Hsel in Hin.
  unfold rating_of, get_default. rewrite Hrat. cbn [or_default].
  now rewrite Hget.
Qed.

Lemma to_uint_not_nil n : Nat.to_uint n <> Decimal.Nil.
Proof.
  intros E. assert (Hn : n = 0).
  { rewrite <- (DecimalNat.Unsigned.of_to n), E. reflexivity. }
  subst n. discriminate E.
Qed.

Lemma question_key_inj i j :
  UserView.question_key i = UserView.question_key j -> i = j.
Proof.
  unfold UserView.question_key. cbn [append]. intros [= H].
  apply DecimalNat.Unsigned.to_uint_inj.
  pose proof (NilZero.usu (Nat.to_uint i) (to_uint_not_nil i)) as Hi.
  pose proof (NilZero.usu (Nat.to_uint j) (to_uint_not_nil j)) as Hj.
  rewrite H in Hi. congruence.
Qed.

Lemma collect_answers_update text_area (l : list (nat * string))
  (d : dict string) :
  fold_left
    (fun responses (iq : nat * string) =>
       let (i, q) := iq in set (UserView.question_key i) (text_area i) responses)
    l d
  = update_all
      (map (fun iq : nat * string =>
              (UserView.question_key (fst iq), text_area (fst iq))) l) d.
Proof.
  revert d. induction l as [|[i q] l IH]; intros d; [reflexivity|].
  cbn [fold_left map fst]. rewrite IH. reflexivity.
Qed.

Lemma map_fst_combine {A B : Type} (l1 : list A) (l2 : list B) :
  length l1 = length l2 -> map fst (combine l1 l2) = l1.
Proof.
  revert l2. induction l1 as [|x l1 IH]; intros [|y l2] H; simpl in *;
    try congruence; try discriminate.
  f_equal. apply IH. congruence.
Qed.

Lemma NoDup_map_inj {A B : Type} (f : A -> B) (l : list A) :
  (forall x y, f x = f y -> x = y) -> NoDup l -> NoDup (map f l).
Proof.
  intros Hinj. induction 1 as [|x l Hx Hl IH]; simpl; constructor; auto.
  intros Hin. apply in_map_iff in Hin. destruct Hin as (y & Hy & Hin).
  apply Hinj in Hy. now subst.
Qed.

(** X23: The answers collected by the form have exactly one entry per
    question, keyed q1, q2, ... in the order of the questions, each
    holding what was typed under that question. *)
Theorem collect_answers_one_per_question :
  forall (text_area : nat -> string) (questions : list string),
    keys (UserView.collect_answers text_area questions)
    = map UserView.question_key (seq 1 (length questions)) /\
    length (UserView.collect_answers text_area questions) = length questions /\
    (forall i, 1 <= i <= length questions ->
               get (UserView.question_key i)
                 (UserView.collect_answers text_area questions)
               = Some (text_area i)).
Proof.
  intros text_area questions. unfold UserView.collect_answers.
  rewrite collect_answers_update.
  set (items := map (fun iq : nat * string =>
                       (UserView.question_key (fst iq), text_area (fst iq)))
                  (combine (seq 1 (length questions)) questions)).
  assert (Hfst : map fst items
                 = map UserView.question_key (seq 1 (length questions))).
  { unfold items. rewrite map_map. cbn [fst].
    rewrite <- (map_map fst UserView.question_key).
    now rewrite map_fst_combine by apply length_seq. }
  assert (Hkeys : keys (update_all items [])
                  = map UserView.question_key (seq 1 (length questions))).
  { rewrite keys_update_all, Hfst. apply set_of_list_NoDup_id.
    apply NoDup_map_inj; [apply question_key_inj|apply seq_NoDup]. }
  split; [exact Hkeys|]. split.
  - rewrite <- (length_map fst). fold (keys (update_all items [])).
    now rewrite Hkeys, length_map, length_seq.
  - intros i Hi. apply get_update_all_in.
    + rewrite Hfst. apply in_map. apply in_seq. lia.
    + intros v' Hv'. unfold items in Hv'. apply in_map_iff in Hv'.
      destruct Hv' as ([i' q] & Heq & _). cbn [fst] in Heq.
      pose proof (f_equal fst Heq) as Hk. pose proof (f_equal snd Heq) as Hv.
      cbn [fst snd] in Hk, Hv. apply question_key_inj in Hk. now subst.
Qed.

(** ** The surveys assigned to a user *)

Lemma py_in_email_list email emails :
  UserView.py_in_email email (JList emails) = Ok (listed email emails).
Proof.
  unfold UserView.py_in_email, listed.
  destruct email as [address|]; cbn [py_in]; f_equal;
    induction emails as [|x l IH]; cbn [existsb]; try reflexivity;
    rewrite IH; now destruct x.
Qed.

Lemma assigned_scan_ok email m sv items :
  get "surveys" m = Some (JDict sv) ->
  assignments_are_lists items ->
  (forall sid, ~ dangling email sv items sid) ->
  exists assigned,
    UserView.assigned_scan email (JDict m) items = Ok assigned /\
    forall sid s,
      In (sid, s) assigned <->
      exists emails,
        In (sid, JList emails) items /\ listed email emails = true /\
        get sid sv = Some s.
Proof.
  intros Hsv. induction items as [|[sid0 v0] items IH]; intros Hlists Hnone.
  - exists []. split; [reflexivity|]. intros sid s. split; [intros []|].
    intros (emails & [] & _).
  - destruct (Hlists sid0 v0 (or_introl eq_refl)) as [emails0 ->].
    destruct IH as (more & Hmore & Hiff).
    { intros sid v Hin. apply (Hlists sid v). now right. }
    { intros sid (emails & Hin & Hl & Hg). apply (Hnone sid).
      exists emails. split; [now right|]. auto. }
    cbn [UserView.assigned_scan]. rewrite py_in_email_list. cbn [bind].
    rewrite Hmore.
    destruct (listed email emails0) eqn:El.
    + unfold py_getitem at 1. rewrite Hsv. cbn [bind]. unfold py_getitem.
      destruct (get sid0 sv) as [s0|] eqn:Eg.
      * cbn [bind app]. eexists. split; [reflexivity|].
        intros sid s. cbn [In]. rewrite Hiff. split.
        -- intros [[= <- <-]|(emails & Hin & Hl & Hg)].
           ++ exists emails0. split; [now left|]. auto.
           ++ exists emails. split; [now right|]. auto.
        -- intros (emails & [[= <- <-]|Hin] & Hl & Hg).
           ++ left. congruence.
           ++ right. now exists emails.
      * exfalso. apply (Hnone sid0). exists emails0.
        split; [now left|]. auto.
    + cbn [bind app]. exists more. split; [reflexivity|].
      intros sid s. rewrite Hiff. split.
      * intros (emails & Hin & Hl & Hg). exists emails. split; [now right|]. auto.
      * intros (emails & [[= <- <-]|Hin] & Hl & Hg); [congruence|].
        now exists emails.
Qed.

Lemma assigned_scan_dangling email m sv items sid :
  get "surveys" m = Some (JDict sv) ->
  assignments_are_lists items ->
  dangling email sv items sid ->
  UserView.assigned_scan email (JDict m) items = Raise KeyError.
Proof.
  intros Hsv. induction items as [|[sid0 v0] items IH]; intros Hlists Hd.
  - destruct Hd as (emails & [] & _).
  - destruct (Hlists sid0 v0 (or_introl eq_refl)) as [emails0 ->].
    cbn [UserView.assigned_scan]. rewrite py_in_email_list. cbn [bind].
    assert (Hrest : dangling email sv items sid \/
                    (sid0 = sid /\ listed email emails0 = true
                     /\ get sid0 sv = None)).
    { destruct Hd as (emails & [[= -> ->]|Hin] & Hl & Hg); [now right|].
      left. now exists emails. }
    destruct (listed email emails0) eqn:El.
    + unfold py_getitem at 1. rewrite Hsv. cbn [bind]. unfold py_getitem.
      destruct (get sid0 sv) as [s0|] eqn:Eg; [|reflexivity].
      cbn [bind]. destruct Hrest as [Hrest|(_ & _ & Hg)]; [|congruence].
      rewrite IH; [reflexivity| |assumption].
      intros sid' v Hin. apply (Hlists sid' v). now right.
    + cbn [bind]. destruct Hrest as [Hrest|(_ & Hl & _)]; [|congruence].
      rewrite IH; [reflexivity| |assumption].
      intros sid' v Hin. apply (Hlists sid' v). now right.
Qed.

(** X24: On a document whose assignments are lists of addresses, the user is
    shown exactly the surveys whose assignment lists the chosen address,
    each with its survey record, provided each of them has a record.  An
    assignment that lists the address for a survey without a record
    makes the view raise [KeyError]; a document without assignments
    shows nothing. *)
Theorem assigned_surveys_lists_the_users_surveys :
  forall (email : option string) (w : world) (m sv : dict json),
    load_datafile w = JDict m ->
    get "surveys" m = Some (JDict sv) ->
    (get "assignments" m = None -> UserView.assigned_surveys email w = Ok []) /\
    (forall a,
        get "assignments" m = Some (JDict a) ->
        assignments_are_lists a ->
        ((forall sid, ~ dangling email sv a sid) ->
         exists assigned,
           UserView.assigned_surveys email w = Ok assigned /\
           forall sid s,
             In (sid, s) assigned <->
             exists emails,
               In (sid, JList emails) a /\ listed email emails = true /\
               get sid sv = Some s) /\
        (forall sid, dangling email sv a sid ->
                     UserView.assigned_surveys email w = Raise KeyError)).
Proof.
  intros email w m sv Hload Hsv. unfold UserView.assigned_surveys.
  rewrite Hload. cbv zeta. cbn [UserView.py_get bind]. unfold get_default.
  split.
  - intros ->. reflexivity.
  - intros a -> Hlists. cbn [UserView.py_items bind]. split.
    + intros Hnone. now apply (assigned_scan_ok email m sv a).
    + intros sid Hd. now apply (assigned_scan_dangling email m sv a sid).
Qed.

Lemma assigned_surveys_lists_the_users_surveys_witness :
  UserView.assigned_surveys (Some "a@b.c")
    (mkWorld (Holds (JDict [("surveys", JDict []);
                            ("assignments",
                             JDict [("ab12cd34", JList [JStr "a@b.c"])])]))
       [] None)
  = Raise KeyError.
Proof.
  apply (proj2 (proj2 (assigned_surveys_lists_the_users_surveys (Some "a@b.c")
                         (mkWorld
                            (Holds (JDict [("surveys", JDict []);
                                           ("assignments",
                                            JDict [("ab12cd34",
                                                    JList [JStr "a@b.c"])])]))
                            [] None)
                         [("surveys", JDict []);
                          ("assignments",
                           JDict [("ab12cd34", JList [JStr "a@b.c"])])]
                         [] eq_refl eq_refl)
                  [("ab12cd34", JList [JStr "a@b.c"])] eq_refl
                  (fun sid v H =>
                     match H with
                     | or_introl E =>
                         ex_intro _ [JStr "a@b.c"]
                           (f_equal snd (eq_sym E))
                     | or_intror F => match F with end
                     end))
           "ab12cd34").
  exists [JStr "a@b.c"]. repeat split. now left.
Defined.

(** ** From the admin view to the user view *)

Lemma In_set {V : Type} (k k' : string) (v v' : V) (d : dict V) :
  In (k', v') (set k v d) -> (k' = k /\ v' = v) \/ In (k', v') d.
Proof.
  induction d as [|[k0 v0] d IH]; simpl.
  - intros [[= <- <-]|[]]. now left.
  - destruct (String.eqb_spec k0 k) as [->|Hne]; simpl.
    + intros [[= <- <-]|H]; [now left|right; now right].
    + intros [H|H]; [right; now left|].
      destruct (IH H) as [?|?]; [now left|right; now right].
Qed.

Lemma NoDup_keys_set {V : Type} (k : string) (v : V) (d : dict V) :
  NoDup (keys d) -> NoDup (keys (set k v d)).
Proof.
  intros H. rewrite keys_set. destruct (mem k d) eqn:E; [assumption|].
  apply NoDup_rev in H. rewrite <- (rev_involutive (keys d ++ [k])).
  apply NoDup_rev. rewrite rev_app_distr. simpl. constructor; [|assumption].
  rewrite <- in_rev. intros Hin. apply mem_keys in Hin. congruence.
Qed.

Lemma listed_strings address (emails : list string) :
  listed (Some address) (map JStr emails) = true <-> In address emails.
Proof.
  unfold listed. rewrite existsb_exists. split.
  - intros (x & Hx & Heq). apply in_map_iff in Hx.
    destruct Hx as (e & <- & He). apply String.eqb_eq in Heq. now subst.
  - intros Hin. exists (JStr address). split; [now apply in_map|].
    apply String.eqb_refl.
Qed.

(** X25: After a survey is created, the users it was assigned to, and only
    they, find it among their surveys, with the record that was stored;
    the view does not raise if it did not raise before. *)
Theorem created_survey_is_shown_to_its_assignees :
  forall (form : create_form) (random : N) (w : world) (m sv a : dict json)
         (address : string),
    accepted form ->
    load_datafile w = JDict m ->
    get "surveys" m = Some (JDict sv) ->
    get "assignments" m = Some (JDict a) ->
    NoDup (keys a) ->
    assignments_are_lists a ->
    (forall sid, ~ dangling (Some address) sv a sid) ->
    exists (m1 : dict json) (survey : json) (assigned : list (string * json)),
      create_and_save_survey form random w
      = (Ok (St_success (generate_survey_id random)),
         save_datafile (JDict m1) w) /\
      entry "surveys" (generate_survey_id random) m1 = Some survey /\
      UserView.assigned_surveys (Some address) (save_datafile (JDict m1) w)
      = Ok assigned /\
      (In (generate_survey_id random, survey) assigned <->
       In address (selected_emails form)).
Proof.
  intros form random w m sv a address [(p & Hp & Hpne) Hskills]
    Hload Hsv Ha Hnd Hlists Hnone.
  set (sid := generate_survey_id random).
  set (survey := survey_record sid form
                   (stripped_nonempty (PyStr.split "," (skills_input form)))
                   (stripped_nonempty (PyStr.splitlines (questions_input form)))).
  set (emails := JList (map JStr (selected_emails form))).
  set (m1 := put_in "assignments" sid emails (put_in "surveys" sid survey m)).
  assert (Hsv1 : get "surveys" m1 = Some (JDict (set sid survey sv))).
  { unfold m1. rewrite get_put_in_other by discriminate.
    unfold put_in. rewrite Hsv. apply get_set_eq. }
  assert (Ha1 : get "assignments" m1 = Some (JDict (set sid emails a))).
  { unfold m1, put_in at 1. rewrite get_put_in_other by discriminate.
    rewrite Ha. apply get_set_eq. }
  assert (Hlists1 : assignments_are_lists (set sid emails a)).
  { intros sid' v Hin. apply In_set in Hin.
    destruct Hin as [[_ ->]|Hin]; [now exists (map JStr (selected_emails form))|].
    now apply (Hlists sid' v). }
  assert (Hnone1 : forall sid', ~ dangling (Some address) (set sid survey sv)
                                  (set sid emails a) sid').
  { intros sid' (es & Hin & Hl & Hg).
    destruct (String.eqb_spec sid' sid) as [->|Hne].
    - rewrite get_set_eq in Hg. discriminate.
    - rewrite get_set_neq in Hg by assumption.
      apply In_set in Hin. destruct Hin as [[? _]|Hin]; [contradiction|].
      apply (Hnone sid'). now exists es. }
  destruct (assigned_scan_ok (Some address) m1 (set sid survey sv)
              (set sid emails a) Hsv1 Hlists1 Hnone1) as (assigned & Hscan & Hiff).
  exists m1, survey, assigned.
  split.
  { unfold create_and_save_survey. rewrite Hp.
    destruct p as [|c p]; [congruence|].
    destruct (stripped_nonempty (PyStr.split "," (skills_input form)))
      as [|s0 skills0] eqn:Esk; [congruence|].
    cbv zeta. rewrite Hload. fold sid.
    rewrite py_setdefault_setitem_dict by (right; eauto). cbn [bind].
    rewrite py_setdefault_setitem_dict; [reflexivity|].
    right. exists a. now rewrite get_put_in_other by discriminate. }
  split.
  { unfold m1. rewrite entry_put_in_other by discriminate.
    apply entry_put_in_eq. }
  split.
  { unfold UserView.assigned_surveys. cbv zeta.
    change (load_datafile (save_datafile (JDict m1) w)) with (JDict m1).
    cbn [UserView.py_get bind]. unfold get_default. rewrite Ha1.
    cbn [UserView.py_items bind]. exact Hscan. }
  rewrite Hiff. split.
  - intros (es & Hin & Hl & _).
    assert (Hes : JList es = emails).
    { assert (Hget : get sid (set sid emails a) = Some (JList es)).
      { apply In_get_NoDup; [now apply NoDup_keys_set|assumption]. }
      rewrite get_set_eq in Hget. congruence. }
    injection Hes as ->. now apply listed_strings.
  - intros Hin. exists (map JStr (selected_emails form)).
    split; [|split].
    + apply get_In. apply get_set_eq.
    + now apply listed_strings.
    + apply get_set_eq.
Qed.

Lemma created_survey_is_shown_to_its_assignees_witness :
  exists (m1 : dict json) (survey : json) (assigned : list (string * json)),
    UserView.assigned_surveys (Some "a@b.c")
      (save_datafile (JDict m1)
         (mkWorld (Holds (JDict [("surveys", JDict []);
                                 ("assignments", JDict [])])) [] None))
    = Ok assigned /\
    In (generate_survey_id 7, survey) assigned.
Proof.
  assert (Hacc : accepted (mkForm (Some "Data Migration") None "SQL" "Q?"
                             ["a@b.c"; "d@e.f"])).
  { split.
    - exists "Data Migration". split; [reflexivity|discriminate].
    - vm_compute. discriminate. }
  destruct (created_survey_is_shown_to_its_assignees
              (mkForm (Some "Data Migration") None "SQL" "Q?" ["a@b.c"; "d@e.f"])
              7
              (mkWorld (Holds (JDict [("surveys", JDict []);
                                      ("assignments", JDict [])])) [] None)
              [("surveys", JDict []); ("assignments", JDict [])] [] []
              "a@b.c" Hacc eq_refl eq_refl eq_refl (NoDup_nil _)
              (fun sid v (H : In (sid, v) []) => match H with end)
              (fun sid H => match H with
                            | ex_intro _ _ (conj F _) => match F with end
                            end))
    as (m1 & survey & assigned & _ & _ & Hrun & Hiff).
  exists m1, survey, assigned. split; [exact Hrun|].
  apply Hiff. simpl. auto.
Defined.

(** ** The export *)

Lemma export_row_update sv r :
  export_row sv r
  = update_all (map (fun kv : string * string => (fst kv, Text (snd kv)))
                  (answers r))
      (update_all (flat_map (skill_columns r) (or_default (skills sv) []))
         (fixed_columns r)).
Proof.
  unfold export_row. cbv zeta. fold (fixed_columns r).
  generalize (fixed_columns r) as base.
  generalize (or_default (skills sv) []) as skls.
  assert (Hanswers : forall (l : list (string * string)) (d : dict cell),
             fold_left (fun base (kv : string * string) =>
                          let (k, v) := kv in set k (Text v) base) l d
             = update_all (map (fun kv : string * string =>
                                  (fst kv, Text (snd kv))) l) d).
  { induction l as [|[k v] l IH]; intros d; [reflexivity|].
    cbn [fold_left map fst snd]. now rewrite IH. }
  intros skls base. rewrite Hanswers. f_equal.
  revert base. induction skls as [|skl skls IH]; intros base; [reflexivity|].
  cbn [fold_left flat_map]. rewrite IH. reflexivity.
Qed.

Lemma append_inj_l (p a b : string) : (p ++ a = p ++ b)%string -> a = b.
Proof. induction p as [|c p IH]; simpl; [auto|]. intros [= H]. auto. Qed.

Lemma skill_columns_In r skls k v :
  In (k, v) (flat_map (skill_columns r) skls) ->
  exists skl, In skl skls /\ In (k, v) (skill_columns r skl).
Proof.
  intros H. apply in_flat_map in H. destruct H as (skl & Hskl & Hin). eauto.
Qed.

Lemma get_skill_columns r skls d skl k v :
  In skl skls ->
  In (k, v) (skill_columns r skl) ->
  get k (update_all (flat_map (skill_columns r) skls) d) = Some v.
Proof.
  intros Hskl Hkv. apply get_update_all_in.
  - apply in_map_iff. exists (k, v). split; [reflexivity|].
    apply in_flat_map. eauto.
  - intros v' Hv'. apply skill_columns_In in Hv'.
    destruct Hv' as (skl' & _ & Hin').
    unfold skill_columns in Hkv, Hin'. cbn [In] in Hkv, Hin'.
    destruct Hkv as [Hkv|[Hkv|[]]], Hin' as [Hin'|[Hin'|[]]];
      injection Hkv as Hk Hv; injection Hin' as Hk' Hv'; subst k;
      try discriminate Hk'.
    + apply (append_inj_l "has_") in Hk'. now subst.
    + apply (append_inj_l "rating_") in Hk'. now subst.
Qed.

Lemma keys_answers_cells (l : dict string) :
  map fst (map (fun kv : string * string => (fst kv, Text (snd kv))) l) = keys l.
Proof. unfold keys. rewrite map_map. reflexivity. Qed.

(** X26: In an exported row the answers are written last, so an answer
    replaces any column that has its key.  Where no answer interferes,
    the row holds the four fixed columns and, for every skill of the
    survey, whether the response selected it and the rating the response
    holds for it, empty when it holds none. *)
Theorem export_row_columns :
  forall (sv : survey) (r : response),
    (forall k v,
        In k (keys (answers r)) ->
        (forall v', In (k, v') (answers r) -> v' = v) ->
        get k (export_row sv r) = Some (Text v)) /\
    (forall k,
        In k (keys (fixed_columns r)) -> ~ In k (keys (answers r)) ->
        get k (export_row sv r) = get k (fixed_columns r)) /\
    (forall skl,
        In skl (or_default (skills sv) []) ->
        (~ In ("has_" ++ skl)%string (keys (answers r)) ->
         get ("has_" ++ skl)%string (export_row sv r)
         = Some (Flag (selects skl r))) /\
        (~ In ("rating_" ++ skl)%string (keys (answers r)) ->
         get ("rating_" ++ skl)%string (export_row sv r)
         = Some (match get skl (or_default (skill_ratings r) []) with
                 | Some rating => Text rating
                 | None => Blank
                 end))).
Proof.
  intros sv r. rewrite export_row_update. split; [|split].
  - intros k v Hk Hsame. apply get_update_all_in.
    + now rewrite keys_answers_cells.
    + intros v' Hv'. apply in_map_iff in Hv'.
      destruct Hv' as ([k0 v0] & [= -> <-] & Hin). cbn [snd]. f_equal.
      now apply Hsame.
  - intros k Hk Hout.
    rewrite get_update_all_out by now rewrite keys_answers_cells.
    apply get_update_all_out. intros Hin. apply in_map_iff in Hin.
    destruct Hin as ([k0 v0] & Hk0 & Hin). cbn [fst] in Hk0. subst k0.
    apply skill_columns_In in Hin. destruct Hin as (skl & _ & Hin).
    unfold skill_columns in Hin. cbn [In] in Hin. cbn [fixed_columns keys map fst In] in Hk.
    destruct Hin as [[= <- _]|[[= <- _]|[]]];
      repeat (destruct Hk as [Hk|Hk]; [discriminate Hk|]); destruct Hk.
  - intros skl Hskl. split; intros Hout;
      rewrite get_update_all_out by now rewrite keys_answers_cells.
    + apply (get_skill_columns r _ _ skl); [assumption|]. now left.
    + apply (get_skill_columns r _ _ skl); [assumption|]. right. now left.
Qed.

Lemma export_rows_fold sv resp_list (acc : list (dict cell)) :
  fold_left (fun export_rows r => export_rows ++ [export_row sv r]) resp_list acc
  = acc ++ map (export_row sv) resp_list.
Proof.
  revert acc. induction resp_list as [|r resp_list IH]; intros acc; simpl.
  - now rewrite app_nil_r.
  - now rewrite IH, <- app_assoc.
Qed.

(** X27: The export has one row per response, in the order of the responses,
    and none at all (a warning is shown) when there is no response.  In
    the row of a response that selected a skill without holding a rating
    for it, the rating column is empty, although the aggregation counts
    that selection as "Low". *)
Theorem export_rows_one_per_response :
  forall (sv : survey) (resp_list : list response),
    (export_rows sv resp_list = None <-> resp_list = []) /\
    (forall rows,
        export_rows sv resp_list = Some rows ->
        rows = map (export_row sv) resp_list /\
        length rows = length resp_list) /\
    (forall r skl,
        In skl (or_default (skills sv) []) ->
        In skl (selected r) ->
        get skl (or_default (skill_ratings r) []) = None ->
        ~ In ("rating_" ++ skl)%string (keys (answers r)) ->
        rating_of r skl = "Low" /\
        get ("rating_" ++ skl)%string (export_row sv r) = Some Blank).
Proof.
  intros sv resp_list. split; [|split].
  - unfold export_rows. destruct resp_list; split; congruence.
  - intros rows. unfold export_rows. destruct resp_list as [|r0 l]; [discriminate|].
    intros [= <-]. rewrite export_rows_fold. cbn [app].
    split; [reflexivity|]. simpl. now rewrite length_map.
  - intros r skl Hskl Hsel Hnone Hout. split.
    + unfold rating_of, get_default. now rewrite Hnone.
    + rewrite export_row_update.
      rewrite get_update_all_out by now rewrite keys_answers_cells.
      rewrite (get_skill_columns r _ _ skl ("rating_" ++ skl)%string Blank);
        [reflexivity|assumption|].
      unfold skill_columns. rewrite Hnone. right. now left.
Qed.
